(** * Weather-station firmware (src/main.py): a shallow embedding

    The firmware is MicroPython: one sequential control flow that talks to
    a WLAN interface, an HTTP client, a character LCD and a millisecond
    tick counter.  The embedding keeps that shape:

    - JSON documents and the other dynamically typed values are [pyval];
    - every effect goes through a small state-and-exception monad [M] over
      a [world] (clock, radio switch, time-stamped event trace) and an
      environment [env] of oracles that answer the external calls;
    - each function of main.py that the verified properties touch is
      transcribed statement by statement, with its source lines quoted;
    - time passes in [sleep] and [sleep_ms] only, by exactly their
      argument; every other call returns within the same tick;
    - an external call may raise only where every call site in main.py
      stands under a [try]: the WLAN getters, [connect] and [utime] return. *)

From Stdlib Require Import ZArith List String Ascii Bool Lia QArith Qround Qabs.
From Stdlib Require Import DecimalString.
Import ListNotations.
Open Scope string_scope.
Open Scope Z_scope.

Set Implicit Arguments.
Set Warnings "-register-all".

(* ------------------------------------------------------------------ *)
(** * Python values *)

(** A MicroPython float.  Finite values are kept as exact rationals:
    binary rounding is outside the model, the special values are not. *)
Inductive pyfloat : Type :=
| Fin (q : Q)
| Inf (negative : bool)
| NaN.

(** What [ujson] decodes to, and what the firmware passes around. *)
Inductive pyval : Type :=
| PNone
| PBool (b : bool)
| PInt (z : Z)
| PFloat (f : pyfloat)
| PStr (s : string)
| PList (l : list pyval)
| PDict (d : list (string * pyval)).

Inductive exn_class : Type :=
| TypeError | ValueError | AttributeError | OverflowError | OSError.

(** An exception object; [str(e)] is its message. *)
Record exn : Type := mkExn { exn_cls : exn_class; exn_msg : string }.

Definition is_TypeError (e : exn) : bool :=
  match exn_cls e with TypeError => true | _ => false end.

(* ------------------------------------------------------------------ *)
(** * Strings *)

Definition len (s : string) : Z := Z.of_nat (String.length s).

Fixpoint str_take (n : nat) (s : string) : string :=
  match n, s with
  | S n', String c s' => String c (str_take n' s')
  | _, _ => EmptyString
  end.

Fixpoint str_repeat (s : string) (n : nat) : string :=
  match n with
  | O => EmptyString
  | S n' => s ++ str_repeat s n'
  end.

(** [s[:n]]: a negative bound counts from the end. *)
Definition py_slice_to (s : string) (n : Z) : string :=
  if n <? 0 then str_take (Z.to_nat (len s + n)) s
  else str_take (Z.to_nat n) s.

(** [s * n]: empty for [n <= 0]. *)
Definition py_str_mul (s : string) (n : Z) : string := str_repeat s (Z.to_nat n).

Definition string_of_Z (z : Z) : string := NilZero.string_of_int (Z.to_int z).

(** [s.startswith(p)] *)
Fixpoint starts_with (p s : string) : bool :=
  match p with
  | EmptyString => true
  | String a p' =>
      match s with
      | String b s' => Ascii.eqb a b && starts_with p' s'
      | EmptyString => false
      end
  end.

(** Truthiness of a [str]. *)
Definition str_truthy (s : string) : bool :=
  match s with EmptyString => false | _ => true end.

(* ------------------------------------------------------------------ *)
(** * Number parsing: [float(str)] and [int(str)] *)

(** The firmware hands the strings of a JSON document to [float()] and
    [int()], so which strings they take decides what [is_number] lets
    through.  The readers below follow the ones of MicroPython
    (py/parsenum.c), which are laxer than the grammar of Python: an
    underscore is skipped wherever it stands in a number ("5_0.08",
    "1_000", "_1"), and a number needs no digit as long as something of
    it was read (".").  The limits of a binary float and of a machine
    integer are outside the model. *)

Definition is_space (c : ascii) : bool :=
  match c with
  | " "%char => true
  | "009"%char | "010"%char | "011"%char | "012"%char | "013"%char => true
  | _ => false
  end.

Definition digit_of (c : ascii) : option Z :=
  let n := Z.of_nat (nat_of_ascii c) in
  if (48 <=? n) && (n <=? 57) then Some (n - 48) else None.

Definition lower (c : ascii) : ascii :=
  let n := nat_of_ascii c in
  if (65 <=? n)%nat && (n <=? 90)%nat then ascii_of_nat (n + 32) else c.

Fixpoint drop_spaces (l : list ascii) : list ascii :=
  match l with
  | c :: l' => if is_space c then drop_spaces l' else l
  | [] => []
  end.

Definition read_sign (l : list ascii) : bool * list ascii :=
  match l with
  | "-"%char :: l' => (true, l')
  | "+"%char :: l' => (false, l')
  | _ => (false, l)
  end.

Definition all_spaces (l : list ascii) : bool := forallb is_space l.

Definition pow10 (e : Z) : Q :=
  if e <? 0 then 1 # Z.to_pos (10 ^ (- e)) else inject_Z (10 ^ e).

(** Where the reader of a decimal number stands: in the integer part,
    after the point, in the exponent. *)
Inductive parse_dec_in : Type :=
| PARSE_DEC_IN_INTG
| PARSE_DEC_IN_FRAC
| PARSE_DEC_IN_EXP.

(** The loop of the reader, character by character.  A digit goes into
    the mantissa [dec] (and is counted in [frac] after the point) or
    into the exponent [ex].  A point is taken in the integer part only;
    [e] or [E] is taken once, with the sign that follows it if there is
    one, and is an error when the text ends there.  An underscore is
    skipped.  Any other character ends the number.  The result is what
    was read and the text that is left. *)
Fixpoint read_number (l : list ascii) (st : parse_dec_in) (dec frac : Z)
    (exp_neg : bool) (ex : Z) : option (Z * Z * bool * Z * list ascii) :=
  match l with
  | [] => Some (dec, frac, exp_neg, ex, [])
  | c :: l' =>
      match digit_of c with
      | Some d =>
          match st with
          | PARSE_DEC_IN_INTG => read_number l' st (10 * dec + d) frac exp_neg ex
          | PARSE_DEC_IN_FRAC =>
              read_number l' st (10 * dec + d) (frac + 1) exp_neg ex
          | PARSE_DEC_IN_EXP => read_number l' st dec frac exp_neg (10 * ex + d)
          end
      | None =>
          match st with
          | PARSE_DEC_IN_INTG =>
              if Ascii.eqb c "." then
                read_number l' PARSE_DEC_IN_FRAC dec frac exp_neg ex
              else if Ascii.eqb (lower c) "e" then
                match l' with
                | [] => None
                | s :: l2 =>
                    if Ascii.eqb s "+" || Ascii.eqb s "-" then
                      match l2 with
                      | [] => None
                      | _ :: _ =>
                          read_number l2 PARSE_DEC_IN_EXP dec frac
                            (Ascii.eqb s "-") ex
                      end
                    else read_number l' PARSE_DEC_IN_EXP dec frac exp_neg ex
                end
              else if Ascii.eqb c "_" then read_number l' st dec frac exp_neg ex
              else Some (dec, frac, exp_neg, ex, l)
          | PARSE_DEC_IN_FRAC =>
              if Ascii.eqb (lower c) "e" then
                match l' with
                | [] => None
                | s :: l2 =>
                    if Ascii.eqb s "+" || Ascii.eqb s "-" then
                      match l2 with
                      | [] => None
                      | _ :: _ =>
                          read_number l2 PARSE_DEC_IN_EXP dec frac
                            (Ascii.eqb s "-") ex
                      end
                    else read_number l' PARSE_DEC_IN_EXP dec frac exp_neg ex
                end
              else if Ascii.eqb c "_" then read_number l' st dec frac exp_neg ex
              else Some (dec, frac, exp_neg, ex, l)
          | PARSE_DEC_IN_EXP =>
              if Ascii.eqb c "_" then read_number l' st dec frac exp_neg ex
              else Some (dec, frac, exp_neg, ex, l)
          end
      end
  end.

(** A decimal number: the loop must have read something, and only
    blanks may follow. *)
Definition read_decimal (neg : bool) (l : list ascii) : option pyfloat :=
  match read_number l PARSE_DEC_IN_INTG 0 0 false 0 with
  | Some (dec, frac, exp_neg, ex, rest) =>
      if (List.length rest <? List.length l)%nat && all_spaces rest then
        let q := Qred (inject_Z dec
                       * pow10 ((if exp_neg then - ex else ex) - frac))%Q in
        Some (Fin (if neg then Qred (- q)%Q else q))
      else None
  | None => None
  end.

Definition word_is (w : string) (l : list ascii) : bool :=
  let n := String.length w in
  String.eqb (string_of_list_ascii (map lower (firstn n l))) w
  && all_spaces (skipn n l).

(** [float(s)] on a string: blanks, a sign, then [inf], [infinity] or
    [nan] (in any case) or a decimal number, then blanks. *)
Definition float_of_string (s : string) : option pyfloat :=
  let '(neg, l) := read_sign (drop_spaces (list_ascii_of_string s)) in
  if word_is "inf" l || word_is "infinity" l then Some (Inf neg)
  else if word_is "nan" l then Some NaN
  else read_decimal neg l.

(** The digits of [int(s)], base 10: an underscore is skipped, any
    other character ends the number. *)
Fixpoint read_int (l : list ascii) (acc : Z) : Z * list ascii :=
  match l with
  | [] => (acc, [])
  | c :: l' =>
      match digit_of c with
      | Some d => read_int l' (10 * acc + d)
      | None => if Ascii.eqb c "_" then read_int l' acc else (acc, l)
      end
  end.

(** [int(s)] on a string: blanks, a sign, the number, blanks. *)
Definition int_of_string (s : string) : option Z :=
  let '(neg, l) := read_sign (drop_spaces (list_ascii_of_string s)) in
  let '(n, rest) := read_int l 0 in
  if (List.length rest <? List.length l)%nat && all_spaces rest
  then Some (if neg then - n else n)
  else None.

(** Truncation toward zero, as [int(float)] does. *)
Definition Qtrunc (q : Q) : Z := Z.quot (Qnum q) (Z.pos (Qden q)).

(* ------------------------------------------------------------------ *)
(** * Outcomes of a call *)

Inductive outcome (A : Type) : Type :=
| Val (a : A)
| Raise (e : exn)
| OutOfFuel.
Arguments Raise {A} e.
Arguments OutOfFuel {A}.

(** [float(x)] *)
Definition py_float (x : pyval) : outcome pyfloat :=
  match x with
  | PBool b => Val (Fin (if b then 1 else 0)%Q)
  | PInt z => Val (Fin (inject_Z z))
  | PFloat f => Val f
  | PStr s =>
      match float_of_string s with
      | Some f => Val f
      | None => Raise (mkExn ValueError "invalid syntax for number")
      end
  | PNone | PList _ | PDict _ =>
      Raise (mkExn TypeError "can't convert to float")
  end.

(** [int(x)] *)
Definition py_int (x : pyval) : outcome Z :=
  match x with
  | PBool b => Val (if b then 1 else 0)
  | PInt z => Val z
  | PFloat (Fin q) => Val (Qtrunc q)
  | PFloat (Inf _) => Raise (mkExn OverflowError "can't convert inf to int")
  | PFloat NaN => Raise (mkExn ValueError "can't convert NaN to int")
  | PStr s =>
      match int_of_string s with
      | Some z => Val z
      | None => Raise (mkExn ValueError "invalid syntax for integer")
      end
  | PNone | PList _ | PDict _ =>
      Raise (mkExn TypeError "can't convert to int")
  end.

(** Truth value of an object. *)
Definition truthy (x : pyval) : bool :=
  match x with
  | PNone => false
  | PBool b => b
  | PInt z => negb (z =? 0)
  | PFloat (Fin q) => negb (Qeq_bool q 0)
  | PFloat _ => true
  | PStr s => str_truthy s
  | PList l => match l with [] => false | _ => true end
  | PDict d => match d with [] => false | _ => true end
  end.

(** [a or b] *)
Definition py_or (a b : pyval) : pyval := if truthy a then a else b.

Fixpoint assoc (k : string) (d : list (string * pyval)) : option pyval :=
  match d with
  | [] => None
  | (k', v) :: d' => if String.eqb k k' then Some v else assoc k d'
  end.

(** [x.get(key, default)]: only a dict has the method. *)
Definition py_get (x : pyval) (key : string) (default : pyval) : outcome pyval :=
  match x with
  | PDict d => Val (match assoc key d with Some v => v | None => default end)
  | _ => Raise (mkExn AttributeError "object has no attribute 'get'")
  end.

(** [cur[key]] with a string key: a dict that has it, else it raises. *)
Definition py_index (cur : pyval) (key : string) : option pyval :=
  match cur with
  | PDict d => assoc key d
  | _ => None
  end.

(** main.py 36-43
<<
def safe_get(dct, path, default=None):
    cur = dct
    try:
        for key in path:
            cur = cur[key]
        return cur
    except Exception:
        return default
>> *)
Fixpoint safe_get_walk (cur : pyval) (path : list string) : option pyval :=
  match path with
  | [] => Some cur
  | key :: path' =>
      match py_index cur key with
      | Some v => safe_get_walk v path'
      | None => None
      end
  end.

Definition safe_get (dct : pyval) (path : list string) (default : pyval) : pyval :=
  match safe_get_walk dct path with
  | Some v => v
  | None => default
  end.

(** main.py 53-58
<<
def is_number(x):
    try:
        float(x)
        return True
    except Exception:
        return False
>> *)
Definition is_number (x : pyval) : bool :=
  match py_float x with
  | Val _ => true
  | _ => false
  end.

(* ------------------------------------------------------------------ *)
(** * The tick counter ([utime]) *)

(** [utime.ticks_ms()] wraps around; on the 32-bit ports the period is
    2^30.  [ticks_diff] and [ticks_add] are the documented ring
    arithmetic on that period. *)
Definition TICKS_PERIOD : Z := 2 ^ 30.

Definition ticks_diff (a b : Z) : Z :=
  (a - b + TICKS_PERIOD / 2) mod TICKS_PERIOD - TICKS_PERIOD / 2.

Definition ticks_add (a d : Z) : Z := (a + d) mod TICKS_PERIOD.

(* ------------------------------------------------------------------ *)
(** * The outside world *)

(** [wlan.ifconfig()] *)
Record netcfg : Type :=
  mkNetcfg { cfg_ip : string; cfg_mask : string; cfg_gw : string; cfg_dns : string }.

(** What one [urequests.get] call does: raise, or hand back a response
    with a status code and a body that decodes ([Some]) or not. *)
Inductive http_reply : Type :=
| HttpRaise (e : exn)
| HttpResp (status : Z) (body : option pyval).

Record response : Type := mkResponse { status_code : Z; json_body : option pyval }.

(** The environment answers the external calls, the n-th call of a kind
    with the n-th answer.  A call may raise where main.py guards every
    use of it with [try]; the WLAN getters, [connect] and [utime] return. *)
Record env : Type := mkEnv {
  isconnected_at : nat -> bool;
  disconnect_at : nat -> option exn;
  ifconfig_at : nat -> netcfg;
  getaddrinfo_at : nat -> exn + string;
  urequests_get_at : nat -> http_reply;
  lcd_at : nat -> option exn;
  localtime_at : nat -> Z * Z * Z
}.

Inductive event : Type :=
| EvLog (line : string)
| EvSleep (ms : Z)
| EvWlanActive (on : bool)
| EvWlanConnect (ssid password : string)
| EvWlanDisconnect
| EvGetaddrinfo (host : string) (port : Z)
| EvGet (url : string) (timeout : option Z)
| EvClose
| EvLcdClear
| EvLcdSetCursor (col row : Z)
| EvLcdWrite (text : string).

(** The state the firmware acts on: the millisecond clock since boot,
    the radio switch, how many calls of each kind were made, and the
    events so far, newest first, each with the clock at which it started. *)
Record world : Type := mkWorld {
  clock : Z;
  radio : bool;
  n_isconnected : nat;
  n_disconnect : nat;
  n_ifconfig : nat;
  n_getaddrinfo : nat;
  n_get : nat;
  n_lcd : nat;
  n_localtime : nat;
  trace : list (Z * event)
}.

(** The display handle: [None] when the driver failed to initialise. *)
Record Lcd_i2c : Type := mkLcd { lcd_cols : Z; lcd_rows : Z }.

(* ------------------------------------------------------------------ *)
(** * The monad: state, exceptions, fuel *)

Definition M (A : Type) : Type := world -> outcome A * world.

Definition ret {A} (a : A) : M A := fun w => (Val a, w).

Definition bind {A B} (m : M A) (k : A -> M B) : M B :=
  fun w =>
    match m w with
    | (Val a, w') => k a w'
    | (Raise e, w') => (Raise e, w')
    | (OutOfFuel, w') => (OutOfFuel, w')
    end.

Definition raise {A} (e : exn) : M A := fun w => (Raise e, w).

Definition out_of_fuel {A} : M A := fun w => (OutOfFuel, w).

(** A pure computation that may raise. *)
Definition lift {A} (o : outcome A) : M A := fun w => (o, w).

(** [try: m  except Exception as e: h e] *)
Definition try_except {A} (m : M A) (h : exn -> M A) : M A :=
  fun w =>
    match m w with
    | (Raise e, w') => h e w'
    | r => r
    end.

(** [try: m  except TypeError: h] *)
Definition try_except_TypeError {A} (m : M A) (h : M A) : M A :=
  fun w =>
    match m w with
    | (Raise e, w') => if is_TypeError e then h w' else (Raise e, w')
    | r => r
    end.

(** Runs [m] and hands its exception, if any, to the caller as a value. *)
Definition attempt {A} (m : M A) : M (exn + A) :=
  fun w =>
    match m w with
    | (Val a, w') => (Val (inr a), w')
    | (Raise e, w') => (Val (inl e), w')
    | (OutOfFuel, w') => (OutOfFuel, w')
    end.

Declare Scope monad_scope.
Delimit Scope monad_scope with monad.
Notation "x <- m ;; k" := (bind m (fun x => k))
  (at level 61, m at next level, right associativity) : monad_scope.
Notation "' pat <- m ;; k" := (bind m (fun x => match x with pat => k end))
  (at level 61, pat pattern, m at next level, right associativity) : monad_scope.
Notation "m ;; k" := (bind m (fun _ => k))
  (at level 61, right associativity) : monad_scope.
Open Scope monad_scope.

(** [for x in xs: body x], where the body may leave the loop with a
    value ([Some r]: a [return] or [break]) or go on ([None]). *)
Fixpoint for_in {A R} (xs : list A) (body : A -> M (option R)) : M (option R) :=
  match xs with
  | [] => ret None
  | x :: xs' =>
      r <- body x ;;
      match r with
      | Some v => ret (Some v)
      | None => for_in xs' body
      end
  end.

(** [while True: body], run for [iters] rounds. *)
Fixpoint forever (iters : nat) (body : M unit) : M unit :=
  match iters with
  | O => out_of_fuel
  | S n => body ;; forever n body
  end.

(* ------------------------------------------------------------------ *)
(** * World updates *)

Definition emit_at (ev : event) (w : world) : world :=
  mkWorld (clock w) (radio w) (n_isconnected w) (n_disconnect w) (n_ifconfig w)
    (n_getaddrinfo w) (n_get w) (n_lcd w) (n_localtime w)
    ((clock w, ev) :: trace w).

Definition advance (ms : Z) (w : world) : world :=
  mkWorld (clock w + ms) (radio w) (n_isconnected w) (n_disconnect w)
    (n_ifconfig w) (n_getaddrinfo w) (n_get w) (n_lcd w) (n_localtime w)
    (trace w).

Definition set_radio (b : bool) (w : world) : world :=
  mkWorld (clock w) b (n_isconnected w) (n_disconnect w) (n_ifconfig w)
    (n_getaddrinfo w) (n_get w) (n_lcd w) (n_localtime w) (trace w).

Definition bump_isconnected (w : world) : world :=
  mkWorld (clock w) (radio w) (S (n_isconnected w)) (n_disconnect w)
    (n_ifconfig w) (n_getaddrinfo w) (n_get w) (n_lcd w) (n_localtime w)
    (trace w).

Definition bump_disconnect (w : world) : world :=
  mkWorld (clock w) (radio w) (n_isconnected w) (S (n_disconnect w))
    (n_ifconfig w) (n_getaddrinfo w) (n_get w) (n_lcd w) (n_localtime w)
    (trace w).

Definition bump_ifconfig (w : world) : world :=
  mkWorld (clock w) (radio w) (n_isconnected w) (n_disconnect w)
    (S (n_ifconfig w)) (n_getaddrinfo w) (n_get w) (n_lcd w) (n_localtime w)
    (trace w).

Definition bump_getaddrinfo (w : world) : world :=
  mkWorld (clock w) (radio w) (n_isconnected w) (n_disconnect w)
    (n_ifconfig w) (S (n_getaddrinfo w)) (n_get w) (n_lcd w) (n_localtime w)
    (trace w).

Definition bump_get (w : world) : world :=
  mkWorld (clock w) (radio w) (n_isconnected w) (n_disconnect w)
    (n_ifconfig w) (n_getaddrinfo w) (S (n_get w)) (n_lcd w) (n_localtime w)
    (trace w).

Definition bump_lcd (w : world) : world :=
  mkWorld (clock w) (radio w) (n_isconnected w) (n_disconnect w)
    (n_ifconfig w) (n_getaddrinfo w) (n_get w) (S (n_lcd w)) (n_localtime w)
    (trace w).

Definition bump_localtime (w : world) : world :=
  mkWorld (clock w) (radio w) (n_isconnected w) (n_disconnect w)
    (n_ifconfig w) (n_getaddrinfo w) (n_get w) (n_lcd w) (S (n_localtime w))
    (trace w).

(* ------------------------------------------------------------------ *)
(** * What the firmware keeps *)

(** The location the firmware keeps: the dict built at main.py 213. *)
Record geo : Type :=
  mkGeo { lat : pyfloat; lon : pyfloat; city : pyval; country : pyval }.

(** The sample the firmware keeps: the dict built at main.py 245-251. *)
Record weather : Type := mkWeather {
  temp : pyfloat;
  humidity : option Z;
  pressure : option Z;
  wind : option pyfloat;
  desc : pyval
}.

(** What main keeps across the iterations of its polling loop. *)
Record loop_state : Type := mkLoop {
  last_weather : option weather;
  next_fetch : Z;
  heartbeat : Z
}.

(* ------------------------------------------------------------------ *)
(** * Environments and inputs of the examples *)

(** A float printer for the examples. *)
Definition plain_str (x : pyval) : string := "?".

Definition cfg0 : netcfg :=
  mkNetcfg "192.168.1.20" "255.255.255.0" "192.168.1.1" "192.168.1.1".

(** No access point, no network: every poll says "not connected", every
    name lookup and every request raises. *)
Definition env_down : env :=
  mkEnv (fun _ => false) (fun _ => None) (fun _ => cfg0)
    (fun _ => inl (mkExn OSError "-2"))
    (fun _ => HttpRaise (mkExn OSError "ECONNRESET"))
    (fun _ => None) (fun _ => (12, 0, 5)).

(** Connected throughout; the name lookups still fail. *)
Definition env_up : env :=
  mkEnv (fun _ => true) (fun _ => None) (fun _ => cfg0)
    (fun _ => inl (mkExn OSError "-2"))
    (fun _ => HttpRaise (mkExn OSError "ECONNRESET"))
    (fun _ => None) (fun _ => (12, 0, 5)).

(** The interface comes up at its fourth poll. *)
Definition env_late : env :=
  mkEnv (fun n => (3 <=? n)%nat) (fun _ => None) (fun _ => cfg0)
    (fun n => match n with O => inr "208.95.112.1" | _ => inl (mkExn OSError "-2") end)
    (fun _ => HttpRaise (mkExn OSError "ECONNRESET"))
    (fun _ => None) (fun _ => (12, 0, 5)).

Definition geo_body : pyval :=
  PDict [("lat", PStr "50.08"); ("lon", PFloat (Fin (1443 # 100)))].

Definition weather_body : pyval :=
  PDict [("main", PDict [("temp", PFloat (Fin (237 # 10)));
                         ("humidity", PFloat (Fin (557 # 10)));
                         ("pressure", PFloat (Fin (10139 # 10)))]);
         ("wind", PDict [("speed", PFloat (Fin (34 # 10)))])].

(** The first request is answered with [geo_body], the later ones with
    [weather_body]. *)
Definition env_net : env :=
  mkEnv (fun _ => true) (fun _ => None) (fun _ => cfg0)
    (fun _ => inr "208.95.112.1")
    (fun n => match n with
              | O => HttpResp 200 (Some geo_body)
              | _ => HttpResp 200 (Some weather_body)
              end)
    (fun _ => None) (fun _ => (12, 0, 5)).

(** A response with a temperature, no humidity, and a pressure that is
    the string "1013.5". *)
Definition pressure_text_body : pyval :=
  PDict [("main", PDict [("temp", PFloat (Fin (215 # 10)));
                         ("pressure", PStr "1013.5")])].

Definition env_pressure_text : env :=
  mkEnv (fun _ => true) (fun _ => None) (fun _ => cfg0)
    (fun _ => inr "208.95.112.1")
    (fun _ => HttpResp 200 (Some pressure_text_body))
    (fun _ => None) (fun _ => (12, 0, 5)).

(** Just booted: clock 0, radio on, nothing called yet. *)
Definition w0 : world := mkWorld 0 true 0 0 0 0 0 0 0 [].

Definition lcd16 : option Lcd_i2c := Some (mkLcd 16 2).

Definition prague : geo := mkGeo (Fin (1252 # 25)) (Fin (1443 # 100)) PNone PNone.

Definition sample0 : weather :=
  mkWeather (Fin (237 # 10)) (Some 55) (Some 1013) (Some (Fin (17 # 5))) (PStr "").

(** The loop state of a round whose deadline is due. *)
Definition due_fresh : loop_state := mkLoop None 0 0.
Definition due_cached : loop_state := mkLoop (Some sample0) 0 0.

(** The world of a polling round: the lookup has used the first reply. *)
Definition w_polling : world := mkWorld 3000 true 0 0 0 0 1 0 0 [].

(** The lookup succeeds, then every weather response is
    [pressure_text_body]. *)
Definition env_crash : env :=
  mkEnv (fun _ => true) (fun _ => None) (fun _ => cfg0)
    (fun _ => inr "208.95.112.1")
    (fun n => match n with
              | O => HttpResp 200 (Some geo_body)
              | _ => HttpResp 200 (Some pressure_text_body)
              end)
    (fun _ => None) (fun _ => (12, 0, 5)).

(** A location whose city came as a number. *)
Definition numbered_city : geo :=
  mkGeo (Fin (1252 # 25)) (Fin (1443 # 100)) (PInt 5) PNone.


(** The fields of [weather_body]. *)
Definition weather_main : list (string * pyval) :=
  [("temp", PFloat (Fin (237 # 10)));
   ("humidity", PFloat (Fin (557 # 10)));
   ("pressure", PFloat (Fin (10139 # 10)))].

Definition weather_fields : list (string * pyval) :=
  [("main", PDict weather_main);
   ("wind", PDict [("speed", PFloat (Fin (34 # 10)))])].

(** A display whose driver refuses its third call. *)
Definition env_lcd_third : env :=
  mkEnv (fun _ => true) (fun _ => None) (fun _ => cfg0)
    (fun _ => inr "208.95.112.1")
    (fun _ => HttpRaise (mkExn OSError "ECONNRESET"))
    (fun n => match n with 2%nat => Some (mkExn OSError "EIO") | _ => None end)
    (fun _ => (12, 0, 5)).



(** A configuration with credentials and a display of 20 columns. *)
Definition config0 : pyval :=
  PDict [("wifi", PDict [("ssid", PStr "net"); ("password", PStr "pw")]);
         ("openweathermap", PDict [("api_key", PStr "KEY")]);
         ("lcd", PDict [("cols", PInt 20); ("rows", PInt 4)])].

(* ------------------------------------------------------------------ *)
(** * The firmware *)

Section Firmware.

(** The environment the firmware runs in. *)
Variable E : env.

(** [str()] of floats, lists and dicts: the float printer belongs to the
    MicroPython runtime and stays a parameter. *)
Variable str_other : pyval -> string.

(** [str(x)] *)
Definition py_str (x : pyval) : string :=
  match x with
  | PNone => "None"
  | PBool b => if b then "True" else "False"
  | PInt z => string_of_Z z
  | PStr s => s
  | PFloat _ | PList _ | PDict _ => str_other x
  end.

(** [fmt.format(args...)] for the [{}] fields main.py uses.  (A field
    without an argument would raise in Python; no call site has one, and
    the field is then left as it is.) *)
Fixpoint py_format (fmt : string) (args : list pyval) : string :=
  match fmt with
  | String "{" (String "}" rest) =>
      match args with
      | a :: args' => py_str a ++ py_format rest args'
      | [] => String "{" (String "}" (py_format rest []))
      end
  | String c rest => String c (py_format rest args)
  | EmptyString => EmptyString
  end.

(** [x or y] where [x] is a [str] or [None] *)
Definition opt_truthy (x : option string) : bool :=
  match x with Some s => str_truthy s | None => false end.

Definition opt_val (x : option string) : pyval :=
  match x with Some s => PStr s | None => PNone end.

Definition opt_or (x : option string) (y : string) : string :=
  match x with
  | Some s => if str_truthy s then s else y
  | None => y
  end.

(** ** Primitive calls *)

Definition emit (ev : event) : M unit := fun w => (Val tt, emit_at ev w).

Definition ticks_ms : M Z := fun w => (Val (clock w mod TICKS_PERIOD), w).

(** [utime.sleep_ms(ms)]: the clock moves on by exactly [ms]. *)
Definition sleep_ms (ms : Z) : M unit :=
  fun w => (Val tt, advance ms (emit_at (EvSleep ms) w)).

(** [utime.sleep(seconds)] *)
Definition sleep (seconds : Z) : M unit := sleep_ms (1000 * seconds).

Definition wlan_active : M bool := fun w => (Val (radio w), w).

Definition wlan_set_active (b : bool) : M unit :=
  fun w => (Val tt, set_radio b (emit_at (EvWlanActive b) w)).

Definition wlan_isconnected : M bool :=
  fun w => (Val (isconnected_at E (n_isconnected w)), bump_isconnected w).

Definition wlan_connect (ssid password : string) : M unit :=
  emit (EvWlanConnect ssid password).

Definition wlan_disconnect : M unit :=
  fun w =>
    let w' := bump_disconnect (emit_at EvWlanDisconnect w) in
    match disconnect_at E (n_disconnect w) with
    | Some e => (Raise e, w')
    | None => (Val tt, w')
    end.

Definition wlan_ifconfig : M netcfg :=
  fun w => (Val (ifconfig_at E (n_ifconfig w)), bump_ifconfig w).

(** [socket.getaddrinfo(host, port)[0][4][0]] *)
Definition getaddrinfo_ip (host : string) (port : Z) : M string :=
  fun w =>
    let w' := bump_getaddrinfo (emit_at (EvGetaddrinfo host port) w) in
    match getaddrinfo_at E (n_getaddrinfo w) with
    | inl e => (Raise e, w')
    | inr ip => (Val ip, w')
    end.

(** [urequests.get(url, timeout=t)], or [urequests.get(url)] for [None] *)
Definition urequests_get (url : string) (timeout : option Z) : M response :=
  fun w =>
    let w' := bump_get (emit_at (EvGet url timeout) w) in
    match urequests_get_at E (n_get w) with
    | HttpRaise e => (Raise e, w')
    | HttpResp st body => (Val (mkResponse st body), w')
    end.

(** [r.json()] *)
Definition response_json (r : response) : M pyval :=
  match json_body r with
  | Some v => ret v
  | None => raise (mkExn ValueError "syntax error in JSON")
  end.

(** [r.close()] *)
Definition response_close (r : response) : M unit := emit EvClose.

(** A call of the display driver: on no display it is an attribute
    error on [None]; on a display it lands or raises as the bus decides. *)
Definition lcd_call (lcd : option Lcd_i2c) (ev : event) : M unit :=
  match lcd with
  | None => raise (mkExn AttributeError "'NoneType' object has no attribute")
  | Some _ =>
      fun w =>
        match lcd_at E (n_lcd w) with
        | Some e => (Raise e, bump_lcd w)
        | None => (Val tt, bump_lcd (emit_at ev w))
        end
  end.

Definition lcd_clear (lcd : option Lcd_i2c) : M unit := lcd_call lcd EvLcdClear.

Definition lcd_set_cursor (lcd : option Lcd_i2c) (col row : Z) : M unit :=
  lcd_call lcd (EvLcdSetCursor col row).

Definition lcd_write (lcd : option Lcd_i2c) (text : string) : M unit :=
  lcd_call lcd (EvLcdWrite text).

(** [if lcd:] *)
Definition lcd_truthy (lcd : option Lcd_i2c) : bool :=
  match lcd with Some _ => true | None => false end.

Definition localtime_hms : M (Z * Z * Z) :=
  fun w => (Val (localtime_at E (n_localtime w)), bump_localtime w).

(** ** Logging and helpers *)

(** main.py 17-25
<<
def log(msg):
    ts = utime.ticks_ms()
    line = "[{} ms] {}".format(ts, msg)
    print(line)
    try:
        with open(LOG_FILE, "a") as f:
            f.write(line + "\n")
    except Exception:
        pass
>>
    One event stands for the printed line and its best-effort copy in the
    file. *)
Definition log_line (ts : Z) (msg : string) : string :=
  py_format "[{} ms] {}" [PInt ts; PStr msg].

Definition log (msg : string) : M unit :=
  ts <- ticks_ms ;;
  emit (EvLog (log_line ts msg)).

(** main.py 45-51
<<
def clamp_str(s, max_len):
    if s is None:
        s = ""
    s = str(s)
    if len(s) > max_len:
        return s[:max_len]
    return s
>> *)
Definition clamp_str (s : pyval) (max_len : Z) : string :=
  let s := match s with PNone => PStr "" | _ => s end in
  let s := py_str s in
  if len s >? max_len then py_slice_to s max_len else s.

(** main.py 60-64
<<
def pad_right(s, width):
    s = "" if s is None else str(s)
    if len(s) > width:
        return s[:width]
    return s + (" " * (width - len(s)))
>> *)
Definition pad_right (s : pyval) (width : Z) : string :=
  let s := match s with PNone => "" | _ => py_str s end in
  if len s >? width then py_slice_to s width
  else s ++ py_str_mul " " (width - len s).

Definition two_digits (n : Z) : string :=
  if (0 <=? n) && (n <? 10) then "0" ++ string_of_Z n else string_of_Z n.

(** main.py 66-69
<<
def get_time_string():
    t = utime.localtime()
    return "{:02d}:{:02d}:{:02d}".format(t[3], t[4], t[5])
>> *)
Definition get_time_string : M string :=
  ' (h, m, s) <- localtime_hms ;;
  ret (two_digits h ++ ":" ++ two_digits m ++ ":" ++ two_digits s).

(** main.py 71-78
<<
def lcd_write_lines(lcd, cols, line0, line1):
    l0 = pad_right(line0, cols)
    l1 = pad_right(line1, cols)
    lcd.set_cursor(0, 0)
    lcd.write(l0)
    lcd.set_cursor(0, 1)
    lcd.write(l1)
>> *)
Definition lcd_write_lines (lcd : option Lcd_i2c) (cols : Z) (line0 line1 : string)
  : M unit :=
  let l0 := pad_right (PStr line0) cols in
  let l1 := pad_right (PStr line1) cols in
  lcd_set_cursor lcd 0 0 ;;
  lcd_write lcd l0 ;;
  lcd_set_cursor lcd 0 1 ;;
  lcd_write lcd l1.

(** main.py 80-85
<<
def log_netinfo(wlan):
    try:
        ip, mask, gw, dns = wlan.ifconfig()
        log("IFCONFIG ip={} mask={} gw={} dns={}".format(ip, mask, gw, dns))
    except Exception as e:
        log("ifconfig read failed: {}".format(e))
>> *)
Definition netinfo_msg (c : netcfg) : string :=
  py_format "IFCONFIG ip={} mask={} gw={} dns={}"
    [PStr (cfg_ip c); PStr (cfg_mask c); PStr (cfg_gw c); PStr (cfg_dns c)].

Definition log_netinfo : M unit :=
  try_except
    (c <- wlan_ifconfig ;;
     log (netinfo_msg c))
    (fun e => log (py_format "ifconfig read failed: {}" [PStr (exn_msg e)])).

(** main.py 87-95
<<
def dns_test(host, port=80):
    try:
        ai = socket.getaddrinfo(host, port)
        ip = ai[0][4][0]
        log("DNS OK {} -> {}".format(host, ip))
        return True
    except Exception as e:
        log("DNS FAIL {} -> {}".format(host, e))
        return False
>> *)
Definition dns_test (host : string) (port : Z) : M bool :=
  try_except
    (ip <- getaddrinfo_ip host port ;;
     log (py_format "DNS OK {} -> {}" [PStr host; PStr ip]) ;;
     ret true)
    (fun e =>
       log (py_format "DNS FAIL {} -> {}" [PStr host; PStr (exn_msg e)]) ;;
       ret false).

(** ** WiFi *)

(** The wait loop of [wifi_connect], main.py 113-122
<<
    while not wlan.isconnected():
        if lcd:
            try:
                lcd_write_lines(lcd, cols, "Connecting WiFi", "Please wait...")
            except Exception as e:
                log("LCD write failed (wifi loop): {}".format(e))
        if utime.ticks_diff(utime.ticks_ms(), start) > max_wait_s * 1000:
            log("WiFi connect TIMEOUT")
            return False
        utime.sleep_ms(300)
>>
    [true]: the loop ended with the interface connected; [false]: the
    [return False] of the timeout. *)
Fixpoint wifi_wait (fuel : nat) (lcd : option Lcd_i2c) (cols start max_wait_s : Z)
  : M bool :=
  match fuel with
  | O => out_of_fuel
  | S fuel' =>
      c <- wlan_isconnected ;;
      if c then ret true
      else
        (if lcd_truthy lcd then
           try_except
             (lcd_write_lines lcd cols "Connecting WiFi" "Please wait...")
             (fun e =>
                log (py_format "LCD write failed (wifi loop): {}" [PStr (exn_msg e)]))
         else ret tt) ;;
        now <- ticks_ms ;;
        if ticks_diff now start >? max_wait_s * 1000 then
          log "WiFi connect TIMEOUT" ;;
          ret false
        else
          sleep_ms 300 ;;
          wifi_wait fuel' lcd cols start max_wait_s
  end.

(** main.py 102-133
<<
def wifi_connect(wlan, ssid, password, lcd=None, cols=16, max_wait_s=20):
    if not wlan.active():
        wlan.active(True)
    if wlan.isconnected():
        return True
    log("WiFi connect() -> ssid='{}'".format(ssid))
    wlan.connect(ssid, password)
    start = utime.ticks_ms()
    while not wlan.isconnected(): ...
    ip = wlan.ifconfig()[0]
    log("WiFi connected, IP={}".format(ip))
    # DHCP/DNS sometimes needs a moment
    log_netinfo(wlan)
    utime.sleep(1)
    dns_test("ip-api.com", 80)
    dns_test("api.openweathermap.org", 443)
    return True
>> *)
Definition wifi_connect (fuel : nat) (ssid password : string)
    (lcd : option Lcd_i2c) (cols max_wait_s : Z) : M bool :=
  a <- wlan_active ;;
  (if negb a then wlan_set_active true else ret tt) ;;
  c <- wlan_isconnected ;;
  if c then ret true
  else
    log (py_format "WiFi connect() -> ssid='{}'" [PStr ssid]) ;;
    wlan_connect ssid password ;;
    start <- ticks_ms ;;
    up <- wifi_wait fuel lcd cols start max_wait_s ;;
    if negb up then ret false
    else
      c <- wlan_ifconfig ;;
      log (py_format "WiFi connected, IP={}" [PStr (cfg_ip c)]) ;;
      log_netinfo ;;
      sleep 1 ;;
      _ <- dns_test "ip-api.com" 80 ;;
      _ <- dns_test "api.openweathermap.org" 443 ;;
      ret true.

(** main.py 135-158
<<
def wifi_ensure_connected(wlan, ssid, password, lcd=None, cols=16):
    if wlan.isconnected():
        return True
    for attempt in range(1, 4):
        log("WiFi reconnect attempt {}".format(attempt))
        ok = wifi_connect(wlan, ssid, password, lcd=lcd, cols=cols, max_wait_s=20)
        if ok:
            return True
        utime.sleep_ms(500)
    log("WiFi hard reset interface")
    try:
        wlan.disconnect()
    except Exception:
        pass
    utime.sleep_ms(200)
    wlan.active(False)
    utime.sleep_ms(200)
    wlan.active(True)
    utime.sleep_ms(200)
    return wifi_connect(wlan, ssid, password, lcd=lcd, cols=cols, max_wait_s=25)
>> *)
Definition wifi_ensure_connected (fuel : nat) (ssid password : string)
    (lcd : option Lcd_i2c) (cols : Z) : M bool :=
  c <- wlan_isconnected ;;
  if c then ret true
  else
    r <- for_in [1; 2; 3]
           (fun attempt =>
              log (py_format "WiFi reconnect attempt {}" [PInt attempt]) ;;
              ok <- wifi_connect fuel ssid password lcd cols 20 ;;
              if ok then ret (Some true)
              else sleep_ms 500 ;; ret None) ;;
    match r with
    | Some b => ret b
    | None =>
        log "WiFi hard reset interface" ;;
        try_except wlan_disconnect (fun _ => ret tt) ;;
        sleep_ms 200 ;;
        wlan_set_active false ;;
        sleep_ms 200 ;;
        wlan_set_active true ;;
        sleep_ms 200 ;;
        wifi_connect fuel ssid password lcd cols 25
    end.

(** ** HTTP and the two APIs *)

(** main.py 165-189
<<
def http_get_json(url, timeout_s=10):
    r = None
    try:
        log("HTTP GET {}".format(url))
        try:
            r = urequests.get(url, timeout=timeout_s)
        except TypeError:
            r = urequests.get(url)
        log("HTTP status {}".format(r.status_code))
        if r.status_code != 200:
            return None, "HTTP {}".format(r.status_code)
        try:
            return r.json(), None
        except Exception:
            return None, "Bad JSON"
    except Exception as e:
        return None, "NET {}".format(e)
    finally:
        try:
            if r:
                r.close()
        except Exception:
            pass
>>
    An exception of [urequests.get] leaves [r] at [None], so the
    [finally] block closes a response exactly when one was obtained. *)
Definition net_error (e : exn) : pyval * option string :=
  (PNone, Some (py_format "NET {}" [PStr (exn_msg e)])).

(** Lines 174-181: the status check and the decoding of a response. *)
Definition http_decode (r : response) : M (pyval * option string) :=
  log (py_format "HTTP status {}" [PInt (status_code r)]) ;;
  if negb (status_code r =? 200) then
    ret (PNone, Some (py_format "HTTP {}" [PInt (status_code r)]))
  else
    try_except
      (j <- response_json r ;; ret (j, None))
      (fun _ => ret (PNone, Some "Bad JSON")).

Definition http_get_json (url : string) (timeout_s : Z) : M (pyval * option string) :=
  log (py_format "HTTP GET {}" [PStr url]) ;;
  got <- attempt
           (try_except_TypeError
              (urequests_get url (Some timeout_s))
              (urequests_get url None)) ;;
  match got with
  | inl e => ret (net_error e)
  | inr r =>
      res <- try_except (http_decode r) (fun e => ret (net_error e)) ;;
      try_except (response_close r) (fun _ => ret tt) ;;
      ret res
  end.

(** Pure steps that may raise. *)
Definition obind {A B} (o : outcome A) (k : A -> outcome B) : outcome B :=
  match o with
  | Val a => k a
  | Raise e => Raise e
  | OutOfFuel => OutOfFuel
  end.

Notation "x <~ o ;; k" := (obind o (fun x => k))
  (at level 61, o at next level, right associativity) : monad_scope.

(** The validation of [get_geo_by_ip], main.py 205-213
<<
    lat = data.get("lat")
    lon = data.get("lon")
    city = data.get("city")
    country = data.get("countryCode") or data.get("country")
    if not is_number(lat) or not is_number(lon):
        return None, "Missing lat/lon"
    geo = {"lat": float(lat), "lon": float(lon), "city": city, "country": country}
>> *)
Definition geo_of_data (data : pyval) : outcome (geo + string) :=
  lat <~ py_get data "lat" PNone ;;
  lon <~ py_get data "lon" PNone ;;
  city <~ py_get data "city" PNone ;;
  cc <~ py_get data "countryCode" PNone ;;
  country <~ (if truthy cc then Val cc else py_get data "country" PNone) ;;
  if negb (is_number lat) || negb (is_number lon) then Val (inr "Missing lat/lon")
  else
    flat <~ py_float lat ;;
    flon <~ py_float lon ;;
    Val (inl (mkGeo flat flon city country)).

Definition PRIMARY_URL : string := "http://ip-api.com/json/".
Definition FALLBACK_URL : string := "http://208.95.112.1/json/".

(** The choice of the response, main.py 194-203
<<
    data, err = http_get_json("http://ip-api.com/json/")
    if err or not data:
        log("Geo primary failed: {}".format(err))
        data2, err2 = http_get_json("http://208.95.112.1/json/")
        if err2 or not data2:
            return None, (err2 or err or "No data")
        data = data2
>>
    [inl data]: the response to validate; [inr e]: the early return. *)
Definition geo_select : M (pyval + string) :=
  ' (data, err) <- http_get_json PRIMARY_URL 10 ;;
  if opt_truthy err || negb (truthy data) then
    log (py_format "Geo primary failed: {}" [opt_val err]) ;;
    ' (data2, err2) <- http_get_json FALLBACK_URL 10 ;;
    if opt_truthy err2 || negb (truthy data2) then
      ret (inr (opt_or err2 (opt_or err "No data")))
    else ret (inl data2)
  else ret (inl data).

(** main.py 191-215
<<
def get_geo_by_ip():
    data, err = http_get_json("http://ip-api.com/json/")
    if err or not data:
        ...
    lat = data.get("lat")
    ...
    geo = {"lat": float(lat), "lon": float(lon), "city": city, "country": country}
    log("GEO OK lat={} lon={} city={} country={}".format(geo["lat"], geo["lon"], city, country))
    return geo, None
>> *)
Definition get_geo_by_ip : M (option geo * option string) :=
  sel <- geo_select ;;
  match sel with
  | inr e => ret (None, Some e)
  | inl data =>
      g <- lift (geo_of_data data) ;;
      match g with
      | inr e => ret (None, Some e)
      | inl g =>
          log (py_format "GEO OK lat={} lon={} city={} country={}"
                 [PFloat (lat g); PFloat (lon g); city g; country g]) ;;
          ret (Some g, None)
      end
  end.

(** The decoding of [get_weather_openweathermap], main.py 229-251
<<
    main = data.get("main", {})
    wind = data.get("wind", {})
    w_arr = data.get("weather", [])
    temp = main.get("temp")
    humidity = main.get("humidity")
    pressure = main.get("pressure")
    wind_speed = wind.get("speed")
    desc = ""
    if isinstance(w_arr, list) and len(w_arr) > 0:
        desc = w_arr[0].get("description") or ""
    if not is_number(temp):
        return None, "Bad temp"
    weather = {
        "temp": float(temp),
        "humidity": int(humidity) if is_number(humidity) else None,
        "pressure": int(pressure) if is_number(pressure) else None,
        "wind": float(wind_speed) if is_number(wind_speed) else None,
        "desc": desc
    }
>> *)
Definition weather_of_data (data : pyval) : outcome (weather + string) :=
  main <~ py_get data "main" (PDict []) ;;
  wind <~ py_get data "wind" (PDict []) ;;
  w_arr <~ py_get data "weather" (PList []) ;;
  temp <~ py_get main "temp" PNone ;;
  humidity <~ py_get main "humidity" PNone ;;
  pressure <~ py_get main "pressure" PNone ;;
  wind_speed <~ py_get wind "speed" PNone ;;
  desc <~ match w_arr with
          | PList (first :: _) =>
              d <~ py_get first "description" PNone ;;
              Val (py_or d (PStr ""))
          | _ => Val (PStr "")
          end ;;
  if negb (is_number temp) then Val (inr "Bad temp")
  else
    t <~ py_float temp ;;
    h <~ (if is_number humidity then z <~ py_int humidity ;; Val (Some z)
          else Val None) ;;
    p <~ (if is_number pressure then z <~ py_int pressure ;; Val (Some z)
          else Val None) ;;
    wv <~ (if is_number wind_speed then f <~ py_float wind_speed ;; Val (Some f)
           else Val None) ;;
    Val (inl (mkWeather t h p wv desc)).

Definition weather_url (api_key : string) (lat lon : pyfloat) : string :=
  py_format
    "https://api.openweathermap.org/data/2.5/weather?lat={}&lon={}&appid={}&units=metric&lang=cs"
    [PFloat lat; PFloat lon; PStr api_key].

(** main.py 217-253
<<
def get_weather_openweathermap(api_key, lat, lon):
    url = ( ... ).format(lat, lon, api_key)
    data, err = http_get_json(url)
    if err or not data:
        return None, err or "No data"
    ...
    log("WEATHER OK temp={} desc='{}'".format(weather["temp"], desc))
    return weather, None
>> *)
Definition get_weather_openweathermap (api_key : string) (lat lon : pyfloat)
  : M (option weather * option string) :=
  let url := weather_url api_key lat lon in
  ' (data, err) <- http_get_json url 10 ;;
  if opt_truthy err || negb (truthy data) then ret (None, Some (opt_or err "No data"))
  else
    r <- lift (weather_of_data data) ;;
    match r with
    | inr e => ret (None, Some e)
    | inl w =>
        log (py_format "WEATHER OK temp={} desc='{}'" [PFloat (temp w); desc w]) ;;
        ret (Some w, None)
    end.

(** ** Display logic *)

(** [round(x, ndigits)] on the exact value: to the nearest multiple of
    [10^-ndigits], ties to even. *)
Definition round_half_even (q : Q) : Z :=
  let f := Qfloor q in
  match Qcompare (q - inject_Z f) (1 # 2) with
  | Lt => f
  | Gt => f + 1
  | Eq => if Z.even f then f else f + 1
  end.

Definition py_round (x : pyfloat) (ndigits : Z) : pyfloat :=
  match x with
  | Fin q =>
      Fin (Qred (inject_Z (round_half_even (q * pow10 ndigits)) * pow10 (- ndigits)))
  | _ => x
  end.

(** main.py 260-267
<<
def show_coords(lcd, cols, lat, lon, seconds=3):
    try:
        lcd.clear()
        lcd_write_lines(lcd, cols, "Coords lat/lon", "{} {}".format(round(lat, 4), round(lon, 4)))
        log("LCD: showed coords")
    except Exception as e:
        log("LCD show_coords failed: {}".format(e))
    utime.sleep(seconds)
>> *)
Definition show_coords (lcd : option Lcd_i2c) (cols : Z) (lat lon : pyfloat)
    (seconds : Z) : M unit :=
  try_except
    (lcd_clear lcd ;;
     lcd_write_lines lcd cols "Coords lat/lon"
       (py_format "{} {}" [PFloat (py_round lat 4); PFloat (py_round lon 4)]) ;;
     log "LCD: showed coords")
    (fun e => log (py_format "LCD show_coords failed: {}" [PStr (exn_msg e)])) ;;
  sleep seconds.

(** main.py 269-277
<<
def show_error(lcd, cols, msg, seconds=2):
    log("ERROR: {}".format(msg))
    try:
        if lcd:
            lcd.clear()
            lcd_write_lines(lcd, cols, "ERROR", clamp_str(msg, cols))
    except Exception as e:
        log("LCD show_error failed: {}".format(e))
    utime.sleep(seconds)
>> *)
Definition show_error (lcd : option Lcd_i2c) (cols : Z) (msg : string)
    (seconds : Z) : M unit :=
  log (py_format "ERROR: {}" [PStr msg]) ;;
  try_except
    (if lcd_truthy lcd then
       lcd_clear lcd ;;
       lcd_write_lines lcd cols "ERROR" (clamp_str (PStr msg) cols)
     else ret tt)
    (fun e => log (py_format "LCD show_error failed: {}" [PStr (exn_msg e)])) ;;
  sleep seconds.

Fixpoint lstrip (s : string) : string :=
  match s with
  | String c s' => if is_space c then lstrip s' else s
  | EmptyString => EmptyString
  end.

Definition str_rev (s : string) : string :=
  string_of_list_ascii (rev (list_ascii_of_string s)).

(** [s.strip()] *)
Definition py_strip (s : string) : string := str_rev (lstrip (str_rev (lstrip s))).

(** [a + b] where [b] is a [str]: a [str] on the left, or a type error. *)
Definition py_str_add (a : pyval) (b : string) : outcome string :=
  match a with
  | PStr s => Val (s ++ b)
  | _ => Raise (mkExn TypeError "unsupported types for __add__")
  end.

(** One screen of the cycle: the drawing is guarded, the dwell is not. *)
Definition screen (draw : M unit) (what : string) : M unit :=
  try_except draw
    (fun e => log (py_format what [PStr (exn_msg e)])) ;;
  sleep 2.

(** main.py 279-320
<<
def show_weather_cycle(lcd, cols, geo, weather):
    city = geo.get("city") or "Unknown"
    country = geo.get("country") or ""
    loc = (city + " " + country).strip()
    temp = weather.get("temp")
    hum = weather.get("humidity")
    wind = weather.get("wind")
    pres = weather.get("pressure")
    desc = weather.get("desc") or ""
    try:
        lcd.clear()
        time_str = get_time_string()
        lcd_write_lines(lcd, cols, "Time", time_str)
    except Exception as e:
        log("LCD weather time screen failed: {}".format(e))
    utime.sleep(2)
    try:
        lcd.clear()
        lcd_write_lines(lcd, cols, clamp_str(loc, cols), "Temp: {}C".format(round(temp, 1)))
    except Exception as e:
        log("LCD weather screen1 failed: {}".format(e))
    utime.sleep(2)
    try:
        lcd.clear()
        hum_txt = "Hum: --%" if hum is None else "Hum: {}%".format(hum)
        lcd_write_lines(lcd, cols, clamp_str(desc, cols), hum_txt)
    except Exception as e:
        log("LCD weather screen2 failed: {}".format(e))
    utime.sleep(2)
    try:
        lcd.clear()
        wind_txt = "Wind: -- m/s" if wind is None else "Wind: {} m/s".format(round(wind, 1))
        pres_txt = "Pres: ----hPa" if pres is None else "Pres: {} hPa".format(pres)
        lcd_write_lines(lcd, cols, wind_txt, pres_txt)
    except Exception as e:
        log("LCD weather screen3 failed: {}".format(e))
    utime.sleep(2)
>> *)
Definition show_weather_cycle (lcd : option Lcd_i2c) (cols : Z) (g : geo)
    (w : weather) : M unit :=
  let city := py_or (city g) (PStr "Unknown") in
  let country := py_or (country g) (PStr "") in
  city_sp <- lift (py_str_add city " ") ;;
  loc <- lift (match country with
               | PStr c => Val (py_strip (city_sp ++ c))
               | _ => Raise (mkExn TypeError "unsupported types for __add__")
               end) ;;
  let desc := py_or (desc w) (PStr "") in
  screen
    (lcd_clear lcd ;;
     time_str <- get_time_string ;;
     lcd_write_lines lcd cols "Time" time_str)
    "LCD weather time screen failed: {}" ;;
  screen
    (lcd_clear lcd ;;
     lcd_write_lines lcd cols (clamp_str (PStr loc) cols)
       (py_format "Temp: {}C" [PFloat (py_round (temp w) 1)]))
    "LCD weather screen1 failed: {}" ;;
  screen
    (lcd_clear lcd ;;
     let hum_txt := match humidity w with
                    | None => "Hum: --%"
                    | Some h => py_format "Hum: {}%" [PInt h]
                    end in
     lcd_write_lines lcd cols (clamp_str desc cols) hum_txt)
    "LCD weather screen2 failed: {}" ;;
  screen
    (lcd_clear lcd ;;
     let wind_txt := match wind w with
                     | None => "Wind: -- m/s"
                     | Some v => py_format "Wind: {} m/s" [PFloat (py_round v 1)]
                     end in
     let pres_txt := match pressure w with
                     | None => "Pres: ----hPa"
                     | Some p => py_format "Pres: {} hPa" [PInt p]
                     end in
     lcd_write_lines lcd cols wind_txt pres_txt)
    "LCD weather screen3 failed: {}".

(** ** Main, from the location lookup on (main.py 406-468) *)

(** main.py 426: [interval_ms = 10 * 60 * 1000] *)
Definition interval_ms : Z := 10 * 60 * 1000.

Definition is_some {A} (o : option A) : bool :=
  match o with Some _ => true | None => false end.

(** main.py 407-415
<<
    geo, err = get_geo_by_ip()
    if err or not geo:
        show_error(lcd, cols, err or "Geo failed", seconds=2)
        for i in range(5):
            log("Geo retry {}".format(i + 1))
            utime.sleep(2)
            geo, err = get_geo_by_ip()
            if geo:
                break
>>
    The value is [geo] as line 417 finds it. *)
Definition resolve_geo (lcd : option Lcd_i2c) (cols : Z) : M (option geo) :=
  ' (g, err) <- get_geo_by_ip ;;
  if opt_truthy err || negb (is_some g) then
    show_error lcd cols (opt_or err "Geo failed") 2 ;;
    for_in [0; 1; 2; 3; 4]
      (fun i =>
         log (py_format "Geo retry {}" [PInt (i + 1)]) ;;
         sleep 2 ;;
         ' (g, _) <- get_geo_by_ip ;;
         match g with
         | Some g' => ret (Some g')
         | None => ret None
         end)
  else ret g.

(** One round of main.py 417-421
<<
    if not geo:
        while True:
            show_error(lcd, cols, "No GEO data", seconds=2)
            wifi_ensure_connected(wlan, ssid, password, lcd=lcd, cols=cols)
            utime.sleep(2)
>> *)
Definition geo_dead_round (fuel : nat) (ssid password : string)
    (lcd : option Lcd_i2c) (cols : Z) : M unit :=
  show_error lcd cols "No GEO data" 2 ;;
  _ <- wifi_ensure_connected fuel ssid password lcd cols ;;
  sleep 2.

(** main.py 434-453
<<
        now = utime.ticks_ms()
        if utime.ticks_diff(now, next_fetch) >= 0:
            log("Weather fetch start")
            w, werr = get_weather_openweathermap(api_key, geo["lat"], geo["lon"])
            if werr or not w:
                log("Weather fetch failed: {}".format(werr))
                if last_weather and lcd:
                    try:
                        lcd.clear()
                        lcd_write_lines(lcd, cols, "API warn", "using cached")
                        utime.sleep(2)
                    except Exception as e:
                        log("LCD warn msg failed: {}".format(e))
                else:
                    show_error(lcd, cols, werr or "Weather fail", seconds=2)
            else:
                last_weather = w
            next_fetch = utime.ticks_add(now, interval_ms)
            log("Next fetch in 10min")
>> *)
Definition poll_weather (api_key : string) (lcd : option Lcd_i2c) (cols : Z)
    (g : geo) (st : loop_state) : M loop_state :=
  now <- ticks_ms ;;
  if ticks_diff now (next_fetch st) >=? 0 then
    log "Weather fetch start" ;;
    ' (w, werr) <- get_weather_openweathermap api_key (lat g) (lon g) ;;
    last <- (if opt_truthy werr || negb (is_some w) then
               log (py_format "Weather fetch failed: {}" [opt_val werr]) ;;
               (if is_some (last_weather st) && lcd_truthy lcd then
                  try_except
                    (lcd_clear lcd ;;
                     lcd_write_lines lcd cols "API warn" "using cached" ;;
                     sleep 2)
                    (fun e =>
                       log (py_format "LCD warn msg failed: {}" [PStr (exn_msg e)]))
                else show_error lcd cols (opt_or werr "Weather fail") 2) ;;
               ret (last_weather st)
             else ret w) ;;
    let next := ticks_add now interval_ms in
    log "Next fetch in 10min" ;;
    ret (mkLoop last next (heartbeat st))
  else ret st.

(** main.py 455-466
<<
        if last_weather and lcd:
            show_weather_cycle(lcd, cols, geo, last_weather)
        else:
            heartbeat += 1
            log("Heartbeat {}".format(heartbeat))
            if lcd:
                try:
                    lcd.clear()
                    lcd_write_lines(lcd, cols, "Running...", "HB {}".format(heartbeat))
                except Exception as e:
                    log("LCD heartbeat failed: {}".format(e))
            utime.sleep(1)
>> *)
Definition show_round (lcd : option Lcd_i2c) (cols : Z) (g : geo)
    (st : loop_state) : M loop_state :=
  match last_weather st, lcd_truthy lcd with
  | Some w, true =>
      show_weather_cycle lcd cols g w ;;
      ret st
  | _, _ =>
      let hb := heartbeat st + 1 in
      log (py_format "Heartbeat {}" [PInt hb]) ;;
      (if lcd_truthy lcd then
         try_except
           (lcd_clear lcd ;;
            lcd_write_lines lcd cols "Running..." (py_format "HB {}" [PInt hb]))
           (fun e =>
              log (py_format "LCD heartbeat failed: {}" [PStr (exn_msg e)]))
       else ret tt) ;;
      sleep 1 ;;
      ret (mkLoop (last_weather st) (next_fetch st) hb)
  end.

(** One round of the polling loop, main.py 431-468
<<
    while True:
        wifi_ensure_connected(wlan, ssid, password, lcd=lcd, cols=cols)
        now = utime.ticks_ms()
        ...
        utime.sleep_ms(100)
>> *)
Definition main_round (fuel : nat) (ssid password api_key : string)
    (lcd : option Lcd_i2c) (cols : Z) (g : geo) (st : loop_state) : M loop_state :=
  _ <- wifi_ensure_connected fuel ssid password lcd cols ;;
  st1 <- poll_weather api_key lcd cols g st ;;
  st2 <- show_round lcd cols g st1 ;;
  sleep_ms 100 ;;
  ret st2.

(** [while True:] over a loop state, run for [iters] rounds. *)
Fixpoint forever_from {S : Type} (iters : nat) (body : S -> M S) (s : S) : M unit :=
  match iters with
  | O => out_of_fuel
  | Datatypes.S n => s' <- body s ;; forever_from n body s'
  end.

(** main.py 406-468: what main does once the WiFi is up
<<
    geo, err = get_geo_by_ip()
    ...
    if not geo:
        while True: ...
    show_coords(lcd, cols, geo["lat"], geo["lon"], seconds=3)
    last_weather = None
    interval_ms = 10 * 60 * 1000
    next_fetch = utime.ticks_ms()
    heartbeat = 0
    while True: ...
>> *)
Definition main_after_wifi (fuel iters : nat) (ssid password api_key : string)
    (lcd : option Lcd_i2c) (cols : Z) : M unit :=
  g <- resolve_geo lcd cols ;;
  match g with
  | None => forever iters (geo_dead_round fuel ssid password lcd cols)
  | Some g =>
      show_coords lcd cols (lat g) (lon g) 3 ;;
      now <- ticks_ms ;;
      forever_from iters (main_round fuel ssid password api_key lcd cols g)
        (mkLoop None now 0)
  end.

(** ** Main, before the location lookup, and around main *)

(** The settings main reads from the configuration, main.py 345-354
<<
    ssid = safe_get(cfg, ["wifi", "ssid"], "")
    password = safe_get(cfg, ["wifi", "password"], "")
    api_key = safe_get(cfg, ["openweathermap", "api_key"], "")
    lcd_cfg = cfg.get("lcd", {})
    i2c_id = int(lcd_cfg.get("i2c_id", 0))
    sda_pin = int(lcd_cfg.get("sda_pin", 0))
    scl_pin = int(lcd_cfg.get("scl_pin", 1))
    cols = int(lcd_cfg.get("cols", 16))
    rows = int(lcd_cfg.get("rows", 2))
>> *)
Record settings : Type := mkSettings {
  set_ssid : pyval;
  set_password : pyval;
  set_api_key : pyval;
  set_i2c_id : Z;
  set_sda_pin : Z;
  set_scl_pin : Z;
  set_cols : Z;
  set_rows : Z
}.

Definition int_setting (lcd_cfg : pyval) (key : string) (default : Z) : outcome Z :=
  v <~ py_get lcd_cfg key (PInt default) ;;
  py_int v.

Definition read_settings (cfg : pyval) : outcome settings :=
  let ssid := safe_get cfg ["wifi"; "ssid"] (PStr "") in
  let password := safe_get cfg ["wifi"; "password"] (PStr "") in
  let api_key := safe_get cfg ["openweathermap"; "api_key"] (PStr "") in
  lcd_cfg <~ py_get cfg "lcd" (PDict []) ;;
  i2c_id <~ int_setting lcd_cfg "i2c_id" 0 ;;
  sda_pin <~ int_setting lcd_cfg "sda_pin" 0 ;;
  scl_pin <~ int_setting lcd_cfg "scl_pin" 1 ;;
  cols <~ int_setting lcd_cfg "cols" 16 ;;
  rows <~ int_setting lcd_cfg "rows" 2 ;;
  Val (mkSettings ssid password api_key i2c_id sda_pin scl_pin cols rows).

(** The loop of main.py 401-404, run for [iters] rounds
<<
        while True:
            if wifi_ensure_connected(wlan, ssid, password, lcd=lcd, cols=cols):
                break
            utime.sleep(2)
>> *)
Fixpoint wifi_retry (fuel iters : nat) (ssid password : string)
    (lcd : option Lcd_i2c) (cols : Z) : M unit :=
  match iters with
  | O => out_of_fuel
  | S n =>
      ok <- wifi_ensure_connected fuel ssid password lcd cols ;;
      if ok then ret tt
      else sleep 2 ;; wifi_retry fuel n ssid password lcd cols
  end.

(** main.py 399-404
<<
    if not wifi_ensure_connected(wlan, ssid, password, lcd=lcd, cols=cols):
        show_error(lcd, cols, "WiFi failed", seconds=2)
        while True: ...
>> *)
Definition wifi_gate (fuel iters : nat) (ssid password : string)
    (lcd : option Lcd_i2c) (cols : Z) : M unit :=
  ok <- wifi_ensure_connected fuel ssid password lcd cols ;;
  if negb ok then
    show_error lcd cols "WiFi failed" 2 ;;
    wifi_retry fuel iters ssid password lcd cols
  else ret tt.

(** main.py 399-468: main from the first connection on. *)
Definition main_from_wifi (fuel iters : nat) (ssid password api_key : string)
    (lcd : option Lcd_i2c) (cols : Z) : M unit :=
  wifi_gate fuel iters ssid password lcd cols ;;
  main_after_wifi fuel iters ssid password api_key lcd cols.

(** main.py 471-476, around a [main] that is given
<<
try:
    main()
except Exception as e:
    log("FATAL: {}".format(e))
    while True:
        utime.sleep(1)
>> *)
Definition guarded_main (main : M unit) (iters : nat) : M unit :=
  try_except main
    (fun e =>
       log (py_format "FATAL: {}" [PStr (exn_msg e)]) ;;
       forever iters (sleep 1)).

(* ------------------------------------------------------------------ *)
(** * Observing a run *)

(** The events [w'] has on top of [w], oldest first. *)
Definition new_events (w w' : world) : list (Z * event) :=
  rev (firstn (List.length (trace w') - List.length (trace w)) (trace w')).

(** The events of a kind, with their times. *)
Definition view (p : event -> bool) (evs : list (Z * event)) : list (Z * event) :=
  filter (fun te => p (snd te)) evs.

Definition is_wlan_cmd (ev : event) : bool :=
  match ev with
  | EvWlanActive _ | EvWlanConnect _ _ | EvWlanDisconnect => true
  | _ => false
  end.

Definition is_lcd (ev : event) : bool :=
  match ev with
  | EvLcdClear | EvLcdSetCursor _ _ | EvLcdWrite _ => true
  | _ => false
  end.

Definition is_sleep (ev : event) : bool :=
  match ev with EvSleep _ => true | _ => false end.


(** A request is one call of [http_get_json]: its
    [urequests.get(url, timeout=...)].  The bare [urequests.get(url)]
    that follows a [TypeError] re-issues the same request. *)
Definition is_request (ev : event) : bool :=
  match ev with EvGet _ (Some _) => true | _ => false end.

Definition is_request_to (url : string) (ev : event) : bool :=
  match ev with EvGet u (Some _) => String.eqb u url | _ => false end.

(** Any HTTP traffic at all. *)
Definition is_http (ev : event) : bool :=
  match ev with EvGet _ _ | EvClose => true | _ => false end.


(** [str(s)], with [None] shown as the empty string (main.py 61). *)
Definition shown (s : pyval) : string :=
  match s with PNone => "" | _ => py_str s end.

(** [int(x) if is_number(x) else None] when the conversion returns. *)
Definition int_if_number (x : pyval) : option Z :=
  if is_number x then match py_int x with Val z => Some z | _ => None end
  else None.

(** [float(x) if is_number(x) else None] *)
Definition float_if_number (x : pyval) : option pyfloat :=
  match py_float x with Val f => Some f | _ => None end.

(** The world right after [log msg]. *)
Definition after_log (msg : string) (w : world) : world :=
  emit_at (EvLog (log_line (clock w mod TICKS_PERIOD) msg)) w.

(** The three kinds of failure an error string of the resolvers stands
    for, read off its first word. *)
Inductive error_kind : Type := NoData | BadResponse | NetworkError.

Definition error_kind_of (e : string) : option error_kind :=
  if starts_with "NET " e then Some NetworkError
  else if starts_with "HTTP " e || String.eqb e "Bad JSON" then Some BadResponse
  else if String.eqb e "No data" then Some NoData
  else None.

Unset Implicit Arguments.
Open Scope list_scope.

(* ------------------------------------------------------------------ *)
(** * Parts of the functions above, and what the statements speak of *)

(** Predicates on events that do not see the bookkeeping of
    [http_get_json]: log lines, the close, the bare re-issue. *)
Definition http_quiet (p : event -> bool) : Prop :=
  (forall l, p (EvLog l) = false)
  /\ p EvClose = false
  /\ (forall u, p (EvGet u None) = false).

(** What no HTTP call touches. *)
Definition off_net (w w' : world) : Prop :=
  clock w' = clock w /\ radio w' = radio w
  /\ n_isconnected w' = n_isconnected w /\ n_lcd w' = n_lcd w
  /\ n_localtime w' = n_localtime w.

Definition error_of_request (e : string) : Prop :=
  str_truthy e = true
  /\ (error_kind_of e = Some NetworkError \/ error_kind_of e = Some BadResponse).

(** The pair that [http_decode] returns. *)
Definition decoded (r : response) : pyval * option string :=
  if negb (status_code r =? 200) then
    (PNone, Some (py_format "HTTP {}" [PInt (status_code r)]))
  else match json_body r with
       | Some j => (j, None)
       | None => (PNone, Some "Bad JSON")
       end.

(** [err or not data] *)
Definition failed (data : pyval) (err : option string) : bool :=
  opt_truthy err || negb (truthy data).

Definition primary_failed_msg (err : option string) : string :=
  py_format "Geo primary failed: {}" [opt_val err].

(** [m] returns or raises, and relates the worlds before and after. *)
Definition runs (R : world -> world -> Prop) {A : Type} (m : M A) : Prop :=
  forall w, exists r w', m w = (r, w') /\ r <> OutOfFuel /\ R w w'.

(** [m] returns. *)
Definition returns (R : world -> world -> Prop) {A : Type} (m : M A) : Prop :=
  forall w, exists a w', m w = (Val a, w') /\ R w w'.

(** Log lines and display calls. *)
Definition display_only (ev : event) : bool :=
  match ev with
  | EvLog _ | EvLcdClear | EvLcdSetCursor _ _ | EvLcdWrite _ => true
  | _ => false
  end.

(** A step that only logs and draws: the clock, the radio and the call
    counters of the network stay as they are. *)
Definition quiet (w w' : world) : Prop :=
  clock w' = clock w /\ radio w' = radio w
  /\ n_isconnected w' = n_isconnected w /\ n_disconnect w' = n_disconnect w
  /\ n_ifconfig w' = n_ifconfig w /\ n_getaddrinfo w' = n_getaddrinfo w
  /\ n_get w' = n_get w
  /\ exists evs, trace w' = evs ++ trace w
                 /\ forallb (fun te => display_only (snd te)) evs = true.

(** Predicates on events that see neither log lines nor the display. *)
Definition display_blind (p : event -> bool) : Prop :=
  forall ev, display_only ev = true -> p ev = false.

(** The driver accepts its next [k] calls, counted from call [n]. *)
Definition lcd_healthy (n k : nat) : Prop :=
  forall i, (i < k)%nat -> lcd_at E (i + n) = None.

(** A screen of two lines as the display receives it at clock [t]. *)
Definition screen_events (cols : Z) (line0 line1 : string) (t : Z)
  : list (Z * event) :=
  [(t, EvLcdClear); (t, EvLcdSetCursor 0 0);
   (t, EvLcdWrite (pad_right (PStr line0) cols));
   (t, EvLcdSetCursor 0 1);
   (t, EvLcdWrite (pad_right (PStr line1) cols))].

(** The world after such a screen was written. *)
Definition painted (cols : Z) (line0 line1 : string) (w : world) : world :=
  mkWorld (clock w) (radio w) (n_isconnected w) (n_disconnect w) (n_ifconfig w)
    (n_getaddrinfo w) (n_get w) (5 + n_lcd w) (n_localtime w)
    (rev (screen_events cols line0 line1 (clock w)) ++ trace w).

(** No constraint: what is left is that the call comes back. *)
Definition anyhow (w w' : world) : Prop := True.

Definition fetch_failed_msg (werr : option string) : string :=
  py_format "Weather fetch failed: {}" [opt_val werr].

(** The notice of main.py 441-446. *)
Definition cached_notice (lcd : option Lcd_i2c) (cols : Z) : M unit :=
  try_except
    (lcd_clear lcd ;;
     lcd_write_lines lcd cols "API warn" "using cached" ;;
     sleep 2)
    (fun e => log (py_format "LCD warn msg failed: {}" [PStr (exn_msg e)])).

(** A step that sends nothing over HTTP; time may pass. *)
Definition offline (w w' : world) : Prop :=
  clock w <= clock w' /\ n_get w' = n_get w
  /\ (n_isconnected w <= n_isconnected w')%nat
  /\ exists evs, trace w' = evs ++ trace w
                 /\ forallb (fun te => negb (is_http (snd te))) evs = true.

(** Predicates on events that see HTTP traffic only. *)
Definition http_only (p : event -> bool) : Prop :=
  forall ev, is_http ev = false -> p ev = false.

(** Log lines, display calls and sleeps. *)
Definition idle (ev : event) : bool := display_only ev || is_sleep ev.

(** Predicates on events that see none of those. *)
Definition idle_blind (p : event -> bool) : Prop :=
  forall ev, idle ev = true -> p ev = false.

(** The "Connecting" screen of the loop, main.py 114-118. *)
Definition connecting_screen (lcd : option Lcd_i2c) (cols : Z) : M unit :=
  if lcd_truthy lcd then
    try_except
      (lcd_write_lines lcd cols "Connecting WiFi" "Please wait...")
      (fun e =>
         log (py_format "LCD write failed (wifi loop): {}" [PStr (exn_msg e)]))
  else ret tt.

(** The interface answers "not connected" to its next [k] polls,
    counted from poll [n]. *)
Definition polls_down (n k : nat) : Prop :=
  forall i, (i < k)%nat -> isconnected_at E (i + n) = false.

(** What a loop that only waits leaves behind. *)
Definition waited (w w' : world) (ms : Z) (polls : nat) : Prop :=
  clock w' = clock w + ms /\ radio w' = radio w
  /\ n_isconnected w' = (polls + n_isconnected w)%nat
  /\ n_disconnect w' = n_disconnect w
  /\ n_ifconfig w' = n_ifconfig w /\ n_getaddrinfo w' = n_getaddrinfo w
  /\ n_get w' = n_get w
  /\ exists evs, trace w' = evs ++ trace w
                 /\ forallb (fun te => idle (snd te)) evs = true.

(** main.py 124-133: what follows the loop once the interface is up. *)
Definition announce_connection : M bool :=
  c <- wlan_ifconfig ;;
  log (py_format "WiFi connected, IP={}" [PStr (cfg_ip c)]) ;;
  log_netinfo ;;
  sleep 1 ;;
  _ <- dns_test "ip-api.com" 80 ;;
  _ <- dns_test "api.openweathermap.org" 443 ;;
  ret true.

(** The world in which [wifi_connect] starts to wait. *)
Definition radio_on (w : world) : world :=
  if radio w then w else set_radio true (emit_at (EvWlanActive true) w).

Definition connect_issued (ssid password : string) (w : world) : world :=
  emit_at (EvWlanConnect ssid password)
    (after_log (py_format "WiFi connect() -> ssid='{}'" [PStr ssid])
       (bump_isconnected (radio_on w))).

(** What a stretch of the run did to the interface: the time it took,
    the polls it made, the commands it sent. *)
Definition wlan_run (w w' : world) (dt : Z) (polls : nat)
    (cmds : list (Z * event)) : Prop :=
  clock w' = clock w + dt
  /\ n_isconnected w' = (polls + n_isconnected w)%nat
  /\ exists evs, trace w' = evs ++ trace w
                 /\ view is_wlan_cmd (rev evs) = cmds.

(** The commands with which [wifi_connect] opens an attempt. *)
Definition opening (ssid password : string) (w : world) : list (Z * event) :=
  (if radio w then [] else [(clock w, EvWlanActive true)])
  ++ [(clock w, EvWlanConnect ssid password)].

(** The body of the retry loop, main.py 140-144. *)
Definition reconnect_attempt (fuel : nat) (ssid password : string)
    (lcd : option Lcd_i2c) (cols : Z) (attempt : Z) : M (option bool) :=
  log (py_format "WiFi reconnect attempt {}" [PInt attempt]) ;;
  ok <- wifi_connect fuel ssid password lcd cols 20 ;;
  if ok then ret (Some true)
  else sleep_ms 500 ;; ret None.

(** The commands of a call that never gets a connection, with the
    clock, counted from the call, at which each is sent. *)
Definition give_up_timeline (ssid password : string) (t0 : Z)
  : list (Z * event) :=
  [(t0, EvWlanConnect ssid password);
   (t0 + 20600, EvWlanConnect ssid password);
   (t0 + 41200, EvWlanConnect ssid password);
   (t0 + 61800, EvWlanDisconnect);
   (t0 + 62000, EvWlanActive false);
   (t0 + 62200, EvWlanActive true);
   (t0 + 62400, EvWlanConnect ssid password)].

(** What [dns_test] logs for an answer of the resolver. *)
Definition probe_msg (host : string) (r : exn + string) : string :=
  match r with
  | inr ip => py_format "DNS OK {} -> {}" [PStr host; PStr ip]
  | inl e => py_format "DNS FAIL {} -> {}" [PStr host; PStr (exn_msg e)]
  end.

Definition probed (host : string) (port : Z) (w : world) : world :=
  after_log (probe_msg host (getaddrinfo_at E (n_getaddrinfo w)))
    (bump_getaddrinfo (emit_at (EvGetaddrinfo host port) w)).

Definition announced (w : world) : world :=
  probed "api.openweathermap.org" 443
    (probed "ip-api.com" 80
       (advance 1000
          (emit_at (EvSleep 1000)
             (after_log (netinfo_msg (ifconfig_at E (S (n_ifconfig w))))
                (bump_ifconfig
                   (after_log
                      (py_format "WiFi connected, IP={}"
                         [PStr (cfg_ip (ifconfig_at E (n_ifconfig w)))])
                      (bump_ifconfig w))))))).

(** Sleeps and requests to the primary endpoint: the steps of the
    retry policy. *)
Definition is_try (ev : event) : bool :=
  is_sleep ev || is_request_to PRIMARY_URL ev.

(** Every lookup fails: [get_geo_by_ip] returns no location. *)
Definition geo_unreachable : Prop :=
  forall w, exists e w', get_geo_by_ip w = (Val (None, e), w').

(** What a stretch of the run shows to a predicate [p]: the time it
    took, and events that account for everything [p] sees in it. *)
Definition shows (p : event -> bool) (w w' : world) (dt : Z)
    (L : list (Z * event)) : Prop :=
  clock w' = clock w + dt
  /\ exists evs, trace w' = evs ++ trace w /\ view p (rev evs) = view p L.








(** C2 as the specification words it: when [poll_weather] returns, the
    deadline lies one interval after the clock of that moment, the
    moment of the advancement. *)
Definition deadline_one_interval_ahead (api_key : string) (lcd : option Lcd_i2c)
    (cols : Z) (g : geo) (st : loop_state) (w : world) : Prop :=
  forall st' w',
    poll_weather api_key lcd cols g st w = (Val st', w') ->
    ticks_diff (next_fetch st') (clock w' mod TICKS_PERIOD) = interval_ms.

(** The write of the second line of the notice. *)
Definition is_cached_notice (cols : Z) (te : Z * event) : bool :=
  match snd te with
  | EvLcdWrite s => String.eqb s (pad_right (PStr "using cached") cols)
  | _ => false
  end.

(** C5 as the specification words it: a round whose fetch fails while a
    sample is cached shows the notice exactly once. *)
Definition notice_shown_once (api_key : string) (lcd : option Lcd_i2c)
    (cols : Z) (g : geo) (st : loop_state) (w : world) : Prop :=
  forall st' w',
    poll_weather api_key lcd cols g st w = (Val st', w') ->
    List.length (filter (is_cached_notice cols) (new_events w w')) = 1%nat.

(* ------------------------------------------------------------------ *)
(** * What the further statements speak of *)

(** The value under [k] as [d.get(k)] reads it: [None] for a missing key. *)
Definition lookup (k : string) (d : list (string * pyval)) : pyval :=
  match assoc k d with Some v => v | None => PNone end.

(** A JSON number with a finite value. *)
Definition json_number (x : pyval) : bool :=
  match x with PInt _ | PFloat (Fin _) => true | _ => false end.

(** Such a number, [null], or a missing key. *)
Definition optional_number (x : pyval) : bool :=
  match x with PNone => true | _ => json_number x end.

(** A weather document of the shape the API documents: an object whose
    [main] is an object with a number under [temp] and numbers, [null]
    or nothing under [humidity] and [pressure]; whose [wind], if there,
    is an object with a number, [null] or nothing under [speed]; whose
    [weather], if it is a list that has a first entry, has an object
    there. *)
Definition well_formed_weather (d : list (string * pyval)) : bool :=
  match assoc "main" d with
  | Some (PDict m) =>
      json_number (lookup "temp" m)
      && optional_number (lookup "humidity" m)
      && optional_number (lookup "pressure" m)
  | _ => false
  end
  && match assoc "wind" d with
     | None => true
     | Some (PDict wd) => optional_number (lookup "speed" wd)
     | Some _ => false
     end
  && match assoc "weather" d with
     | Some (PList (PDict _ :: _)) => true
     | Some (PList (_ :: _)) => false
     | _ => true
     end.

(** The error texts a weather fetch and a location lookup return: never
    empty, and of a known kind. *)
Definition weather_error (e : string) : Prop :=
  str_truthy e = true /\ (error_kind_of e <> None \/ e = "Bad temp").

Definition geo_error (e : string) : Prop :=
  str_truthy e = true /\ (error_kind_of e <> None \/ e = "Missing lat/lon").

(** The line that [log msg] prints at clock [t], as an event. *)
Definition log_at (t : Z) (msg : string) : Z * event :=
  (t, EvLog (log_line (t mod TICKS_PERIOD) msg)).

(** The reply [http_get_json] goes by when it issues its request as call
    [n] of the client: the reply to the request with a timeout, or, when
    that one raised a [TypeError], the reply to the bare request that
    follows ([true]: the request was issued again). *)
Definition reply_used (n : nat) : http_reply * bool :=
  match urequests_get_at E n with
  | HttpRaise e =>
      if is_TypeError e then (urequests_get_at E (S n), true)
      else (HttpRaise e, false)
  | r => (r, false)
  end.

(** What [http_get_json] returns on a reply. *)
Definition result_of_reply (r : http_reply) : pyval * option string :=
  match r with
  | HttpResp st body => decoded (mkResponse st body)
  | HttpRaise e => net_error e
  end.
















(** The events that lead from [w] to [w'] all satisfy [P]. *)
Definition only (P : event -> Prop) (w w' : world) : Prop :=
  exists evs, trace w' = evs ++ trace w /\ Forall (fun te => P (snd te)) evs.

(** However [m] ends (it returns, it raises, or its loop is cut off
    after the rounds it was given), the world it leaves is related to
    the world it started in. *)
Definition always (R : world -> world -> Prop) {A : Type} (m : M A) : Prop :=
  forall w, R w (snd (m w)).

(** The three addresses of main.py: lines 194, 200 and 220-223. *)
Definition known_endpoint (api_key url : string) : Prop :=
  url = PRIMARY_URL \/ url = FALLBACK_URL
  \/ exists la lo, url = weather_url api_key la lo.

(** What main.py does to the HTTP client and to the display: requests to
    the three addresses, with a timeout of 10 s or, re-issued, without;
    display calls only on a display, the cursor at the start of one of
    the two rows, every text padded to the width. *)
Definition firmware_event (api_key : string) (lcd : option Lcd_i2c) (cols : Z)
    (ev : event) : Prop :=
  match ev with
  | EvGet url t => known_endpoint api_key url /\ (t = Some 10 \/ t = None)
  | EvLcdClear => lcd <> None
  | EvLcdSetCursor c r => lcd <> None /\ c = 0 /\ (r = 0 \/ r = 1)
  | EvLcdWrite s => lcd <> None /\ exists line, s = pad_right (PStr line) cols
  | _ => True
  end.

Definition is_connect (ev : event) : bool :=
  match ev with EvWlanConnect _ _ => true | _ => false end.

(** A stretch of [dt] ms in which every poll of the interface was
    answered "not connected" and at most [conns] connects were sent. *)
Definition down_span (dt : Z) (conns : nat) (w w' : world) : Prop :=
  clock w' = clock w + dt
  /\ (n_isconnected w <= n_isconnected w')%nat
  /\ (forall i, (n_isconnected w <= i < n_isconnected w')%nat ->
                isconnected_at E i = false)
  /\ exists evs, trace w' = evs ++ trace w
                 /\ (List.length (view is_connect evs) <= conns)%nat.

(** A stretch that ends with a poll of the interface: the answer to
    that poll is [b], every poll before it was answered "not
    connected".  The stretch lasts [dfail] ms when [b] is [false] and at
    most [dmax] ms anyway, and sends at most [conns] connects. *)
Definition wifi_span (b : bool) (dfail dmax : Z) (conns : nat) (w w' : world)
  : Prop :=
  clock w <= clock w' <= clock w + dmax
  /\ (b = false -> clock w' = clock w + dfail)
  /\ (n_isconnected w < n_isconnected w')%nat
  /\ (forall i, (n_isconnected w <= i < n_isconnected w' - 1)%nat ->
                isconnected_at E i = false)
  /\ isconnected_at E (n_isconnected w' - 1) = b
  /\ exists evs, trace w' = evs ++ trace w
                 /\ (List.length (view is_connect evs) <= conns)%nat.

(** How many polls [wifi_connect] sleeps through before it gives up:
    the first multiple of 300 ms past the limit. *)
Definition give_up_polls (max_wait_s : Z) : nat :=
  Z.to_nat (max_wait_s * 1000 / 300 + 1).

(** [n] sleeps of [ms] ms, one after the other, the first at clock [t]. *)
Fixpoint naps (n : nat) (ms t : Z) : list (Z * event) :=
  match n with
  | O => []
  | S n' => (t, EvSleep ms) :: naps n' ms (t + ms)
  end.

(** The interface answers "not connected" to every poll from poll [n] on. *)
Definition never_up (n : nat) : Prop :=
  forall i, (n <= i)%nat -> isconnected_at E i = false.

(** The integer under [k] of the [lcd] section, or the default. *)
Definition int_or (l : list (string * pyval)) (k : string) (default : Z) : Z :=
  match assoc k l with Some (PInt z) => z | _ => default end.

(** The key is missing or holds an integer. *)
Definition int_or_missing (l : list (string * pyval)) (k : string) : bool :=
  match assoc k l with None | Some (PInt _) => true | Some _ => false end.

(** A text, or a value that [or] replaces by its default. *)
Definition text_or_falsy (x : pyval) : bool :=
  match x with PStr _ => true | _ => negb (truthy x) end.

(** The four calls of [lcd_write_lines], in their order. *)
Definition line_calls (cols : Z) (line0 line1 : string) : list event :=
  [EvLcdSetCursor 0 0; EvLcdWrite (pad_right (PStr line0) cols);
   EvLcdSetCursor 0 1; EvLcdWrite (pad_right (PStr line1) cols)].

(* ------------------------------------------------------------------ *)
(** * Numbers in text *)

(** What the readers take: decimal numbers with a sign, a fraction and
    an exponent, blanks around them, underscores in them; and what they
    refuse.  [int()] takes no fraction, which is why a pressure of
    "1013.5" passes [is_number] and then breaks [int()]. *)
Lemma number_readers_examples :
  float_of_string "50.08" = Some (Fin (1252 # 25))
  /\ float_of_string "5_0.08" = Some (Fin (1252 # 25))
  /\ float_of_string "1_000" = Some (Fin 1000)
  /\ float_of_string "1.5_5" = Some (Fin (31 # 20))
  /\ float_of_string "_1" = Some (Fin 1)
  /\ float_of_string "." = Some (Fin 0)
  /\ float_of_string " -1.5e-2 " = Some (Fin (-3 # 200))
  /\ float_of_string "-Infinity" = Some (Inf true)
  /\ float_of_string "" = None
  /\ float_of_string "1e" = None
  /\ float_of_string "1.2.3" = None
  /\ float_of_string "12 3" = None
  /\ float_of_string "0x10" = None
  /\ int_of_string "5_5" = Some 55
  /\ int_of_string " -42 " = Some (-42)
  /\ int_of_string "1013.5" = None
  /\ int_of_string "" = None
  /\ is_number (PStr "5_0.08") = true
  /\ is_number (PStr "n/a") = false.
Proof. repeat split; reflexivity. Qed.

(* ------------------------------------------------------------------ *)
(** * Strings: lengths *)

Lemma length_append (a b : string) :
  String.length (a ++ b)%string = (String.length a + String.length b)%nat.
Proof.
  induction a as [|c a IH]; simpl; [reflexivity | now rewrite IH].
Qed.

Lemma length_str_take (n : nat) (s : string) :
  String.length (str_take n s) = Nat.min n (String.length s).
Proof.
  revert s; induction n as [|n IH]; intros [|c s]; simpl; try reflexivity.
  now rewrite IH.
Qed.

Lemma length_spaces (n : nat) : String.length (str_repeat " " n) = n.
Proof.
  induction n as [|n IH]; simpl; [reflexivity | now rewrite IH].
Qed.

Lemma str_take_all (n : nat) (s : string) :
  (String.length s <= n)%nat -> str_take n s = s.
Proof.
  revert s; induction n as [|n IH]; intros [|c s]; simpl; intros H;
    try reflexivity; try lia.
  f_equal; apply IH; lia.
Qed.

(** C3. For every value [s] ([None], the empty string and over-long
    strings included) and every column count [cols >= 0], [pad_right]
    returns exactly [cols] characters: the first [cols] characters of
    [str(s)] when that is longer, otherwise [str(s)] followed by blanks.
    With 16 columns, "Temp: 23.7C testing" becomes "Temp: 23.7C test". *)
Theorem pad_right_exact_width (s : pyval) (cols : Z) :
  0 <= cols ->
  len (pad_right s cols) = cols
  /\ (len (shown s) > cols ->
      pad_right s cols = str_take (Z.to_nat cols) (shown s))
  /\ (len (shown s) <= cols ->
      pad_right s cols
      = (shown s ++ str_repeat " " (Z.to_nat (cols - len (shown s))))%string)
  /\ pad_right PNone cols = str_repeat " " (Z.to_nat cols)
  /\ pad_right (PStr "Temp: 23.7C testing") 16 = "Temp: 23.7C test".
Proof.
  intros Hc.
  assert (E1 : pad_right s cols
               = if len (shown s) >? cols then py_slice_to (shown s) cols
                 else (shown s ++ py_str_mul " " (cols - len (shown s)))%string).
  { unfold pad_right, shown; destruct s; reflexivity. }
  assert (Hslice : py_slice_to (shown s) cols = str_take (Z.to_nat cols) (shown s)).
  { unfold py_slice_to. destruct (cols <? 0) eqn:Hn; [lia | reflexivity]. }
  repeat split.
  - rewrite E1. destruct (len (shown s) >? cols) eqn:Hgt.
    + rewrite Hslice. unfold len in *. rewrite length_str_take. lia.
    + unfold len, py_str_mul in *. rewrite length_append, length_spaces. lia.
  - intros Hgt. rewrite E1.
    destruct (len (shown s) >? cols) eqn:Hb; [exact Hslice | lia].
  - intros Hle. rewrite E1.
    destruct (len (shown s) >? cols) eqn:Hb; [lia | reflexivity].
  - unfold pad_right, len, py_str_mul; simpl.
    destruct (0 >? cols) eqn:Hb; [lia |]. now rewrite Z.sub_0_r.
Qed.

(* ------------------------------------------------------------------ *)
(** * Decoding the weather response *)

Lemma obind_val {A B} (o : outcome A) (k : A -> outcome B) (v : B) :
  obind o k = Val v -> exists a, o = Val a /\ k a = Val v.
Proof.
  destruct o as [a|e|]; simpl; intros H; try discriminate.
  exists a; split; [reflexivity | exact H].
Qed.

Lemma py_get_dict (x : pyval) (key : string) (default v : pyval) :
  py_get x key default = Val v ->
  exists d, x = PDict d
            /\ v = match assoc key d with Some u => u | None => default end.
Proof.
  destruct x; simpl; intros H; try discriminate.
  injection H as <-. eexists; split; reflexivity.
Qed.

(** Two chained [.get] calls read the same field as [safe_get]. *)
Lemma py_get_path (data m v : pyval) (k1 k2 : string) :
  py_get data k1 (PDict []) = Val m ->
  py_get m k2 PNone = Val v ->
  safe_get data [k1; k2] PNone = v.
Proof.
  intros H1 H2.
  apply py_get_dict in H1 as (d & -> & ->).
  apply py_get_dict in H2 as (dm & Hm & ->).
  unfold safe_get; simpl.
  destruct (assoc k1 d) as [u|]; simpl.
  - subst u; simpl. destruct (assoc k2 dm); reflexivity.
  - injection Hm as <-. reflexivity.
Qed.

Lemma py_get_top (data v : pyval) (k : string) :
  py_get data k PNone = Val v -> safe_get data [k] PNone = v.
Proof.
  intros H. apply py_get_dict in H as (d & -> & ->).
  unfold safe_get; simpl. destruct (assoc k d); reflexivity.
Qed.

Lemma is_number_float (x : pyval) :
  is_number x = true -> exists f, py_float x = Val f.
Proof.
  unfold is_number. destruct (py_float x) as [f| |]; try discriminate.
  intros _; now exists f.
Qed.

(** What a decoded sample holds, field by field. *)
Lemma weather_of_data_sample (data : pyval) (s : weather) :
  weather_of_data data = Val (inl s) ->
  float_if_number (safe_get data ["main"; "temp"] PNone) = Some (temp s)
  /\ humidity s = int_if_number (safe_get data ["main"; "humidity"] PNone)
  /\ pressure s = int_if_number (safe_get data ["main"; "pressure"] PNone)
  /\ wind s = float_if_number (safe_get data ["wind"; "speed"] PNone).
Proof.
  unfold weather_of_data. intros H.
  apply obind_val in H as (main & Hmain & H).
  apply obind_val in H as (wnd & Hwind & H).
  apply obind_val in H as (w_arr & _ & H).
  apply obind_val in H as (t & Ht & H).
  apply obind_val in H as (h & Hh & H).
  apply obind_val in H as (p & Hp & H).
  apply obind_val in H as (ws & Hws & H).
  apply obind_val in H as (dsc & _ & H).
  rewrite (py_get_path _ _ _ _ _ Hmain Ht), (py_get_path _ _ _ _ _ Hmain Hh),
    (py_get_path _ _ _ _ _ Hmain Hp), (py_get_path _ _ _ _ _ Hwind Hws).
  destruct (is_number t) eqn:Nt; simpl in H; [|discriminate].
  apply obind_val in H as (ft & Hft & H).
  apply obind_val in H as (oh & Hoh & H).
  apply obind_val in H as (op & Hop & H).
  apply obind_val in H as (ow & How & H).
  injection H as <-; simpl.
  unfold float_if_number, int_if_number. rewrite Hft.
  repeat split.
  - destruct (is_number h); [|now injection Hoh as <-].
    apply obind_val in Hoh as (z & -> & Hz). now injection Hz as <-.
  - destruct (is_number p); [|now injection Hop as <-].
    apply obind_val in Hop as (z & -> & Hz). now injection Hz as <-.
  - destruct (is_number ws) eqn:Nw.
    + apply obind_val in How as (f & -> & Hf). now injection Hf as <-.
    + injection How as <-. unfold is_number in Nw.
      destruct (py_float ws); [discriminate | reflexivity | reflexivity].
Qed.

(** Without a numeric temperature the decoding, when it returns, returns
    the error. *)
Lemma weather_of_data_bad_temp (data : pyval) (r : weather + string) :
  weather_of_data data = Val r ->
  is_number (safe_get data ["main"; "temp"] PNone) = false ->
  r = inr "Bad temp".
Proof.
  unfold weather_of_data. intros H.
  apply obind_val in H as (main & Hmain & H).
  apply obind_val in H as (wnd & _ & H).
  apply obind_val in H as (w_arr & _ & H).
  apply obind_val in H as (t & Ht & H).
  apply obind_val in H as (h & _ & H).
  apply obind_val in H as (p & _ & H).
  apply obind_val in H as (ws & _ & H).
  apply obind_val in H as (dsc & _ & H).
  rewrite (py_get_path _ _ _ _ _ Hmain Ht). intros N. rewrite N in H.
  simpl in H. now injection H as <-.
Qed.

(** A sample that [get_weather_openweathermap] returns was decoded from
    the body that [http_get_json] handed over. *)
Lemma get_weather_sample (api_key : string) (la lo : pyfloat) (w0 w1 w2 : world)
    (data : pyval) (err : option string) (s : weather) :
  http_get_json (weather_url api_key la lo) 10 w0 = (Val (data, err), w1) ->
  get_weather_openweathermap api_key la lo w0 = (Val (Some s, None), w2) ->
  weather_of_data data = Val (inl s).
Proof.
  intros Hh. unfold get_weather_openweathermap, bind. rewrite Hh.
  destruct (opt_truthy err || negb (truthy data)); [discriminate|].
  unfold lift. destruct (weather_of_data data) as [[s'|e]|e|]; try discriminate.
  intros H. now injection H as <-.
Qed.

Lemma Qtrunc_toward_zero (q : Q) :
  Z.abs (Qtrunc q) = Qfloor (Qabs q)
  /\ (0 <= Qnum q -> 0 <= Qtrunc q)
  /\ (Qnum q <= 0 -> Qtrunc q <= 0).
Proof.
  destruct q as [n d]; unfold Qtrunc, Qabs, Qfloor; simpl.
  repeat split.
  - rewrite <- Z.quot_abs by lia. simpl Z.abs at 2.
    apply Z.quot_div_nonneg; lia.
  - intros H. apply Z.quot_pos; lia.
  - intros H. rewrite <- (Z.opp_involutive n), Z.quot_opp_l by lia.
    assert (0 <= Z.quot (- n) (Z.pos d)) by (apply Z.quot_pos; lia). lia.
Qed.

(** C10. Whenever [get_weather_openweathermap] returns a sample for a
    response whose humidity or pressure is a number with a fractional
    part (55.7, say), the sample holds [int()] of it, the value truncated
    toward zero (55); temperature and wind speed go through [float()] and
    keep their value. *)
Theorem weather_int_fields_truncate (api_key : string) (la lo : pyfloat)
    (w0 w1 w2 : world) (data : pyval) (err : option string) (s : weather) :
  http_get_json (weather_url api_key la lo) 10 w0 = (Val (data, err), w1) ->
  get_weather_openweathermap api_key la lo w0 = (Val (Some s, None), w2) ->
  (forall q, safe_get data ["main"; "humidity"] PNone = PFloat (Fin q) ->
             humidity s = Some (Qtrunc q))
  /\ (forall q, safe_get data ["main"; "pressure"] PNone = PFloat (Fin q) ->
                pressure s = Some (Qtrunc q))
  /\ (forall f, safe_get data ["main"; "temp"] PNone = PFloat f -> temp s = f)
  /\ (forall f, safe_get data ["wind"; "speed"] PNone = PFloat f ->
                wind s = Some f)
  /\ (forall q, Z.abs (Qtrunc q) = Qfloor (Qabs q)
                /\ (0 <= Qnum q -> 0 <= Qtrunc q)
                /\ (Qnum q <= 0 -> Qtrunc q <= 0))
  /\ Qtrunc (557 # 10) = 55
  /\ Qtrunc (- 557 # 10) = - 55.
Proof.
  intros Hh Hw.
  destruct (weather_of_data_sample _ _ (get_weather_sample _ _ _ _ _ _ _ _ _ Hh Hw))
    as (Ht & Hhum & Hpres & Hwind).
  repeat split; try reflexivity; try apply Qtrunc_toward_zero.
  - intros q Hq. now rewrite Hhum, Hq.
  - intros q Hq. now rewrite Hpres, Hq.
  - intros f Hf. rewrite Hf in Ht. now injection Ht as ->.
  - intros f Hf. now rewrite Hwind, Hf.
Qed.

(* ------------------------------------------------------------------ *)
(** * Traces *)

Lemma new_events_ext (w w' : world) (evs : list (Z * event)) :
  trace w' = evs ++ trace w -> new_events w w' = rev evs.
Proof.
  intros H. unfold new_events. rewrite H, length_app.
  replace (List.length evs + List.length (trace w) - List.length (trace w))%nat
    with (List.length evs + 0)%nat by lia.
  now rewrite firstn_app_2, firstn_O, app_nil_r.
Qed.

Lemma view_app (p : event -> bool) (a b : list (Z * event)) :
  view p (a ++ b) = view p a ++ view p b.
Proof. apply filter_app. Qed.

Lemma view_rev (p : event -> bool) (a : list (Z * event)) :
  view p (rev a) = rev (view p a).
Proof.
  induction a as [|x a IH]; simpl; [reflexivity|].
  rewrite view_app, IH. simpl. unfold view at 2; simpl.
  destruct (p (snd x)); simpl; [reflexivity | now rewrite app_nil_r].
Qed.

Lemma new_events_ext2 (w w1 w' : world) (mid newer : list (Z * event)) :
  trace w1 = mid ++ trace w ->
  trace w' = newer ++ trace w1 ->
  new_events w w' = rev mid ++ rev newer.
Proof.
  intros H1 H2. rewrite (new_events_ext w w' (newer ++ mid)).
  - apply rev_app_distr.
  - rewrite H2, H1. apply app_assoc.
Qed.

(** The events a world has on top of another, read off its trace. *)
Ltac ext_prefix l t :=
  lazymatch l with
  | t => constr:(@nil (Z * event))
  | ?x :: ?l' => let r := ext_prefix l' t in constr:(x :: r)
  end.

(** Rewrites [new_events w w'] where [w'] is built on top of [w1]. *)
Ltac events_since w w1 H1 :=
  match goal with
  | |- context [new_events w ?w'] =>
      let l := eval simpl in (trace w') in
      let r := ext_prefix l (trace w1) in
      rewrite (new_events_ext2 w w1 w' _ r H1 eq_refl)
  end.

Lemma off_net_refl (w : world) : off_net w w.
Proof. repeat split. Qed.

Lemma off_net_trans (a b c : world) : off_net a b -> off_net b c -> off_net a c.
Proof.
  unfold off_net. intros (?&?&?&?&?) (?&?&?&?&?). repeat split; congruence.
Qed.

Lemma net_error_kind (x : exn) :
  error_of_request (py_format "NET {}" [PStr (exn_msg x)]).
Proof. split; [reflexivity | left; reflexivity]. Qed.

Lemma http_error_kind (c : Z) :
  error_of_request (py_format "HTTP {}" [PInt c]).
Proof. split; [reflexivity | right; reflexivity]. Qed.

Lemma log_run (msg : string) (w : world) :
  log msg w = (Val tt, after_log msg w).
Proof. reflexivity. Qed.

Lemma http_decode_run (r : response) (w : world) :
  http_decode r w
  = (Val (decoded r),
     after_log (py_format "HTTP status {}" [PInt (status_code r)]) w).
Proof.
  unfold http_decode, decoded, bind, try_except, response_json.
  rewrite log_run.
  destruct (negb (status_code r =? 200)); [reflexivity|].
  destruct (json_body r); reflexivity.
Qed.

Lemma decoded_error (r : response) (e : string) :
  snd (decoded r) = Some e -> fst (decoded r) = PNone /\ error_of_request e.
Proof.
  unfold decoded. destruct (negb (status_code r =? 200)); simpl.
  - intros H; injection H as <-. split; [reflexivity | apply http_error_kind].
  - destruct (json_body r); simpl; [discriminate|].
    intros H; injection H as <-. split; [reflexivity|].
    split; [reflexivity | right; reflexivity].
Qed.

(** [http_get_json] always returns a pair; it issues one request, at the
    clock it was called at, and changes nothing else. *)
Lemma http_get_json_spec (url : string) (t : Z) (w : world) :
  exists data err w' evs,
    http_get_json url t w = (Val (data, err), w')
    /\ off_net w w'
    /\ trace w' = evs ++ trace w
    /\ (forall p, http_quiet p ->
                  view p evs = view p [(clock w, EvGet url (Some t))])
    /\ (forall e, err = Some e -> data = PNone /\ error_of_request e).
Proof.
  unfold http_get_json, bind, attempt, try_except_TypeError, urequests_get.
  rewrite log_run. simpl.
  destruct (urequests_get_at E (n_get w)) as [e1|st body] eqn:R1.
  - destruct (is_TypeError e1) eqn:TE.
    + simpl. destruct (urequests_get_at E (S (n_get w))) as [e2|st body] eqn:R2.
      * do 3 eexists. exists [(clock w, EvGet url None); (clock w, EvGet url (Some t));
                               (clock w, EvLog (log_line (clock w mod TICKS_PERIOD)
                                                  (py_format "HTTP GET {}" [PStr url])))].
        split; [reflexivity|]. split; [repeat split|]. split; [reflexivity|].
        split; [|intros e He; injection He as <-; split;
                 [reflexivity | apply net_error_kind]].
        intros p (Hl & Hc & Hb). unfold view; simpl. now rewrite Hl, Hb.
      * unfold try_except. rewrite http_decode_run. simpl.
        destruct (decoded (mkResponse st body)) as [data err] eqn:D.
        exists data, err. eexists.
        eexists [(clock w, EvClose); (clock w, EvLog _); (clock w, EvGet url None);
                 (clock w, EvGet url (Some t)); (clock w, EvLog _)].
        split; [reflexivity|]. split; [repeat split|]. split; [reflexivity|].
        split.
        -- intros p (Hl & Hc & Hb). unfold view; simpl. now rewrite !Hl, Hb, Hc.
        -- intros e He. pose proof (decoded_error (mkResponse st body) e) as X.
           rewrite D in X. simpl in X. subst err. now apply X.
    + do 3 eexists. exists [(clock w, EvGet url (Some t));
                             (clock w, EvLog (log_line (clock w mod TICKS_PERIOD)
                                                (py_format "HTTP GET {}" [PStr url])))].
      split; [reflexivity|]. split; [repeat split|]. split; [reflexivity|].
      split; [|intros e He; injection He as <-; split;
               [reflexivity | apply net_error_kind]].
      intros p (Hl & Hc & Hb). unfold view; simpl. now rewrite Hl.
  - unfold try_except. rewrite http_decode_run. simpl.
    destruct (decoded (mkResponse st body)) as [data err] eqn:D.
    exists data, err. eexists.
    eexists [(clock w, EvClose); (clock w, EvLog _);
             (clock w, EvGet url (Some t)); (clock w, EvLog _)].
    split; [reflexivity|]. split; [repeat split|]. split; [reflexivity|].
    split.
    + intros p (Hl & Hc & Hb). unfold view; simpl. now rewrite !Hl, Hc.
    + intros e He. pose proof (decoded_error (mkResponse st body) e) as X.
      rewrite D in X. simpl in X. subst err. now apply X.
Qed.

(* ------------------------------------------------------------------ *)
(** * Geolocation *)

(** The two ways through [geo_select]. *)
Lemma geo_select_spec (w : world) :
  exists data err w1 e1,
    http_get_json PRIMARY_URL 10 w = (Val (data, err), w1)
    /\ off_net w w1
    /\ trace w1 = e1 ++ trace w
    /\ (forall p, http_quiet p ->
                  view p e1 = view p [(clock w, EvGet PRIMARY_URL (Some 10))])
    /\ (forall e, err = Some e -> data = PNone /\ error_of_request e)
    /\ (failed data err = false -> geo_select w = (Val (inl data), w1))
    /\ (failed data err = true ->
        exists data2 err2 w2 e2,
          http_get_json FALLBACK_URL 10 (after_log (primary_failed_msg err) w1)
          = (Val (data2, err2), w2)
          /\ off_net w w2
          /\ trace w2 = e2 ++ trace w1
          /\ (forall p, http_quiet p ->
                        view p e2 = view p [(clock w, EvGet FALLBACK_URL (Some 10))])
          /\ (forall e, err2 = Some e -> data2 = PNone /\ error_of_request e)
          /\ geo_select w
             = (Val (if failed data2 err2
                     then inr (opt_or err2 (opt_or err "No data"))
                     else inl data2), w2)).
Proof.
  destruct (http_get_json_spec PRIMARY_URL 10 w)
    as (data & err & w1 & e1 & H1 & Hoff1 & Ht1 & Hv1 & He1).
  exists data, err, w1, e1. repeat (split; [assumption|]).
  unfold geo_select, bind. rewrite H1. fold (failed data err). split.
  - intros ->. reflexivity.
  - intros ->. rewrite log_run. fold (primary_failed_msg err).
    destruct (http_get_json_spec FALLBACK_URL 10
                (after_log (primary_failed_msg err) w1))
      as (data2 & err2 & w2 & e2 & H2 & Hoff2 & Ht2 & Hv2 & He2).
    exists data2, err2, w2. eexists (e2 ++ [_]).
    split; [exact H2|]. split.
    { eapply off_net_trans; [exact Hoff1|]. exact Hoff2. }
    split; [rewrite Ht2; simpl; now rewrite <- app_assoc|].
    split.
    { intros p Hp. rewrite view_app, (Hv2 p Hp). simpl.
      destruct Hoff1 as (-> & _). destruct Hp as (Hl & _).
      unfold view; simpl. rewrite Hl. now rewrite app_nil_r. }
    split; [exact He2|].
    rewrite H2. fold (failed data2 err2). now destruct (failed data2 err2).
Qed.

Lemma opt_or_none (y : string) : opt_or None y = y.
Proof. reflexivity. Qed.

Lemma opt_or_error (e y : string) :
  str_truthy e = true -> opt_or (Some e) y = e.
Proof. intros H; unfold opt_or; now rewrite H. Qed.

Lemma failed_truthy_data (data : pyval) (err : option string) :
  (forall e, err = Some e -> data = PNone /\ error_of_request e) ->
  failed data err = false -> err = None /\ truthy data = true.
Proof.
  intros He. unfold failed. destruct err as [e|]; simpl.
  - destruct (He e eq_refl) as (_ & (Ht & _)). rewrite Ht. discriminate.
  - destruct (truthy data); [now split | discriminate].
Qed.

(** ** The lookup, reply by reply *)









(* ------------------------------------------------------------------ *)
(** * Ticks *)

Lemma ticks_diff_congr (a b d k : Z) :
  a - b = d + k * TICKS_PERIOD ->
  - (TICKS_PERIOD / 2) <= d < TICKS_PERIOD / 2 ->
  ticks_diff a b = d.
Proof.
  intros Hab Hd. unfold ticks_diff.
  replace (a - b + TICKS_PERIOD / 2) with (d + TICKS_PERIOD / 2 + k * TICKS_PERIOD) by lia.
  rewrite Z.mod_add by (unfold TICKS_PERIOD; lia).
  rewrite Z.mod_small; [lia|].
  change TICKS_PERIOD with (2 * (TICKS_PERIOD / 2)) at 3.
  lia.
Qed.

(** Reading the counter twice, [d] milliseconds apart. *)
Lemma ticks_diff_clock (c d : Z) :
  - (TICKS_PERIOD / 2) <= d < TICKS_PERIOD / 2 ->
  ticks_diff ((c + d) mod TICKS_PERIOD) (c mod TICKS_PERIOD) = d.
Proof.
  intros Hd.
  apply ticks_diff_congr with (k := c / TICKS_PERIOD - (c + d) / TICKS_PERIOD);
    [|exact Hd].
  pose proof (Z.div_mod c TICKS_PERIOD) as H1.
  pose proof (Z.div_mod (c + d) TICKS_PERIOD) as H2.
  assert (TICKS_PERIOD <> 0) by (unfold TICKS_PERIOD; lia).
  specialize (H1 H); specialize (H2 H). lia.
Qed.

Lemma ticks_diff_add (a d : Z) :
  - (TICKS_PERIOD / 2) <= d < TICKS_PERIOD / 2 ->
  ticks_diff (ticks_add a d) a = d.
Proof.
  intros Hd. unfold ticks_add.
  apply ticks_diff_congr with (k := - ((a + d) / TICKS_PERIOD)); [|exact Hd].
  pose proof (Z.div_mod (a + d) TICKS_PERIOD) as H2.
  assert (TICKS_PERIOD <> 0) by (unfold TICKS_PERIOD; lia).
  specialize (H2 H). lia.
Qed.

(** A deadline set [d] after the reading at clock [c] is not reached at
    any clock before [c + d]. *)
Lemma ticks_not_due (c d t : Z) :
  0 < d <= TICKS_PERIOD / 2 ->
  c <= t < c + d ->
  ticks_diff (t mod TICKS_PERIOD) (ticks_add (c mod TICKS_PERIOD) d) < 0.
Proof.
  intros Hd Ht. unfold ticks_add.
  rewrite (ticks_diff_congr _ _ (t - c - d)
             (- (t / TICKS_PERIOD) + c / TICKS_PERIOD
              + (c mod TICKS_PERIOD + d) / TICKS_PERIOD)); [lia| |lia].
  pose proof (Z.div_mod c TICKS_PERIOD) as H1.
  pose proof (Z.div_mod t TICKS_PERIOD) as H2.
  pose proof (Z.div_mod (c mod TICKS_PERIOD + d) TICKS_PERIOD) as H3.
  assert (TICKS_PERIOD <> 0) by (unfold TICKS_PERIOD; lia).
  specialize (H1 H); specialize (H2 H); specialize (H3 H). lia.
Qed.

Lemma interval_fits : 0 < interval_ms < TICKS_PERIOD / 2.
Proof. split; [reflexivity | now vm_compute]. Qed.

(* ------------------------------------------------------------------ *)
(** * The weather fetch *)

(** One call of [get_weather_openweathermap] issues one request, at the
    clock it is called at, whatever comes of it. *)
Lemma get_weather_spec (api_key : string) (la lo : pyfloat) (w : world) :
  exists r w' evs,
    get_weather_openweathermap api_key la lo w = (r, w')
    /\ off_net w w'
    /\ trace w' = evs ++ trace w
    /\ (forall p, http_quiet p ->
          view p evs = view p [(clock w, EvGet (weather_url api_key la lo) (Some 10))]).
Proof.
  destruct (http_get_json_spec (weather_url api_key la lo) 10 w)
    as (data & err & w1 & e1 & H1 & Hoff & Ht & Hv & _).
  unfold get_weather_openweathermap, bind, lift. rewrite H1.
  destruct (opt_truthy err || negb (truthy data)).
  - do 2 eexists. exists e1. repeat split; try apply Hoff; assumption.
  - destruct (weather_of_data data) as [[s|e]|e|].
    + rewrite log_run. do 2 eexists. eexists (_ :: e1).
      split; [reflexivity|]. split; [exact Hoff|].
      split; [simpl; now rewrite Ht|].
      intros p Hp. pose proof Hp as (Hl & _).
      unfold view at 1; simpl. rewrite Hl. now apply Hv.
    + do 2 eexists. exists e1. repeat split; try apply Hoff; assumption.
    + do 2 eexists. exists e1. repeat split; try apply Hoff; assumption.
    + do 2 eexists. exists e1. repeat split; try apply Hoff; assumption.
Qed.

(* ------------------------------------------------------------------ *)
(** * Runs that stay within a relation *)

Section Steps.

Variable R : world -> world -> Prop.
Hypothesis R_refl : forall w, R w w.
Hypothesis R_trans : forall a b c, R a b -> R b c -> R a c.

Lemma returns_runs {A : Type} (m : M A) : returns R m -> runs R m.
Proof.
  intros H w. destruct (H w) as (a & w' & Hm & Hr).
  exists (Val a), w'. repeat split; [exact Hm | discriminate | exact Hr].
Qed.

Lemma returns_ret {A : Type} (a : A) : returns R (ret a).
Proof. intros w. exists a, w. split; [reflexivity | apply R_refl]. Qed.

Lemma runs_raise {A : Type} (e : exn) : runs R (@raise A e).
Proof.
  intros w. exists (Raise e), w.
  repeat split; [discriminate | apply R_refl].
Qed.

Lemma runs_lift {A : Type} (o : outcome A) : o <> OutOfFuel -> runs R (lift o).
Proof. intros H w. exists o, w. repeat split; [exact H | apply R_refl]. Qed.

Lemma runs_bind {A B : Type} (m : M A) (k : A -> M B) :
  runs R m -> (forall a, runs R (k a)) -> runs R (bind m k).
Proof.
  intros Hm Hk w. destruct (Hm w) as (r & w1 & E1 & Hne & R1).
  unfold bind. rewrite E1. destruct r as [a|e|].
  - destruct (Hk a w1) as (r2 & w2 & E2 & Hne2 & R2).
    exists r2, w2. repeat split; [exact E2 | exact Hne2 | eapply R_trans; eassumption].
  - exists (Raise e), w1. repeat split; [discriminate | exact R1].
  - contradiction.
Qed.

Lemma returns_bind {A B : Type} (m : M A) (k : A -> M B) :
  returns R m -> (forall a, returns R (k a)) -> returns R (bind m k).
Proof.
  intros Hm Hk w. destruct (Hm w) as (a & w1 & E1 & R1).
  unfold bind. rewrite E1.
  destruct (Hk a w1) as (b & w2 & E2 & R2).
  exists b, w2. split; [exact E2 | eapply R_trans; eassumption].
Qed.

(** A guarded block returns when its handler does. *)
Lemma returns_try {A : Type} (m : M A) (h : exn -> M A) :
  runs R m -> (forall e, returns R (h e)) -> returns R (try_except m h).
Proof.
  intros Hm Hh w. destruct (Hm w) as (r & w1 & E1 & Hne & R1).
  unfold try_except. rewrite E1. destruct r as [a|e|].
  - exists a, w1. split; [reflexivity | exact R1].
  - destruct (Hh e w1) as (b & w2 & E2 & R2).
    exists b, w2. split; [exact E2 | eapply R_trans; eassumption].
  - contradiction.
Qed.

Lemma returns_if {A : Type} (b : bool) (m1 m2 : M A) :
  returns R m1 -> returns R m2 -> returns R (if b then m1 else m2).
Proof. now destruct b. Qed.

End Steps.

(* ------------------------------------------------------------------ *)
(** * The display *)

#[local] Arguments log_line : simpl never.
#[local] Arguments py_format : simpl never.
#[local] Arguments pad_right : simpl never.
#[local] Arguments clamp_str : simpl never.

Lemma quiet_refl (w : world) : quiet w w.
Proof. repeat split. exists []. split; reflexivity. Qed.

Lemma quiet_trans (a b c : world) : quiet a b -> quiet b c -> quiet a c.
Proof.
  intros (?&?&?&?&?&?&?& e1 & T1 & F1) (?&?&?&?&?&?&?& e2 & T2 & F2).
  repeat split; try congruence.
  exists (e2 ++ e1). split.
  - rewrite T2, T1. apply app_assoc.
  - rewrite forallb_app. now rewrite F1, F2.
Qed.

Lemma view_display_only (p : event -> bool) (evs : list (Z * event)) :
  display_blind p ->
  forallb (fun te => display_only (snd te)) evs = true ->
  view p evs = [].
Proof.
  intros Hp. induction evs as [|x evs IH]; simpl; [reflexivity|].
  intros H. apply andb_prop in H as (Hx & H).
  unfold view; simpl. rewrite (Hp _ Hx). now apply IH.
Qed.

Lemma returns_log (msg : string) : returns quiet (log msg).
Proof.
  intros w. exists tt, (after_log msg w). split; [reflexivity|].
  repeat split. eexists [_]. split; reflexivity.
Qed.

Lemma runs_lcd_call (lcd : option Lcd_i2c) (ev : event) :
  display_only ev = true -> runs quiet (lcd_call lcd ev).
Proof.
  intros Hev w. destruct lcd as [l|]; simpl.
  - destruct (lcd_at E (n_lcd w)) as [e|].
    + exists (Raise e), (bump_lcd w).
      repeat split; [discriminate|]. exists []. split; reflexivity.
    + exists (Val tt), (bump_lcd (emit_at ev w)).
      repeat split; [discriminate|]. eexists [_]. split; [reflexivity|].
      simpl. now rewrite Hev.
  - apply runs_raise. exact quiet_refl.
Qed.

Lemma runs_lcd_clear (lcd : option Lcd_i2c) : runs quiet (lcd_clear lcd).
Proof. now apply runs_lcd_call. Qed.

Lemma runs_lcd_write_lines (lcd : option Lcd_i2c) (cols : Z) (a b : string) :
  runs quiet (lcd_write_lines lcd cols a b).
Proof.
  unfold lcd_write_lines, lcd_set_cursor, lcd_write.
  repeat (apply (runs_bind quiet quiet_trans); [|intros _]);
    now apply runs_lcd_call.
Qed.

Lemma lcd_call_ok (l : Lcd_i2c) (ev : event) (w : world) :
  lcd_at E (n_lcd w) = None ->
  lcd_call (Some l) ev w = (Val tt, bump_lcd (emit_at ev w)).
Proof. intros H. unfold lcd_call. now rewrite H. Qed.

Lemma paint_ok (l : Lcd_i2c) (cols : Z) (line0 line1 : string) (w : world) :
  lcd_healthy (n_lcd w) 5 ->
  bind (lcd_clear (Some l)) (fun _ => lcd_write_lines (Some l) cols line0 line1) w
  = (Val tt, painted cols line0 line1 w).
Proof.
  intros H.
  unfold lcd_write_lines, lcd_clear, lcd_set_cursor, lcd_write, bind.
  rewrite lcd_call_ok by (apply (H 0%nat); lia).
  rewrite lcd_call_ok by (apply (H 1%nat); lia).
  rewrite lcd_call_ok by (apply (H 2%nat); lia).
  rewrite lcd_call_ok by (apply (H 3%nat); lia).
  rewrite lcd_call_ok by (apply (H 4%nat); lia).
  reflexivity.
Qed.

Lemma runs_weaken {A : Type} (R R' : world -> world -> Prop) (m : M A) :
  (forall w w', R w w' -> R' w w') -> runs R m -> runs R' m.
Proof.
  intros HR Hm w. destruct (Hm w) as (r & w' & E1 & Hne & Hr).
  exists r, w'. repeat split; [exact E1 | exact Hne | now apply HR].
Qed.

Lemma returns_weaken {A : Type} (R R' : world -> world -> Prop) (m : M A) :
  (forall w w', R w w' -> R' w w') -> returns R m -> returns R' m.
Proof.
  intros HR Hm w. destruct (Hm w) as (a & w' & E1 & Hr).
  exists a, w'. split; [exact E1 | now apply HR].
Qed.

Lemma returns_sleep_ms (ms : Z) : returns anyhow (sleep_ms ms).
Proof. intros w. do 2 eexists. split; [reflexivity | exact I]. Qed.

(** The guarded drawing of [show_error] and of the heartbeat. *)
Lemma returns_guarded_paint (lcd : option Lcd_i2c) (cols : Z) (a b what : string)
    (draw : bool) :
  returns quiet
    (try_except
       (if draw then bind (lcd_clear lcd) (fun _ => lcd_write_lines lcd cols a b)
        else ret tt)
       (fun e => log (py_format what [PStr (exn_msg e)]))).
Proof.
  apply (returns_try quiet quiet_trans).
  - destruct draw.
    + apply (runs_bind quiet quiet_trans); [apply runs_lcd_clear|].
      intros _. apply runs_lcd_write_lines.
    + apply returns_runs, returns_ret, quiet_refl.
  - intros e. apply returns_log.
Qed.

(** [show_error]: the log line, a quiet drawing, the dwell. *)
Lemma show_error_spec (lcd : option Lcd_i2c) (cols : Z) (msg : string)
    (secs : Z) (w : world) :
  exists w1,
    show_error lcd cols msg secs w
    = (Val tt, advance (1000 * secs) (emit_at (EvSleep (1000 * secs)) w1))
    /\ quiet (after_log (py_format "ERROR: {}" [PStr msg]) w) w1.
Proof.
  unfold show_error, bind at 1. rewrite log_run. unfold bind at 1.
  destruct (returns_guarded_paint lcd cols "ERROR" (clamp_str (PStr msg) cols)
              "LCD show_error failed: {}" (lcd_truthy lcd)
              (after_log (py_format "ERROR: {}" [PStr msg]) w))
    as ([] & w1 & E1 & Q1).
  unfold bind in E1 |- *. rewrite E1. exists w1. split; [reflexivity | exact Q1].
Qed.

Lemma slept_inj (ms : Z) (ev : event) (a b : world) :
  advance ms (emit_at ev a) = advance ms (emit_at ev b) -> a = b.
Proof.
  destruct a, b; unfold advance, emit_at; simpl.
  intros H; injection H; intros; subst. f_equal.
Qed.

Lemma show_error_display (l : Lcd_i2c) (cols : Z) (msg : string) (secs : Z)
    (w : world) :
  lcd_healthy (n_lcd w) 5 ->
  show_error (Some l) cols msg secs w
  = (Val tt,
     advance (1000 * secs)
       (emit_at (EvSleep (1000 * secs))
          (painted cols "ERROR" (clamp_str (PStr msg) cols)
             (after_log (py_format "ERROR: {}" [PStr msg]) w)))).
Proof.
  intros H. unfold show_error, bind at 1. rewrite log_run.
  unfold bind at 1, try_except.
  change (lcd_truthy (Some l)) with true. cbv iota.
  rewrite paint_ok by exact H. reflexivity.
Qed.

Lemma show_error_no_display (cols : Z) (msg : string) (secs : Z) (w : world) :
  show_error None cols msg secs w
  = (Val tt,
     advance (1000 * secs)
       (emit_at (EvSleep (1000 * secs))
          (after_log (py_format "ERROR: {}" [PStr msg]) w))).
Proof. reflexivity. Qed.

(* ------------------------------------------------------------------ *)
(** * One weather poll *)

Lemma cached_notice_returns (lcd : option Lcd_i2c) (cols : Z) :
  returns anyhow (cached_notice lcd cols).
Proof.
  assert (Ht : forall a b c : world, anyhow a b -> anyhow b c -> anyhow a c)
    by (intros; exact I).
  assert (Hw : forall w w', quiet w w' -> anyhow w w') by (intros; exact I).
  apply (returns_try anyhow Ht).
  - apply (runs_bind anyhow Ht);
      [apply (runs_weaken quiet anyhow _ Hw), runs_lcd_clear|].
    intros _. apply (runs_bind anyhow Ht);
      [apply (runs_weaken quiet anyhow _ Hw), runs_lcd_write_lines|].
    intros _. apply returns_runs, returns_sleep_ms.
  - intros e. apply (returns_weaken quiet anyhow _ Hw), returns_log.
Qed.

Lemma cached_notice_ok (l : Lcd_i2c) (cols : Z) (w : world) :
  lcd_healthy (n_lcd w) 5 ->
  cached_notice (Some l) cols w
  = (Val tt,
     advance 2000 (emit_at (EvSleep 2000)
                     (painted cols "API warn" "using cached" w))).
Proof.
  intros H. unfold cached_notice, try_except.
  pose proof (paint_ok l cols "API warn" "using cached" w H) as P.
  unfold bind in P |- *.
  destruct (lcd_clear (Some l) w) as [[[]|e|] w1]; try discriminate.
  destruct (lcd_write_lines (Some l) cols "API warn" "using cached" w1)
    as [[[]|e|] w2]; try discriminate.
  injection P as ->. reflexivity.
Qed.

(** C5, as the code has it.  In a round whose fetch returns an error the
    cached sample stays as it was.  With a display whose driver accepts
    the calls, a cached sample brings the notice "API warn" / "using
    cached" exactly once, held for 2 s; no cached sample brings the ERROR
    screen with the error text once instead.  Without a display nothing
    is written: the error is logged and the round waits 2 s. *)
Theorem failed_fetch_keeps_cache (api_key : string) (lcd : option Lcd_i2c)
    (cols : Z) (g : geo) (st : loop_state) (w w2 : world) (werr : option string) :
  ticks_diff (clock w mod TICKS_PERIOD) (next_fetch st) >= 0 ->
  get_weather_openweathermap api_key (lat g) (lon g)
    (after_log "Weather fetch start" w) = (Val (None, werr), w2) ->
  exists st' w',
    poll_weather api_key lcd cols g st w = (Val st', w')
    /\ last_weather st' = last_weather st
    /\ (forall l, lcd = Some l -> lcd_healthy (n_lcd w) 5 ->
        clock w' = clock w + 2000
        /\ view is_lcd (new_events w w')
           = match last_weather st with
             | Some _ => screen_events cols "API warn" "using cached" (clock w)
             | None =>
                 screen_events cols "ERROR"
                   (clamp_str (PStr (opt_or werr "Weather fail")) cols) (clock w)
             end)
    /\ (lcd = None ->
        clock w' = clock w + 2000
        /\ view is_lcd (new_events w w') = []
        /\ In (clock w,
               EvLog (log_line (clock w mod TICKS_PERIOD)
                        (py_format "ERROR: {}" [PStr (opt_or werr "Weather fail")])))
             (new_events w w')).
Proof.
  intros Hdue Hfetch.
  destruct (get_weather_spec api_key (lat g) (lon g)
              (after_log "Weather fetch start" w))
    as (r & w2' & evs & Hrun & Hoff & Htr & Hv).
  rewrite Hfetch in Hrun. injection Hrun as <- <-.
  assert (Hlcd0 : view is_lcd evs = []).
  { rewrite (Hv is_lcd) by (repeat split). reflexivity. }
  destruct Hoff as (Hclk & _ & _ & Hnl & _). simpl in Hclk, Hnl, Htr.
  assert (Hgeb : (ticks_diff (clock w mod TICKS_PERIOD) (next_fetch st) >=? 0) = true)
    by (apply Z.geb_le; lia).
  unfold poll_weather, bind at 1, ticks_ms. rewrite Hgeb.
  unfold bind at 1. rewrite log_run.
  unfold bind at 1. rewrite Hfetch.
  replace (opt_truthy werr || negb (is_some (@None weather))) with true
    by (now rewrite orb_true_r).
  unfold bind at 1. unfold bind at 1. rewrite log_run.
  fold (fetch_failed_msg werr). fold (cached_notice lcd cols).
  set (w3 := after_log (fetch_failed_msg werr) w2).
  set (mid := ((clock w, EvLog (log_line (clock w mod TICKS_PERIOD)
                                  (fetch_failed_msg werr))) :: evs)
              ++ [(clock w, EvLog (log_line (clock w mod TICKS_PERIOD)
                                     "Weather fetch start"))]).
  assert (Hw3 : clock w3 = clock w /\ n_lcd w3 = n_lcd w
                /\ trace w3 = mid ++ trace w).
  { subst w3 mid; simpl. rewrite Htr, Hclk. rewrite <- app_assoc. auto. }
  assert (Hmid : view is_lcd (rev mid) = []).
  { subst mid. rewrite view_rev, view_app. unfold view at 1; simpl.
    fold (view is_lcd evs). now rewrite Hlcd0. }
  destruct Hw3 as (Hc3 & Hn3 & Ht3). clearbody w3 mid.
  destruct lcd as [l|].
  - change (lcd_truthy (Some l)) with true.
    destruct (last_weather st) as [cached|] eqn:Hc;
      [change (is_some (Some cached) && true) with true
      |change (is_some (@None weather) && true) with false]; cbv iota.
    + destruct (cached_notice_returns (Some l) cols w3) as ([] & w4 & E4 & _).
      unfold bind at 1. rewrite E4. unfold ret at 1. cbv iota beta.
      unfold bind at 1. rewrite log_run. unfold ret.
      do 2 eexists. split; [reflexivity|]. split; [reflexivity|].
      split; [|discriminate].
      intros l' _ Hh. rewrite cached_notice_ok in E4
        by (now rewrite Hn3). injection E4 as <-.
      split; [simpl; lia|].
      events_since w w3 Ht3. rewrite view_app, Hmid, Hc3. reflexivity.
    + destruct (show_error_spec (Some l) cols (opt_or werr "Weather fail") 2 w3)
        as (w4 & E4 & _).
      unfold bind at 1. rewrite E4. unfold ret at 1. cbv iota beta.
      unfold bind at 1. rewrite log_run. unfold ret.
      do 2 eexists. split; [reflexivity|]. split; [reflexivity|].
      split; [|discriminate].
      intros l' _ Hh. rewrite show_error_display in E4
        by (now rewrite Hn3).
      apply (f_equal snd) in E4. simpl snd in E4. apply slept_inj in E4.
      subst w4.
      split; [simpl; lia|].
      events_since w w3 Ht3. rewrite view_app, Hmid, Hc3. reflexivity.
  - change (lcd_truthy None) with false.
    rewrite andb_false_r. cbv iota.
    unfold bind at 1. rewrite show_error_no_display. unfold ret at 1.
    cbv iota beta. unfold bind at 1. rewrite log_run. unfold ret.
    do 2 eexists. split; [reflexivity|].
    split; [reflexivity|]. split; [discriminate|]. intros _.
    split; [simpl; lia|].
    events_since w w3 Ht3.
    split.
    + rewrite view_app, Hmid. reflexivity.
    + apply in_or_app. right. rewrite Hc3. simpl. auto.
Qed.

Lemma offline_refl (w : world) : offline w w.
Proof. repeat split; try lia. exists []. split; reflexivity. Qed.

Lemma offline_trans (a b c : world) : offline a b -> offline b c -> offline a c.
Proof.
  intros (?&?&?& e1 & T1 & F1) (?&?&?& e2 & T2 & F2).
  repeat split; try lia; try congruence.
  exists (e2 ++ e1). split.
  - rewrite T2, T1. apply app_assoc.
  - rewrite forallb_app. now rewrite F1, F2.
Qed.

Lemma quiet_offline (w w' : world) : quiet w w' -> offline w w'.
Proof.
  intros (Hc & _ & Hi & _ & _ & _ & Hg & evs & T & F).
  repeat split; try lia; try congruence. exists evs. split; [exact T|].
  clear T. induction evs as [|x evs IH]; [reflexivity|]. simpl in *.
  apply andb_prop in F as (Hx & F). rewrite (IH F), andb_true_r.
  destruct (snd x); simpl in *; try discriminate; reflexivity.
Qed.

Lemma view_offline (p : event -> bool) (evs : list (Z * event)) :
  http_only p ->
  forallb (fun te => negb (is_http (snd te))) evs = true ->
  view p evs = [].
Proof.
  intros Hp. induction evs as [|x evs IH]; simpl; [reflexivity|].
  intros H. apply andb_prop in H as (Hx & H).
  unfold view; simpl. apply negb_true_iff in Hx.
  rewrite (Hp _ Hx). now apply IH.
Qed.

Lemma returns_sleep_offline (ms : Z) : 0 <= ms -> returns offline (sleep_ms ms).
Proof.
  intros H w. do 2 eexists. split; [reflexivity|].
  repeat split; simpl; try lia. eexists [_]. split; reflexivity.
Qed.

Lemma returns_show_error (lcd : option Lcd_i2c) (cols : Z) (msg : string)
    (secs : Z) :
  0 <= secs -> returns offline (show_error lcd cols msg secs).
Proof.
  intros Hs. unfold show_error.
  apply (returns_bind offline offline_trans);
    [apply (returns_weaken quiet offline _ quiet_offline), returns_log|].
  intros _. apply (returns_bind offline offline_trans);
    [apply (returns_weaken quiet offline _ quiet_offline),
       (returns_guarded_paint lcd cols "ERROR" (clamp_str (PStr msg) cols)
          "LCD show_error failed: {}" (lcd_truthy lcd))|].
  intros _. apply returns_sleep_offline. lia.
Qed.

Lemma returns_cached_notice (lcd : option Lcd_i2c) (cols : Z) :
  returns offline (cached_notice lcd cols).
Proof.
  apply (returns_try offline offline_trans).
  - apply (runs_bind offline offline_trans);
      [apply (runs_weaken quiet offline _ quiet_offline), runs_lcd_clear|].
    intros _. apply (runs_bind offline offline_trans);
      [apply (runs_weaken quiet offline _ quiet_offline), runs_lcd_write_lines|].
    intros _. apply returns_runs, returns_sleep_offline. lia.
  - intros e. apply (returns_weaken quiet offline _ quiet_offline), returns_log.
Qed.

Lemma poll_not_due (api_key : string) (lcd : option Lcd_i2c) (cols : Z) (g : geo)
    (st : loop_state) (w : world) :
  ticks_diff (clock w mod TICKS_PERIOD) (next_fetch st) < 0 ->
  poll_weather api_key lcd cols g st w = (Val st, w).
Proof.
  intros H. unfold poll_weather, bind, ticks_ms.
  destruct (ticks_diff (clock w mod TICKS_PERIOD) (next_fetch st) >=? 0) eqn:G;
    [|reflexivity].
  apply Z.geb_le in G. lia.
Qed.

(** C2, as the code has it.  In a round whose deadline is due and whose
    fetch returns (a sample or an error), one request is sent and the
    deadline becomes the tick read at the start of the round, before the
    fetch, plus the interval of 10 minutes, whatever the fetch returned.
    It lies exactly one interval after that reading, and no round that
    starts less than an interval after it fetches again. *)
Theorem poll_advances_deadline (api_key : string) (lcd : option Lcd_i2c)
    (cols : Z) (g : geo) (st : loop_state) (w w2 : world)
    (res : option weather * option string) :
  ticks_diff (clock w mod TICKS_PERIOD) (next_fetch st) >= 0 ->
  get_weather_openweathermap api_key (lat g) (lon g)
    (after_log "Weather fetch start" w) = (Val res, w2) ->
  exists st' w',
    poll_weather api_key lcd cols g st w = (Val st', w')
    /\ next_fetch st' = ticks_add (clock w mod TICKS_PERIOD) interval_ms
    /\ ticks_diff (next_fetch st') (clock w mod TICKS_PERIOD) = interval_ms
    /\ interval_ms = 600000
    /\ view is_request (new_events w w')
       = [(clock w, EvGet (weather_url api_key (lat g) (lon g)) (Some 10))]
    /\ (forall lcd' cols' w_next,
          clock w <= clock w_next < clock w + interval_ms ->
          poll_weather api_key lcd' cols' g st' w_next = (Val st', w_next)).
Proof.
  intros Hdue Hfetch.
  destruct (get_weather_spec api_key (lat g) (lon g)
              (after_log "Weather fetch start" w))
    as (r & w2' & evs & Hrun & Hoff & Htr & Hv).
  rewrite Hfetch in Hrun. injection Hrun as <- <-.
  assert (Hreq : view is_request evs
                 = [(clock w, EvGet (weather_url api_key (lat g) (lon g)) (Some 10))]).
  { rewrite (Hv is_request) by (repeat split). reflexivity. }
  simpl in Htr.
  assert (Hgeb : (ticks_diff (clock w mod TICKS_PERIOD) (next_fetch st) >=? 0) = true)
    by (apply Z.geb_le; lia).
  assert (Hfin : forall (last : option weather) (w4 : world) (e4 : list (Z * event)),
             trace w4 = e4 ++ trace w2 ->
             view is_request e4 = [] ->
             exists st' w',
               (bind (log "Next fetch in 10min")
                  (fun _ => ret (mkLoop last
                                   (ticks_add (clock w mod TICKS_PERIOD) interval_ms)
                                   (heartbeat st))) w4) = (Val st', w')
               /\ next_fetch st' = ticks_add (clock w mod TICKS_PERIOD) interval_ms
               /\ ticks_diff (next_fetch st') (clock w mod TICKS_PERIOD) = interval_ms
               /\ interval_ms = 600000
               /\ view is_request (new_events w w')
                  = [(clock w, EvGet (weather_url api_key (lat g) (lon g)) (Some 10))]
               /\ (forall lcd' cols' w_next,
                     clock w <= clock w_next < clock w + interval_ms ->
                     poll_weather api_key lcd' cols' g st' w_next = (Val st', w_next))).
  { intros last w4 e4 T4 V4. unfold bind. rewrite log_run. unfold ret.
    do 2 eexists. split; [reflexivity|]. simpl next_fetch.
    split; [reflexivity|].
    split; [apply ticks_diff_add; pose proof interval_fits; lia|].
    split; [reflexivity|]. split.
    - rewrite (new_events_ext w _
                 ((clock w4, EvLog (log_line (clock w4 mod TICKS_PERIOD)
                                      "Next fetch in 10min")) :: e4 ++ evs
                  ++ [(clock w, EvLog (log_line (clock w mod TICKS_PERIOD)
                                         "Weather fetch start"))])).
      + rewrite view_rev. rewrite app_comm_cons, !view_app, Hreq.
        unfold view at 1; simpl. fold (view is_request e4). rewrite V4.
        reflexivity.
      + simpl. rewrite T4, Htr. now rewrite <- !app_assoc.
    - intros lcd' cols' w_next Hn. apply poll_not_due. simpl next_fetch.
      apply ticks_not_due; [pose proof interval_fits; lia | exact Hn]. }
  unfold poll_weather, bind at 1, ticks_ms. rewrite Hgeb.
  unfold bind at 1. rewrite log_run.
  unfold bind at 1. rewrite Hfetch. destruct res as [ow werr].
  unfold bind at 1.
  destruct (opt_truthy werr || negb (is_some ow)).
  - unfold bind at 1. rewrite log_run. fold (cached_notice lcd cols).
    assert (X : exists w4 e4,
               (if is_some (last_weather st) && lcd_truthy lcd
                then cached_notice lcd cols
                else show_error lcd cols (opt_or werr "Weather fail") 2)
                 (after_log (py_format "Weather fetch failed: {}" [opt_val werr]) w2)
               = (Val tt, w4)
               /\ trace w4 = e4 ++ trace w2 /\ view is_request e4 = []).
    { destruct (is_some (last_weather st) && lcd_truthy lcd).
      - destruct (returns_cached_notice lcd cols
                    (after_log (py_format "Weather fetch failed: {}" [opt_val werr]) w2))
          as ([] & w4 & E4 & (_ & _ & _ & e4 & T4 & F4)).
        exists w4. eexists (e4 ++ [_]). split; [exact E4|].
        split; [rewrite T4; simpl; now rewrite <- app_assoc|].
        rewrite view_app. rewrite (view_offline is_request e4);
          [reflexivity | intros []; simpl; try discriminate; reflexivity | exact F4].
      - destruct (returns_show_error lcd cols (opt_or werr "Weather fail") 2
                    ltac:(lia)
                    (after_log (py_format "Weather fetch failed: {}" [opt_val werr]) w2))
          as ([] & w4 & E4 & (_ & _ & _ & e4 & T4 & F4)).
        exists w4. eexists (e4 ++ [_]). split; [exact E4|].
        split; [rewrite T4; simpl; now rewrite <- app_assoc|].
        rewrite view_app. rewrite (view_offline is_request e4);
          [reflexivity | intros []; simpl; try discriminate; reflexivity | exact F4]. }
    destruct X as (w4 & e4 & E4 & T4 & V4).
    unfold bind at 1. rewrite E4. unfold ret at 1. cbv iota beta.
    apply (Hfin _ w4 e4 T4 V4).
  - unfold ret at 1. cbv iota beta.
    apply (Hfin _ w2 [] eq_refl eq_refl).
Qed.

(* ------------------------------------------------------------------ *)
(** * The wait loop of [wifi_connect] *)

Lemma view_idle (p : event -> bool) (evs : list (Z * event)) :
  idle_blind p ->
  forallb (fun te => idle (snd te)) evs = true ->
  view p evs = [].
Proof.
  intros Hp. induction evs as [|x evs IH]; simpl; [reflexivity|].
  intros H. apply andb_prop in H as (Hx & H).
  unfold view; simpl. rewrite (Hp _ Hx). now apply IH.
Qed.

Lemma display_only_idle (evs : list (Z * event)) :
  forallb (fun te => display_only (snd te)) evs = true ->
  forallb (fun te => idle (snd te)) evs = true.
Proof.
  induction evs as [|x evs IH]; simpl; [reflexivity|].
  intros H. apply andb_prop in H as (Hx & H).
  unfold idle at 1. rewrite Hx. simpl. now apply IH.
Qed.

Lemma returns_connecting_screen (lcd : option Lcd_i2c) (cols : Z) :
  returns quiet (connecting_screen lcd cols).
Proof.
  unfold connecting_screen. destruct (lcd_truthy lcd).
  - apply (returns_try quiet quiet_trans); [apply runs_lcd_write_lines|].
    intros e. apply returns_log.
  - apply returns_ret, quiet_refl.
Qed.

(** One turn of the loop. *)
Lemma wifi_wait_turn (fuel : nat) (lcd : option Lcd_i2c) (cols start mw : Z)
    (w : world) :
  exists w1,
    quiet (bump_isconnected w) w1
    /\ wifi_wait (S fuel) lcd cols start mw w
       = if isconnected_at E (n_isconnected w) then (Val true, bump_isconnected w)
         else if ticks_diff (clock w1 mod TICKS_PERIOD) start >? mw * 1000
              then (Val false, after_log "WiFi connect TIMEOUT" w1)
              else wifi_wait fuel lcd cols start mw
                     (advance 300 (emit_at (EvSleep 300) w1)).
Proof.
  destruct (returns_connecting_screen lcd cols (bump_isconnected w))
    as ([] & w1 & E1 & Q1).
  exists w1. split; [exact Q1|].
  simpl wifi_wait. unfold bind at 1, wlan_isconnected.
  destruct (isconnected_at E (n_isconnected w)); [reflexivity|].
  fold (connecting_screen lcd cols).
  unfold bind at 1. rewrite E1. unfold bind at 1, ticks_ms.
  destruct (ticks_diff (clock w1 mod TICKS_PERIOD) start >? mw * 1000).
  - unfold bind. rewrite log_run. reflexivity.
  - unfold bind at 1, sleep_ms. reflexivity.
Qed.

Lemma polls_down_tail (n k : nat) :
  polls_down n (S k) -> polls_down (S n) k.
Proof.
  intros H i Hi. replace (i + S n)%nat with (S i + n)%nat by lia.
  apply H. lia.
Qed.

(** With the interface down the loop gives up at the first poll after
    the limit: [r] sleeps of 300 ms from a start [e] ms ago. *)
Lemma wifi_wait_timeout (r : nat) :
  forall (fuel : nat) (w : world) (c0 mw : Z) (lcd : option Lcd_i2c) (cols : Z),
    let e := clock w - c0 in
    let limit := mw * 1000 in
    0 <= e <= limit + 300 ->
    limit + 300 < TICKS_PERIOD / 2 ->
    limit < e + 300 * Z.of_nat r ->
    ((0 < r)%nat -> e + 300 * (Z.of_nat r - 1) <= limit) ->
    (r < fuel)%nat ->
    polls_down (n_isconnected w) (S r) ->
    exists w',
      wifi_wait fuel lcd cols (c0 mod TICKS_PERIOD) mw w = (Val false, w')
      /\ waited w w' (300 * Z.of_nat r) (S r).
Proof.
  induction r as [|r IH]; intros fuel w c0 mw lcd cols e limit He Hlim Hr Hr' Hf Hd.
  - destruct fuel as [|fuel]; [lia|].
    destruct (wifi_wait_turn fuel lcd cols (c0 mod TICKS_PERIOD) mw w)
      as (w1 & Q1 & ->).
    pose proof (Hd 0%nat ltac:(lia)) as H0. simpl in H0. rewrite H0. clear H0.
    destruct Q1 as (Hc & Hra & Hi & Hdi & Hif & Hga & Hg & evs & T & F).
    simpl in Hc, Hra, Hi, Hdi, Hif, Hga, Hg, T.
    replace (clock w1) with (c0 + e) by (subst e; lia).
    rewrite ticks_diff_clock by (change (TICKS_PERIOD / 2) with 536870912 in *; lia).
    fold limit. destruct (e >? limit) eqn:G; [|subst limit; lia].
    eexists. split; [reflexivity|].
    repeat split; simpl; try lia; try congruence.
    eexists (_ :: evs). split; [simpl; now rewrite T|].
    simpl. now apply display_only_idle.
  - destruct fuel as [|fuel]; [lia|].
    destruct (wifi_wait_turn fuel lcd cols (c0 mod TICKS_PERIOD) mw w)
      as (w1 & Q1 & ->).
    pose proof (Hd 0%nat ltac:(lia)) as H0. simpl in H0. rewrite H0. clear H0.
    destruct Q1 as (Hc & Hra & Hi & Hdi & Hif & Hga & Hg & evs & T & F).
    simpl in Hc, Hra, Hi, Hdi, Hif, Hga, Hg, T.
    replace (clock w1) with (c0 + e) by (subst e; lia).
    rewrite ticks_diff_clock by (change (TICKS_PERIOD / 2) with 536870912 in *; lia).
    fold limit. destruct (e >? limit) eqn:G; [subst limit; lia|].
    set (ws := advance 300 (emit_at (EvSleep 300) w1)).
    assert (Hcs : clock ws = clock w + 300) by (rewrite <- Hc; reflexivity).
    assert (His : n_isconnected ws = S (n_isconnected w)) by exact Hi.
    assert (Hts : trace ws = ((clock w1, EvSleep 300) :: evs) ++ trace w)
      by (simpl; now rewrite T).
    assert (Hfs : radio ws = radio w /\ n_disconnect ws = n_disconnect w
                  /\ n_ifconfig ws = n_ifconfig w
                  /\ n_getaddrinfo ws = n_getaddrinfo w /\ n_get ws = n_get w)
      by (repeat split; assumption).
    clearbody ws.
    destruct (IH fuel ws c0 mw lcd cols) as (w' & E' & W');
      cbv zeta; try rewrite Hcs; try lia.
    { rewrite His. apply polls_down_tail. exact Hd. }
    exists w'. split; [exact E'|].
    destruct W' as (Hc' & Hra' & Hi' & Hdi' & Hif' & Hga' & Hg' & evs' & T' & F').
    destruct Hfs as (? & ? & ? & ? & ?).
    repeat split; try lia; try congruence.
    exists (evs' ++ (clock w1, EvSleep 300) :: evs). split.
    + rewrite T', Hts. now rewrite <- app_assoc.
    + rewrite forallb_app, F'. simpl. now apply display_only_idle.
Qed.

(** Whatever the interface answers, the loop comes back within the
    limit plus one poll, given fuel for that many polls. *)
Lemma wifi_wait_returns (fuel : nat) :
  forall (w : world) (c0 mw : Z) (lcd : option Lcd_i2c) (cols : Z),
    let e := clock w - c0 in
    let limit := mw * 1000 in
    0 <= e <= limit + 300 ->
    limit + 300 < TICKS_PERIOD / 2 ->
    limit + 300 < e + 300 * Z.of_nat fuel ->
    exists b w' ms polls,
      wifi_wait fuel lcd cols (c0 mod TICKS_PERIOD) mw w = (Val b, w')
      /\ waited w w' ms (S polls) /\ 0 <= ms.
Proof.
  induction fuel as [|fuel IH]; intros w c0 mw lcd cols e limit He Hlim Hf; [lia|].
  destruct (wifi_wait_turn fuel lcd cols (c0 mod TICKS_PERIOD) mw w)
    as (w1 & Q1 & ->).
  destruct Q1 as (Hc & Hra & Hi & Hdi & Hif & Hga & Hg & evs & T & F).
  simpl in Hc, Hra, Hi, Hdi, Hif, Hga, Hg, T.
  destruct (isconnected_at E (n_isconnected w)).
  - exists true. eexists. exists 0, 0%nat. split; [reflexivity|].
    split; [|lia]. repeat split; simpl; try lia. exists []. split; reflexivity.
  - replace (clock w1) with (c0 + e) by (subst e; lia).
    rewrite ticks_diff_clock by (change (TICKS_PERIOD / 2) with 536870912 in *; lia).
    fold limit. destruct (e >? limit) eqn:G.
    + exists false. eexists. exists 0, 0%nat. split; [reflexivity|].
      split; [|lia]. repeat split; simpl; try lia; try congruence.
      eexists (_ :: evs). split; [simpl; now rewrite T|].
      simpl. now apply display_only_idle.
    + set (ws := advance 300 (emit_at (EvSleep 300) w1)).
      assert (Hcs : clock ws = clock w + 300) by (rewrite <- Hc; reflexivity).
      assert (His : n_isconnected ws = S (n_isconnected w)) by exact Hi.
      assert (Hts : trace ws = ((clock w1, EvSleep 300) :: evs) ++ trace w)
        by (simpl; now rewrite T).
      assert (Hfs : radio ws = radio w /\ n_disconnect ws = n_disconnect w
                    /\ n_ifconfig ws = n_ifconfig w
                    /\ n_getaddrinfo ws = n_getaddrinfo w /\ n_get ws = n_get w)
        by (repeat split; assumption).
      clearbody ws.
      destruct (IH ws c0 mw lcd cols) as (b & w' & ms & polls & E' & W' & Hms);
        cbv zeta; try rewrite Hcs; try lia.
      exists b, w', (ms + 300), (S polls). split; [exact E'|]. split; [|lia].
      destruct W' as (Hc' & Hra' & Hi' & Hdi' & Hif' & Hga' & Hg' & evs' & T' & F').
      destruct Hfs as (? & ? & ? & ? & ?).
      repeat split; try lia; try congruence.
      exists (evs' ++ (clock w1, EvSleep 300) :: evs). split.
      * rewrite T', Hts. now rewrite <- app_assoc.
      * rewrite forallb_app, F'. simpl. now apply display_only_idle.
Qed.

(** The interface comes up at poll [k], before the limit. *)
Lemma wifi_wait_up (k : nat) :
  forall (fuel : nat) (w : world) (c0 mw : Z) (lcd : option Lcd_i2c) (cols : Z),
    let e := clock w - c0 in
    let limit := mw * 1000 in
    0 <= e ->
    limit + 300 < TICKS_PERIOD / 2 ->
    ((0 < k)%nat -> e + 300 * (Z.of_nat k - 1) <= limit) ->
    (k < fuel)%nat ->
    polls_down (n_isconnected w) k ->
    isconnected_at E (k + n_isconnected w) = true ->
    exists w',
      wifi_wait fuel lcd cols (c0 mod TICKS_PERIOD) mw w = (Val true, w')
      /\ waited w w' (300 * Z.of_nat k) (S k).
Proof.
  induction k as [|k IH]; intros fuel w c0 mw lcd cols e limit He Hlim Hk Hf Hd Hup.
  - destruct fuel as [|fuel]; [lia|].
    destruct (wifi_wait_turn fuel lcd cols (c0 mod TICKS_PERIOD) mw w)
      as (w1 & Q1 & ->).
    simpl in Hup. rewrite Hup. eexists. split; [reflexivity|].
    repeat split; simpl; try lia. exists []. split; reflexivity.
  - destruct fuel as [|fuel]; [lia|].
    destruct (wifi_wait_turn fuel lcd cols (c0 mod TICKS_PERIOD) mw w)
      as (w1 & Q1 & ->).
    pose proof (Hd 0%nat ltac:(lia)) as H0. simpl in H0. rewrite H0. clear H0.
    destruct Q1 as (Hc & Hra & Hi & Hdi & Hif & Hga & Hg & evs & T & F).
    simpl in Hc, Hra, Hi, Hdi, Hif, Hga, Hg, T.
    replace (clock w1) with (c0 + e) by (subst e; lia).
    rewrite ticks_diff_clock by (change (TICKS_PERIOD / 2) with 536870912 in *; lia).
    fold limit. destruct (e >? limit) eqn:G; [subst limit; lia|].
    set (ws := advance 300 (emit_at (EvSleep 300) w1)).
    assert (Hcs : clock ws = clock w + 300) by (rewrite <- Hc; reflexivity).
    assert (His : n_isconnected ws = S (n_isconnected w)) by exact Hi.
    assert (Hts : trace ws = ((clock w1, EvSleep 300) :: evs) ++ trace w)
      by (simpl; now rewrite T).
    assert (Hfs : radio ws = radio w /\ n_disconnect ws = n_disconnect w
                  /\ n_ifconfig ws = n_ifconfig w
                  /\ n_getaddrinfo ws = n_getaddrinfo w /\ n_get ws = n_get w)
      by (repeat split; assumption).
    clearbody ws.
    destruct (IH fuel ws c0 mw lcd cols) as (w' & E' & W');
      cbv zeta; try rewrite Hcs; try lia.
    { rewrite His. intros i Hi'. replace (i + S (n_isconnected w))%nat
        with (S i + n_isconnected w)%nat by lia. apply Hd. lia. }
    { rewrite His. replace (k + S (n_isconnected w))%nat
        with (S k + n_isconnected w)%nat by lia. exact Hup. }
    exists w'. split; [exact E'|].
    destruct W' as (Hc' & Hra' & Hi' & Hdi' & Hif' & Hga' & Hg' & evs' & T' & F').
    destruct Hfs as (? & ? & ? & ? & ?).
    repeat split; try lia; try congruence.
    exists (evs' ++ (clock w1, EvSleep 300) :: evs). split.
    + rewrite T', Hts. now rewrite <- app_assoc.
    + rewrite forallb_app, F'. simpl. now apply display_only_idle.
Qed.

(* ------------------------------------------------------------------ *)
(** * [wifi_connect] *)

Lemma wifi_connect_run (fuel : nat) (ssid password : string)
    (lcd : option Lcd_i2c) (cols mw : Z) (w : world) :
  wifi_connect fuel ssid password lcd cols mw w
  = if isconnected_at E (n_isconnected w) then (Val true, bump_isconnected (radio_on w))
    else match wifi_wait fuel lcd cols (clock w mod TICKS_PERIOD) mw
                 (connect_issued ssid password w) with
         | (Val true, w1) => announce_connection w1
         | (Val false, w1) => (Val false, w1)
         | (Raise e, w1) => (Raise e, w1)
         | (OutOfFuel, w1) => (OutOfFuel, w1)
         end.
Proof.
  unfold wifi_connect, bind at 1, wlan_active, connect_issued, radio_on.
  destruct (radio w) eqn:Hr; simpl negb; cbv iota.
  - unfold bind at 1, ret at 1. unfold bind at 1, wlan_isconnected.
    destruct (isconnected_at E (n_isconnected w)); [reflexivity|].
    unfold bind at 1. rewrite log_run. unfold bind at 1, wlan_connect, emit.
    unfold bind at 1, ticks_ms. unfold bind at 1.
    change (clock (emit_at _ (after_log _ (bump_isconnected w)))) with (clock w).
    destruct (wifi_wait fuel lcd cols (clock w mod TICKS_PERIOD) mw _)
      as [[[|]|e|] w1]; reflexivity.
  - unfold bind at 1, wlan_set_active. unfold bind at 1, wlan_isconnected.
    change (n_isconnected (set_radio true (emit_at (EvWlanActive true) w)))
      with (n_isconnected w).
    destruct (isconnected_at E (n_isconnected w)); [reflexivity|].
    unfold bind at 1. rewrite log_run. unfold bind at 1, wlan_connect, emit.
    unfold bind at 1, ticks_ms. unfold bind at 1.
    change (clock (emit_at _ (after_log _ (bump_isconnected
              (set_radio true (emit_at (EvWlanActive true) w))))))
      with (clock w).
    destruct (wifi_wait fuel lcd cols (clock w mod TICKS_PERIOD) mw _)
      as [[[|]|e|] w1]; reflexivity.
Qed.

Lemma wlan_run_trans (a b c : world) (d1 d2 : Z) (p1 p2 : nat)
    (c1 c2 : list (Z * event)) :
  wlan_run a b d1 p1 c1 -> wlan_run b c d2 p2 c2 ->
  wlan_run a c (d1 + d2) (p1 + p2) (c1 ++ c2).
Proof.
  intros (Hc1 & Hn1 & e1 & T1 & V1) (Hc2 & Hn2 & e2 & T2 & V2).
  repeat split; try lia. exists (e2 ++ e1). split.
  - rewrite T2, T1. apply app_assoc.
  - rewrite rev_app_distr, view_app. now rewrite V1, V2.
Qed.

Lemma wlan_run_log (msg : string) (w : world) :
  wlan_run w (after_log msg w) 0 0 [].
Proof.
  repeat split; simpl; try lia. eexists [_]. split; reflexivity.
Qed.

Lemma wlan_run_sleep (ms : Z) (w : world) :
  wlan_run w (advance ms (emit_at (EvSleep ms) w)) ms 0 [].
Proof.
  repeat split; simpl; try lia. eexists [_]. split; reflexivity.
Qed.

Lemma wlan_run_waited (w w' : world) (ms : Z) (polls : nat) :
  waited w w' ms polls -> wlan_run w w' ms polls [].
Proof.
  intros (Hc & _ & Hi & _ & _ & _ & _ & evs & T & F).
  repeat split; try assumption. exists evs. split; [exact T|].
  rewrite view_rev, (view_idle is_wlan_cmd evs); [reflexivity| |exact F].
  intros [] H; simpl in *; try discriminate; reflexivity.
Qed.

Lemma connect_issued_run (ssid password : string) (w : world) :
  wlan_run w (connect_issued ssid password w) 0 1 (opening ssid password w)
  /\ radio (connect_issued ssid password w) = true
  /\ n_disconnect (connect_issued ssid password w) = n_disconnect w.
Proof.
  unfold connect_issued, radio_on, opening.
  destruct (radio w) eqn:Hr; simpl.
  - repeat split; simpl; try lia; try assumption.
    eexists [_; _]. split; reflexivity.
  - repeat split; simpl; try lia.
    eexists [_; _; _]. split; reflexivity.
Qed.

(** A call of [wifi_connect] that finds the interface down throughout:
    it opens the attempt, polls until the first poll after the limit
    ([r] sleeps of 300 ms), and returns [False]. *)
Lemma wifi_connect_timeout (r fuel : nat) (ssid password : string)
    (lcd : option Lcd_i2c) (cols mw : Z) (w : world) :
  0 <= mw * 1000 ->
  mw * 1000 + 300 < TICKS_PERIOD / 2 ->
  mw * 1000 < 300 * Z.of_nat r ->
  300 * (Z.of_nat r - 1) <= mw * 1000 ->
  (r < fuel)%nat ->
  polls_down (n_isconnected w) (r + 2) ->
  exists w',
    wifi_connect fuel ssid password lcd cols mw w = (Val false, w')
    /\ wlan_run w w' (300 * Z.of_nat r) (r + 2) (opening ssid password w)
    /\ radio w' = true
    /\ n_disconnect w' = n_disconnect w.
Proof.
  intros H0 Hlim Hr Hr' Hf Hd.
  rewrite wifi_connect_run.
  pose proof (Hd 0%nat ltac:(lia)) as Hp. simpl in Hp. rewrite Hp. clear Hp.
  destruct (connect_issued_run ssid password w) as (Hrun & Hrad & Hdis).
  set (w0 := connect_issued ssid password w) in *.
  assert (Hc0 : clock w0 = clock w) by (destruct Hrun as (-> & _); lia).
  assert (Hn0 : n_isconnected w0 = S (n_isconnected w))
    by (destruct Hrun as (_ & -> & _); lia).
  clearbody w0.
  destruct (wifi_wait_timeout r fuel w0 (clock w) mw lcd cols)
    as (w' & E' & W'); cbv zeta; try rewrite Hc0; try lia.
  { rewrite Hn0. intros i Hi. replace (i + S (n_isconnected w))%nat
      with (S i + n_isconnected w)%nat by lia. apply Hd. lia. }
  rewrite E'. exists w'. split; [reflexivity|].
  pose proof (wlan_run_trans _ _ _ _ _ _ _ _ _ Hrun (wlan_run_waited _ _ _ _ W'))
    as X.
  rewrite app_nil_r in X.
  replace (0 + 300 * Z.of_nat r) with (300 * Z.of_nat r) in X by lia.
  replace (1 + S r)%nat with (r + 2)%nat in X by lia.
  split; [exact X|].
  destruct W' as (_ & Hra & _ & Hdi & _).
  split; congruence.
Qed.

(* ------------------------------------------------------------------ *)
(** * [wifi_ensure_connected] *)

Lemma polls_down_shift (n k m j : nat) :
  polls_down n k -> (m + j <= k)%nat -> polls_down (m + n) j.
Proof.
  intros H Hk i Hi. replace (i + (m + n))%nat with ((i + m) + n)%nat by lia.
  apply H. lia.
Qed.

Lemma reconnect_attempt_fails (fuel : nat) (ssid password : string)
    (lcd : option Lcd_i2c) (cols attempt : Z) (w : world) :
  (67 < fuel)%nat ->
  polls_down (n_isconnected w) 69 ->
  exists w',
    reconnect_attempt fuel ssid password lcd cols attempt w = (Val None, w')
    /\ wlan_run w w' 20600 69 (opening ssid password w)
    /\ radio w' = true
    /\ n_disconnect w' = n_disconnect w.
Proof.
  intros Hf Hd. unfold reconnect_attempt, bind at 1. rewrite log_run.
  set (w0 := after_log (py_format "WiFi reconnect attempt {}" [PInt attempt]) w).
  destruct (wifi_connect_timeout 67 fuel ssid password lcd cols 20 w0)
    as (w1 & E1 & R1 & Hra & Hdi);
    try (change (TICKS_PERIOD / 2) with 536870912); try lia; [exact Hd|].
  unfold bind at 1. rewrite E1. cbv iota. unfold bind, sleep_ms, ret.
  eexists. split; [reflexivity|].
  pose proof (wlan_run_trans _ _ _ _ _ _ _ _ _
                (wlan_run_trans _ _ _ _ _ _ _ _ _ (wlan_run_log _ w) R1)
                (wlan_run_sleep 500 w1)) as X.
  rewrite app_nil_r in X. simpl app in X.
  split; [exact X|]. split; [exact Hra | exact Hdi].
Qed.

(** C1. A call that finds the interface down and stays without a
    connection makes three connect attempts, each given up at the first
    poll after 20 s and followed by a pause of 500 ms, then one hard
    reset (disconnect, radio off, radio on, 200 ms apart) with one more
    attempt given up at the first poll after 25 s, and returns [False],
    87.6 s after it was called.  A call that finds the interface
    connected returns [True] at once and sends nothing. *)
Theorem wifi_ensure_connected_bounded (fuel : nat) (ssid password : string)
    (lcd : option Lcd_i2c) (cols : Z) (w : world) :
  ((85 <= fuel)%nat ->
   polls_down (n_isconnected w) 294 ->
   exists w',
     wifi_ensure_connected fuel ssid password lcd cols w = (Val false, w')
     /\ clock w' = clock w + 87600
     /\ n_isconnected w' = (294 + n_isconnected w)%nat
     /\ view is_wlan_cmd (new_events w w')
        = (if radio w then [] else [(clock w, EvWlanActive true)])
          ++ give_up_timeline ssid password (clock w))
  /\ (isconnected_at E (n_isconnected w) = true ->
      wifi_ensure_connected fuel ssid password lcd cols w
      = (Val true, bump_isconnected w)
      /\ new_events w (bump_isconnected w) = []).
Proof.
  split.
  - intros Hf Hd.
    unfold wifi_ensure_connected, bind at 1, wlan_isconnected.
    pose proof (Hd 0%nat ltac:(lia)) as Hp. simpl in Hp. rewrite Hp. clear Hp.
    fold (reconnect_attempt fuel ssid password lcd cols).
    set (w0 := bump_isconnected w).
    assert (R0 : wlan_run w w0 0 1 []).
    { repeat split; simpl; try lia. exists []. split; reflexivity. }
    assert (Hrad0 : radio w0 = radio w) by reflexivity.
    assert (Hdis0 : n_disconnect w0 = n_disconnect w) by reflexivity.
    clearbody w0.
    destruct (reconnect_attempt_fails fuel ssid password lcd cols 1 w0)
      as (w1 & E1 & R1 & Hra1 & Hdi1); [lia| |].
    { destruct R0 as (_ & -> & _). apply (polls_down_shift _ 294); [exact Hd | lia]. }
    destruct (reconnect_attempt_fails fuel ssid password lcd cols 2 w1)
      as (w2 & E2 & R2 & Hra2 & Hdi2); [lia| |].
    { destruct R0 as (_ & H0 & _), R1 as (_ & -> & _). rewrite H0.
      replace (69 + (1 + n_isconnected w))%nat with (70 + n_isconnected w)%nat by lia.
      apply (polls_down_shift _ 294); [exact Hd | lia]. }
    destruct (reconnect_attempt_fails fuel ssid password lcd cols 3 w2)
      as (w3 & E3 & R3 & Hra3 & Hdi3); [lia| |].
    { destruct R0 as (_ & H0 & _), R1 as (_ & H1 & _), R2 as (_ & -> & _).
      rewrite H1, H0.
      replace (69 + (69 + (1 + n_isconnected w)))%nat
        with (139 + n_isconnected w)%nat by lia.
      apply (polls_down_shift _ 294); [exact Hd | lia]. }
    unfold bind at 1. simpl for_in.
    unfold bind at 1. rewrite E1. cbv iota.
    unfold bind at 1. rewrite E2. cbv iota.
    unfold bind at 1. rewrite E3. cbv iota.
    unfold ret at 1. cbv iota beta.
    unfold bind at 1. rewrite log_run.
    unfold bind at 1.
    set (w4 := after_log "WiFi hard reset interface" w3).
    assert (Ex : exists w5, try_except wlan_disconnect (fun _ => ret tt) w4
                            = (Val tt, w5)
                            /\ w5 = bump_disconnect (emit_at EvWlanDisconnect w4)).
    { unfold try_except, wlan_disconnect.
      destruct (disconnect_at E (n_disconnect w4)); eexists; split; reflexivity. }
    destruct Ex as (w5 & -> & Hw5).
    unfold bind at 1, sleep_ms. unfold bind at 1, wlan_set_active.
    unfold bind at 1. unfold bind at 1. unfold bind at 1.
    set (w6 := advance 200 (emit_at (EvSleep 200)
                 (set_radio true (emit_at (EvWlanActive true)
                    (advance 200 (emit_at (EvSleep 200)
                       (set_radio false (emit_at (EvWlanActive false)
                          (advance 200 (emit_at (EvSleep 200) w5)))))))))).
    assert (R6 : wlan_run w3 w6 600 0
                   [(clock w3, EvWlanDisconnect);
                    (clock w3 + 200, EvWlanActive false);
                    (clock w3 + 200 + 200, EvWlanActive true)]).
    { subst w6 w5 w4. repeat split; simpl; try lia.
      eexists [_; _; _; _; _; _; _]. split; [reflexivity|].
      simpl. reflexivity. }
    assert (Hra6 : radio w6 = true) by reflexivity.
    clearbody w6. clear Hw5.
    pose proof (wlan_run_trans _ _ _ _ _ _ _ _ _
                  (wlan_run_trans _ _ _ _ _ _ _ _ _
                     (wlan_run_trans _ _ _ _ _ _ _ _ _
                        (wlan_run_trans _ _ _ _ _ _ _ _ _ R0 R1) R2) R3) R6) as R.
    destruct (wifi_connect_timeout 84 fuel ssid password lcd cols 25 w6)
      as (w7 & E7 & R7 & Hra7 & Hdi7);
      try (change (TICKS_PERIOD / 2) with 536870912); try lia.
    { destruct R as (_ & -> & _).
      apply (polls_down_shift _ 294); [exact Hd | lia]. }
    rewrite E7. exists w7. split; [reflexivity|].
    pose proof (wlan_run_trans _ _ _ _ _ _ _ _ _ R R7) as (Hc & Hn & evs & T & V).
    split; [lia|]. split; [lia|].
    rewrite (new_events_ext w w7 evs T), V.
    unfold opening. rewrite Hra1, Hra2, Hra6, Hrad0.
    destruct R0 as (C0 & _), R1 as (C1 & _), R2 as (C2 & _), R3 as (C3 & _),
      R6 as (C6 & _).
    unfold give_up_timeline. simpl app.
    rewrite C6, C3, C2, C1, C0.
    destruct (radio w); simpl;
      repeat (f_equal; try (f_equal; lia)).
  - intros Hup.
    unfold wifi_ensure_connected, bind, wlan_isconnected. rewrite Hup.
    split; [reflexivity|].
    unfold new_events. simpl. now rewrite Nat.sub_diag.
Qed.

(* ------------------------------------------------------------------ *)
(** * A fresh connection *)

(** [dns_test] returns whatever the resolver does. *)
Lemma dns_test_run (host : string) (port : Z) (w : world) :
  dns_test host port w
  = (Val (match getaddrinfo_at E (n_getaddrinfo w) with
          | inr _ => true
          | inl _ => false
          end), probed host port w).
Proof.
  unfold dns_test, try_except, bind at 1, getaddrinfo_ip, probed, probe_msg.
  destruct (getaddrinfo_at E (n_getaddrinfo w)); reflexivity.
Qed.

Lemma log_netinfo_run (w : world) :
  log_netinfo w
  = (Val tt, after_log (netinfo_msg (ifconfig_at E (n_ifconfig w))) (bump_ifconfig w)).
Proof. reflexivity. Qed.

Lemma announce_connection_run (w : world) :
  announce_connection w = (Val true, announced w).
Proof.
  unfold announce_connection, bind at 1, wlan_ifconfig.
  unfold bind at 1. rewrite log_run.
  unfold bind at 1. rewrite log_netinfo_run.
  unfold bind at 1, sleep, sleep_ms.
  unfold bind at 1. rewrite dns_test_run.
  unfold bind at 1. rewrite dns_test_run.
  reflexivity.
Qed.


(* ------------------------------------------------------------------ *)
(** * The location lookup of main *)

Lemma obind_no_fuel {A B : Type} (o : outcome A) (k : A -> outcome B) :
  o <> OutOfFuel -> (forall a, k a <> OutOfFuel) -> obind o k <> OutOfFuel.
Proof.
  intros Ho Hk. destruct o as [a|e|]; simpl;
    [apply Hk | discriminate | now contradiction Ho].
Qed.

Lemma py_get_no_fuel (x : pyval) (key : string) (default : pyval) :
  py_get x key default <> OutOfFuel.
Proof. destruct x; discriminate. Qed.

Lemma py_float_no_fuel (x : pyval) : py_float x <> OutOfFuel.
Proof.
  destruct x; simpl; try discriminate.
  destruct (float_of_string s); discriminate.
Qed.

Lemma geo_of_data_no_fuel (d : pyval) : geo_of_data d <> OutOfFuel.
Proof.
  unfold geo_of_data.
  repeat (apply obind_no_fuel; [try apply py_get_no_fuel | intros ?]).
  - destruct (truthy a2); [discriminate | apply py_get_no_fuel].
  - destruct (negb (is_number a) || negb (is_number a0)); [discriminate|].
    repeat (apply obind_no_fuel; [apply py_float_no_fuel | intros ?]).
    discriminate.
Qed.

(** One call of [get_geo_by_ip] sends the primary request and at most
    the fallback request, both at the clock it is called at. *)
Lemma get_geo_by_ip_spec (w : world) :
  exists r w' evs,
    get_geo_by_ip w = (r, w')
    /\ r <> OutOfFuel
    /\ off_net w w'
    /\ trace w' = evs ++ trace w
    /\ ((forall p, http_quiet p ->
           view p evs = view p [(clock w, EvGet PRIMARY_URL (Some 10))])
        \/ (forall p, http_quiet p ->
              view p evs = view p [(clock w, EvGet FALLBACK_URL (Some 10));
                                   (clock w, EvGet PRIMARY_URL (Some 10))])).
Proof.
  destruct (geo_select_spec w)
    as (data & err & w1 & e1 & H1 & Hoff1 & Ht1 & Hv1 & He1 & Hok & Hfail).
  assert (Htail : forall sel w2 e2,
             geo_select w = (Val sel, w2) -> off_net w w2 ->
             trace w2 = e2 ++ trace w ->
             exists r w' l,
               get_geo_by_ip w = (r, w') /\ r <> OutOfFuel /\ off_net w w'
               /\ trace w' = (l ++ e2) ++ trace w
               /\ forall p, http_quiet p -> view p l = []).
  { intros sel w2 e2 Hs Ho Ht. unfold get_geo_by_ip, bind. rewrite Hs.
    destruct sel as [d|e].
    - unfold lift. destruct (geo_of_data d) as [[g|e]|e|] eqn:G.
      + rewrite log_run. do 2 eexists. eexists [_].
        split; [reflexivity|]. split; [discriminate|]. split; [exact Ho|].
        split; [simpl; now rewrite Ht|].
        intros p (Hl & _). unfold view; simpl. now rewrite Hl.
      + do 2 eexists. exists []. split; [reflexivity|].
        split; [discriminate|]. split; [exact Ho|]. split; [exact Ht|]. reflexivity.
      + do 2 eexists. exists []. split; [reflexivity|].
        split; [discriminate|]. split; [exact Ho|]. split; [exact Ht|]. reflexivity.
      + exfalso. exact (geo_of_data_no_fuel d G).
    - do 2 eexists. exists []. split; [reflexivity|].
      split; [discriminate|]. split; [exact Ho|]. split; [exact Ht|]. reflexivity. }
  destruct (failed data err) eqn:F.
  - destruct (Hfail eq_refl)
      as (data2 & err2 & w2 & e2 & H2 & Hoff2 & Ht2 & Hv2 & He2 & Hsel).
    destruct (Htail _ w2 (e2 ++ e1) Hsel Hoff2)
      as (r & w' & l & G & Hne & Ho & T & V).
    { rewrite Ht2, Ht1. apply app_assoc. }
    exists r, w', (l ++ e2 ++ e1). repeat (split; [assumption|]). right.
    intros p Hp. rewrite !view_app, (V p Hp), (Hv1 p Hp), (Hv2 p Hp).
    unfold view; simpl.
    destruct (p (EvGet FALLBACK_URL (Some 10))); reflexivity.
  - destruct (Htail _ w1 e1 (Hok eq_refl) Hoff1 Ht1)
      as (r & w' & l & G & Hne & Ho & T & V).
    exists r, w', (l ++ e1). repeat (split; [assumption|]). left.
    intros p Hp. rewrite view_app, (V p Hp), (Hv1 p Hp). reflexivity.
Qed.

Lemma get_geo_fails (w : world) :
  geo_unreachable ->
  exists e w' evs,
    get_geo_by_ip w = (Val (None, e), w')
    /\ clock w' = clock w
    /\ trace w' = evs ++ trace w
    /\ view is_try evs = [(clock w, EvGet PRIMARY_URL (Some 10))]
    /\ (forall url, url <> PRIMARY_URL -> url <> FALLBACK_URL ->
                    view (is_request_to url) evs = []).
Proof.
  intros Hu. destruct (Hu w) as (e & w' & G).
  destruct (get_geo_by_ip_spec w) as (r & w'' & evs & G' & _ & Ho & T & V).
  rewrite G in G'. injection G' as <- <-.
  exists e, w', evs. split; [exact G|]. split; [apply Ho|]. split; [exact T|].
  assert (Q1 : http_quiet is_try) by (repeat split).
  split.
  - destruct V as [V|V]; rewrite (V _ Q1); reflexivity.
  - intros url H1 H2.
    assert (Q2 : http_quiet (is_request_to url)) by (repeat split).
    apply String.eqb_neq in H1, H2. rewrite String.eqb_sym in H1, H2.
    destruct V as [V|V]; rewrite (V _ Q2); unfold view;
      cbn [filter snd is_request_to]; rewrite ?H1, ?H2; reflexivity.
Qed.

Lemma shows_trans (p : event -> bool) (a b c : world) (d1 d2 : Z)
    (L1 L2 : list (Z * event)) :
  shows p a b d1 L1 -> shows p b c d2 L2 -> shows p a c (d1 + d2) (L1 ++ L2).
Proof.
  intros (Hc1 & e1 & T1 & V1) (Hc2 & e2 & T2 & V2).
  split; [lia|]. exists (e2 ++ e1). split.
  - rewrite T2, T1. apply app_assoc.
  - rewrite rev_app_distr, !view_app. now rewrite V1, V2.
Qed.

Lemma shows_quiet (p : event -> bool) (w w' : world) :
  display_blind p -> quiet w w' -> shows p w w' 0 [].
Proof.
  intros Hp (Hc & _ & _ & _ & _ & _ & _ & evs & T & F).
  split; [lia|]. exists evs. split; [exact T|].
  rewrite view_rev, (view_display_only p evs Hp F). reflexivity.
Qed.


Lemma shows_sleep (p : event -> bool) (ms : Z) (w : world) :
  shows p w (advance ms (emit_at (EvSleep ms) w)) ms [(clock w, EvSleep ms)].
Proof. split; [reflexivity|]. eexists [_]. split; reflexivity. Qed.





(* ------------------------------------------------------------------ *)
(** * The halt without a location *)

Lemma waited_offline (w w' : world) (ms : Z) (polls : nat) :
  0 <= ms -> waited w w' ms polls -> offline w w'.
Proof.
  intros Hms (Hc & _ & Hi & _ & _ & _ & Hg & evs & T & F).
  repeat split; try lia; try congruence. exists evs. split; [exact T|].
  clear T. induction evs as [|x evs IH]; [reflexivity|]. simpl in *.
  apply andb_prop in F as (Hx & F). rewrite (IH F), andb_true_r.
  destruct (snd x); simpl in *; try discriminate; reflexivity.
Qed.

(** Proves [offline w w'] for a world [w'] written out on top of [w]. *)
Ltac offline_explicit :=
  split; [simpl; lia|]; split; [reflexivity|]; split; [simpl; lia|];
  match goal with
  | |- exists evs, trace ?w' = evs ++ trace ?w /\ _ =>
      let l := eval simpl in (trace w') in
      let r := ext_prefix l (trace w) in
      exists r; split; reflexivity
  end.

Lemma offline_connect_issued (ssid password : string) (w : world) :
  offline w (connect_issued ssid password w).
Proof.
  unfold connect_issued, radio_on. destruct (radio w); offline_explicit.
Qed.

Lemma offline_announced (w : world) : offline w (announced w).
Proof. unfold announced, probed. offline_explicit. Qed.

Lemma returns_wifi_connect (fuel : nat) (ssid password : string)
    (lcd : option Lcd_i2c) (cols mw : Z) :
  0 <= mw * 1000 ->
  mw * 1000 + 300 < TICKS_PERIOD / 2 ->
  mw * 1000 + 300 < 300 * Z.of_nat fuel ->
  returns offline (wifi_connect fuel ssid password lcd cols mw).
Proof.
  intros H0 Hlim Hf w. rewrite wifi_connect_run.
  destruct (isconnected_at E (n_isconnected w)).
  - do 2 eexists. split; [reflexivity|].
    unfold radio_on. destruct (radio w); offline_explicit.
  - pose proof (offline_connect_issued ssid password w) as O0.
    assert (Hc0 : clock (connect_issued ssid password w) = clock w).
    { unfold connect_issued, radio_on. destruct (radio w); reflexivity. }
    set (w0 := connect_issued ssid password w) in *. clearbody w0.
    destruct (wifi_wait_returns fuel w0 (clock w) mw lcd cols)
      as (b & w1 & ms & polls & E1 & W1 & Hms);
      cbv zeta; try rewrite Hc0; try lia.
    rewrite E1. pose proof (waited_offline _ _ _ _ Hms W1) as O1.
    destruct b.
    + rewrite announce_connection_run. do 2 eexists. split; [reflexivity|].
      eapply offline_trans; [exact O0|].
      eapply offline_trans; [exact O1 | apply offline_announced].
    + do 2 eexists. split; [reflexivity|].
      eapply offline_trans; [exact O0 | exact O1].
Qed.

Lemma returns_for_in {A R : Type} (rel : world -> world -> Prop)
    (xs : list A) (body : A -> M (option R)) :
  (forall w, rel w w) ->
  (forall a b c, rel a b -> rel b c -> rel a c) ->
  (forall x, returns rel (body x)) -> returns rel (for_in xs body).
Proof.
  intros Hrefl Htrans Hb. induction xs as [|x xs IH]; simpl.
  - apply returns_ret, Hrefl.
  - apply (returns_bind rel Htrans); [apply Hb|].
    intros [v|]; [apply returns_ret, Hrefl | exact IH].
Qed.

Lemma returns_offline_log (msg : string) : returns offline (log msg).
Proof. apply (returns_weaken quiet offline _ quiet_offline), returns_log. Qed.

(** With fuel for 85 polls, [wifi_ensure_connected] comes back whatever
    the interface does; it polls at least once and sends no request. *)
Lemma returns_wifi_ensure_connected (fuel : nat) (ssid password : string)
    (lcd : option Lcd_i2c) (cols : Z) (w : world) :
  (85 <= fuel)%nat ->
  exists b w',
    wifi_ensure_connected fuel ssid password lcd cols w = (Val b, w')
    /\ offline w w'
    /\ (n_isconnected w < n_isconnected w')%nat.
Proof.
  intros Hf.
  assert (Hc : forall mw, mw = 20 \/ mw = 25 ->
                 returns offline (wifi_connect fuel ssid password lcd cols mw)).
  { intros mw [-> | ->]; apply returns_wifi_connect;
      try (change (TICKS_PERIOD / 2) with 536870912); lia. }
  assert (Hrest : forall c,
             returns offline
               (if c : bool then ret true
                else
                  r <- for_in [1; 2; 3]
                         (fun attempt =>
                            log (py_format "WiFi reconnect attempt {}" [PInt attempt]) ;;
                            ok <- wifi_connect fuel ssid password lcd cols 20 ;;
                            if ok then ret (Some true)
                            else sleep_ms 500 ;; ret None) ;;
                  match r with
                  | Some b => ret b
                  | None =>
                      log "WiFi hard reset interface" ;;
                      try_except wlan_disconnect (fun _ => ret tt) ;;
                      sleep_ms 200 ;;
                      wlan_set_active false ;;
                      sleep_ms 200 ;;
                      wlan_set_active true ;;
                      sleep_ms 200 ;;
                      wifi_connect fuel ssid password lcd cols 25
                  end)).
  { intros [|]; [apply returns_ret, offline_refl|].
    apply (returns_bind offline offline_trans).
    - apply (returns_for_in offline _ _ offline_refl offline_trans).
      intros x. apply (returns_bind offline offline_trans);
        [apply returns_offline_log|].
      intros _. apply (returns_bind offline offline_trans); [apply Hc; auto|].
      intros [|]; [apply returns_ret, offline_refl|].
      apply (returns_bind offline offline_trans);
        [apply returns_sleep_offline; lia|].
      intros _. apply returns_ret, offline_refl.
    - intros [b|]; [apply returns_ret, offline_refl|].
      apply (returns_bind offline offline_trans);
        [apply returns_offline_log|].
      intros _. apply (returns_bind offline offline_trans).
      { intros w1. unfold try_except, wlan_disconnect.
        destruct (disconnect_at E (n_disconnect w1));
          do 2 eexists; (split; [reflexivity | offline_explicit]). }
      intros _. apply (returns_bind offline offline_trans);
        [apply returns_sleep_offline; lia|].
      intros _. apply (returns_bind offline offline_trans).
      { intros w1. do 2 eexists. split; [reflexivity | offline_explicit]. }
      intros _. apply (returns_bind offline offline_trans);
        [apply returns_sleep_offline; lia|].
      intros _. apply (returns_bind offline offline_trans).
      { intros w1. do 2 eexists. split; [reflexivity | offline_explicit]. }
      intros _. apply (returns_bind offline offline_trans);
        [apply returns_sleep_offline; lia|].
      intros _. apply Hc; auto. }
  unfold wifi_ensure_connected, bind at 1, wlan_isconnected.
  destruct (Hrest (isconnected_at E (n_isconnected w)) (bump_isconnected w))
    as (b & w' & E1 & O1).
  exists b, w'. split; [exact E1|].
  destruct O1 as (Hc1 & Hg1 & Hi1 & evs & T & F). simpl in Hc1, Hg1, Hi1, T.
  split; [|lia]. repeat split; try lia. exists evs. split; assumption.
Qed.





(* ------------------------------------------------------------------ *)
(** * How many lookups a run makes *)








(* ------------------------------------------------------------------ *)
(** * The helpers on their own *)

Lemma safe_get_walk_app (dct : pyval) (p q : list string) :
  safe_get_walk dct (p ++ q)
  = match safe_get_walk dct p with
    | Some v => safe_get_walk v q
    | None => None
    end.
Proof.
  revert dct. induction p as [|k p IH]; intros dct; simpl; [reflexivity|].
  destruct (py_index dct k) as [v|]; [apply IH | reflexivity].
Qed.

(** X1. [safe_get] follows a path key by key: the empty path gives the
    object itself; a key that is missing, or a step into something that
    is no dict, gives the default, whatever is left of the path; a path
    in two parts is the second part followed from where the first part
    leads.  On a dict and one key it returns what [dict.get] returns. *)
Theorem safe_get_follows_path (dct default : pyval) :
  safe_get dct [] default = dct
  /\ (forall d k rest,
        safe_get (PDict d) (k :: rest) default
        = match assoc k d with
          | Some v => safe_get v rest default
          | None => default
          end)
  /\ (forall k rest, (forall d, dct <> PDict d) ->
        safe_get dct (k :: rest) default = default)
  /\ (forall p q,
        safe_get dct (p ++ q) default
        = match safe_get_walk dct p with
          | Some v => safe_get v q default
          | None => default
          end)
  /\ (forall d k, py_get (PDict d) k default = Val (safe_get (PDict d) [k] default)).
Proof.
  split; [reflexivity|]. split.
  { intros d k rest. unfold safe_get. simpl. now destruct (assoc k d). }
  split.
  { intros k rest H. unfold safe_get. simpl.
    destruct dct; try reflexivity. now contradiction (H d). }
  split.
  { intros p q. unfold safe_get. rewrite safe_get_walk_app.
    now destruct (safe_get_walk dct p). }
  intros d k. unfold safe_get. simpl. now destruct (assoc k d).
Qed.

Lemma len_nonneg (s : string) : 0 <= len s.
Proof. unfold len. lia. Qed.

Lemma append_empty_r (s : string) : (s ++ "")%string = s.
Proof. induction s as [|c s IH]; simpl; [reflexivity | now rewrite IH]. Qed.

Lemma clamp_str_take (s : pyval) (max_len : Z) :
  0 <= max_len -> clamp_str s max_len = str_take (Z.to_nat max_len) (shown s).
Proof.
  intros H. unfold clamp_str.
  replace (py_str match s with PNone => PStr "" | _ => s end) with (shown s)
    by (now destruct s).
  unfold py_slice_to. destruct (max_len <? 0) eqn:N; [apply Z.ltb_lt in N; lia|].
  destruct (len (shown s) >? max_len) eqn:G; [reflexivity|].
  symmetry. apply str_take_all. unfold len in G.
  rewrite Z.gtb_ltb in G. apply Z.ltb_ge in G. lia.
Qed.

(** X2. For a bound [max_len >= 0], [clamp_str] returns the first
    [max_len] characters of [str(s)] ([None] counting as the empty
    string): never more than [max_len] characters, the text itself when
    it fits, and clamping twice is clamping once. *)
Theorem clamp_str_bounded (s : pyval) (max_len : Z) :
  0 <= max_len ->
  clamp_str s max_len = str_take (Z.to_nat max_len) (shown s)
  /\ len (clamp_str s max_len) = Z.min (len (shown s)) max_len
  /\ (len (shown s) <= max_len -> clamp_str s max_len = shown s)
  /\ clamp_str (PStr (clamp_str s max_len)) max_len = clamp_str s max_len.
Proof.
  intros H. pose proof (clamp_str_take s max_len H) as T.
  assert (L : len (clamp_str s max_len) = Z.min (len (shown s)) max_len).
  { rewrite T. unfold len. rewrite length_str_take. lia. }
  split; [exact T|]. split; [exact L|]. split.
  - intros Hfit. rewrite T. apply str_take_all. unfold len in Hfit. lia.
  - rewrite (clamp_str_take (PStr _) max_len H). simpl shown.
    apply str_take_all. unfold len in L. lia.
Qed.

Lemma pad_right_shown (s : pyval) (width : Z) :
  pad_right s width
  = if len (shown s) >? width then py_slice_to (shown s) width
    else (shown s ++ py_str_mul " " (width - len (shown s)))%string.
Proof. unfold pad_right. now destruct s. Qed.

(** X3. On a width [cols >= 0], padding a clamped text is padding the
    text: the [clamp_str] of [show_error] changes nothing of what
    [lcd_write_lines] then writes. *)
Theorem pad_right_after_clamp_str (s : pyval) (cols : Z) :
  0 <= cols ->
  pad_right (PStr (clamp_str s cols)) cols = pad_right s cols.
Proof.
  intros H. rewrite (pad_right_shown (PStr _)), (pad_right_shown s). simpl shown.
  pose proof (clamp_str_take s cols H) as T.
  assert (L : len (clamp_str s cols) = Z.min (len (shown s)) cols).
  { rewrite T. unfold len. rewrite length_str_take. lia. }
  destruct (len (shown s) >? cols) eqn:G.
  - apply Z.gtb_lt in G.
    destruct (len (clamp_str s cols) >? cols) eqn:G2;
      [apply Z.gtb_lt in G2; lia|].
    replace (cols - len (clamp_str s cols)) with 0 by lia.
    unfold py_str_mul; simpl. rewrite append_empty_r, T.
    unfold py_slice_to. destruct (cols <? 0) eqn:N; [apply Z.ltb_lt in N; lia|].
    reflexivity.
  - assert (len (shown s) <= cols)
      by (rewrite Z.gtb_ltb in G; now apply Z.ltb_ge in G).
    assert (C : clamp_str s cols = shown s).
    { rewrite T. apply str_take_all. unfold len in *. lia. }
    rewrite C, G. reflexivity.
Qed.

(** X4. A negative width is no width: [pad_right] then drops the last
    [-cols] characters of the text and pads nothing, so the result has
    [len(s) + cols] characters, or none when the text is shorter. *)
Theorem pad_right_negative_width (s : pyval) (cols : Z) :
  cols < 0 ->
  pad_right s cols = str_take (Z.to_nat (len (shown s) + cols)) (shown s)
  /\ len (pad_right s cols) = Z.max 0 (len (shown s) + cols).
Proof.
  intros H. rewrite pad_right_shown.
  pose proof (len_nonneg (shown s)) as P.
  destruct (len (shown s) >? cols) eqn:G.
  - unfold py_slice_to. destruct (cols <? 0) eqn:N.
    + split; [reflexivity|]. unfold len in *. rewrite length_str_take. lia.
    + apply Z.ltb_ge in N. lia.
  - rewrite Z.gtb_ltb in G. apply Z.ltb_ge in G. lia.
Qed.

(** What [{:02d}] prints for 0..99: the tens digit, then the units. *)
Lemma two_digits_shape (n : Z) :
  0 <= n < 100 ->
  exists a b,
    two_digits n = String a (String b EmptyString)
    /\ digit_of a = Some (n / 10) /\ digit_of b = Some (n mod 10).
Proof.
  intros H.
  assert (X : forallb
                (fun k =>
                   let n := Z.of_nat k in
                   match two_digits n with
                   | String a (String b EmptyString) =>
                       match digit_of a, digit_of b with
                       | Some x, Some y => (x =? n / 10) && (y =? n mod 10)
                       | _, _ => false
                       end
                   | _ => false
                   end) (seq 0 100) = true) by (vm_compute; reflexivity).
  rewrite forallb_forall in X. specialize (X (Z.to_nat n)).
  rewrite Z2Nat.id in X by lia. cbv zeta in X.
  assert (I : In (Z.to_nat n) (seq 0 100)) by (apply in_seq; lia).
  specialize (X I).
  destruct (two_digits n) as [|a [|b [|? ?]]]; try discriminate.
  exists a, b. split; [reflexivity|].
  destruct (digit_of a) as [x|]; [|discriminate].
  destruct (digit_of b) as [y|]; [|discriminate].
  apply andb_prop in X as (X1 & X2).
  apply Z.eqb_eq in X1, X2. now subst.
Qed.

(** X5. With the hour, minute and second of [utime.localtime()] in
    0..99, [get_time_string] returns eight characters: two decimal
    digits each, the tens first, with a colon between the pairs.  One
    call of the clock, nothing else. *)
Theorem get_time_string_format (w : world) (h m s : Z) :
  localtime_at E (n_localtime w) = (h, m, s) ->
  0 <= h < 100 -> 0 <= m < 100 -> 0 <= s < 100 ->
  exists h1 h0 m1 m0 s1 s0,
    get_time_string w
    = (Val (String h1 (String h0 (String ":" (String m1 (String m0
              (String ":" (String s1 (String s0 EmptyString)))))))),
       bump_localtime w)
    /\ digit_of h1 = Some (h / 10) /\ digit_of h0 = Some (h mod 10)
    /\ digit_of m1 = Some (m / 10) /\ digit_of m0 = Some (m mod 10)
    /\ digit_of s1 = Some (s / 10) /\ digit_of s0 = Some (s mod 10).
Proof.
  intros L Hh Hm Hs.
  destruct (two_digits_shape h Hh) as (h1 & h0 & Eh & ? & ?).
  destruct (two_digits_shape m Hm) as (m1 & m0 & Em & ? & ?).
  destruct (two_digits_shape s Hs) as (s1 & s0 & Es & ? & ?).
  exists h1, h0, m1, m0, s1, s0.
  unfold get_time_string, bind, localtime_hms, ret. rewrite L, Eh, Em, Es.
  repeat split; assumption.
Qed.

(* ------------------------------------------------------------------ *)
(** * Decoding a weather document *)

(** X6. A weather document of the documented shape always gives a
    sample, and each field on its own: the temperature and the wind
    speed as floats, humidity and pressure as integers, each of the
    three optional ones absent exactly when the document has [null] or
    nothing there, and the description of the first [weather] entry, or
    the empty string when there is none. *)
Theorem weather_sample_of_json_numbers (d m : list (string * pyval)) :
  well_formed_weather d = true ->
  assoc "main" d = Some (PDict m) ->
  let speed := safe_get (PDict d) ["wind"; "speed"] PNone in
  exists s,
    weather_of_data (PDict d) = Val (inl s)
    /\ Val (temp s) = py_float (lookup "temp" m)
    /\ humidity s = int_if_number (lookup "humidity" m)
    /\ pressure s = int_if_number (lookup "pressure" m)
    /\ wind s = float_if_number speed
    /\ (humidity s = None <-> lookup "humidity" m = PNone)
    /\ (pressure s = None <-> lookup "pressure" m = PNone)
    /\ (wind s = None <-> speed = PNone)
    /\ desc s = match assoc "weather" d with
                | Some (PList (PDict e :: _)) =>
                    py_or (lookup "description" e) (PStr "")
                | _ => PStr ""
                end.
Proof.
  intros W M. unfold well_formed_weather in W. rewrite M in W.
  apply andb_prop in W as (W & Wdesc). apply andb_prop in W as (W & Wwind).
  apply andb_prop in W as (W & Wp). apply andb_prop in W as (Wt & Wh).
  intros speed0. assert (Es0 : speed0 = safe_get (PDict d) ["wind"; "speed"] PNone)
    by reflexivity. clearbody speed0.
  unfold weather_of_data. simpl py_get. rewrite M. unfold obind at 1 2 3.
  unfold lookup in *.
  assert (Ht : exists f, py_float match assoc "temp" m with Some v => v | None => PNone end
                         = Val f
                         /\ is_number match assoc "temp" m with Some v => v | None => PNone end
                            = true).
  { destruct (match assoc "temp" m with Some v => v | None => PNone end)
      as [| | |[]| | |]; try discriminate; eexists; split; reflexivity. }
  destruct Ht as (ft & Eft & Nt).
  assert (Hopt : forall x, optional_number x = true ->
            exists o, (if is_number x then obind (py_int x) (fun z => Val (Some z))
                       else Val None) = Val o
                      /\ o = int_if_number x /\ (o = None <-> x = PNone)).
  { intros x Hx. destruct x as [| | |[]| | |]; try discriminate;
      eexists; (split; [reflexivity|]); (split; [reflexivity|]);
      split; discriminate || reflexivity. }
  assert (Hoptf : forall x, optional_number x = true ->
            exists o, (if is_number x then obind (py_float x) (fun z => Val (Some z))
                       else Val None) = Val o
                      /\ o = float_if_number x /\ (o = None <-> x = PNone)).
  { intros x Hx. destruct x as [| | |[]| | |]; try discriminate;
      eexists; (split; [reflexivity|]); (split; [reflexivity|]);
      split; discriminate || reflexivity. }
  destruct (Hopt _ Wh) as (oh & Eh & Eh2 & Eh3).
  destruct (Hopt _ Wp) as (op & Ep & Ep2 & Ep3).
  set (speed := match match assoc "wind" d with
                      | Some v => v
                      | None => PDict []
                      end with
                | PDict wd => match assoc "speed" wd with Some v => v | None => PNone end
                | _ => PNone
                end).
  assert (Ws : optional_number speed = true
               /\ py_get match assoc "wind" d with Some v => v | None => PDict [] end
                    "speed" PNone = Val speed
               /\ safe_get (PDict d) ["wind"; "speed"] PNone = speed).
  { subst speed. unfold safe_get. simpl.
    destruct (assoc "wind" d) as [[| | | | | |wd]|]; try discriminate.
    - simpl. destruct (assoc "speed" wd); auto.
    - simpl. auto. }
  destruct Ws as (Ws & Eget & Epath). rewrite Epath in Es0. subst speed0.
  destruct (Hoptf _ Ws) as (ow & Ew & Ew2 & Ew3).
  set (dsc := match assoc "weather" d with
              | Some (PList (PDict e :: _)) =>
                  py_or match assoc "description" e with Some v => v | None => PNone end
                    (PStr "")
              | _ => PStr ""
              end).
  exists (mkWeather ft oh op ow dsc).
  split.
  - simpl py_get. rewrite Eget. unfold obind at 1 2 3 4.
    assert (Ed : (match match assoc "weather" d with
                        | Some v => v
                        | None => PList []
                        end with
                  | PList (first :: _) =>
                      obind (py_get first "description" PNone)
                        (fun d0 => Val (py_or d0 (PStr "")))
                  | _ => Val (PStr "")
                  end) = Val dsc).
    { subst dsc. destruct (assoc "weather" d) as [[| | | | |[|[] ?]|]|];
        try discriminate; reflexivity. }
    rewrite Ed. unfold obind at 1. rewrite Nt. simpl negb. cbv iota.
    rewrite Eft. unfold obind at 1. rewrite Eh. unfold obind at 1.
    rewrite Ep. unfold obind at 1. rewrite Ew. reflexivity.
  - simpl. repeat split; try assumption; try (symmetry; assumption);
      try apply Eh3; try apply Ep3; try apply Ew3.
Qed.

Lemma weather_of_data_error (data : pyval) (e : string) :
  weather_of_data data = Val (inr e) -> e = "Bad temp".
Proof.
  unfold weather_of_data. intros H.
  apply obind_val in H as (main & _ & H).
  apply obind_val in H as (wnd & _ & H).
  apply obind_val in H as (w_arr & _ & H).
  apply obind_val in H as (t & _ & H).
  apply obind_val in H as (h & _ & H).
  apply obind_val in H as (p & _ & H).
  apply obind_val in H as (ws & _ & H).
  apply obind_val in H as (dsc & _ & H).
  destruct (is_number t); simpl in H; [|now injection H as <-].
  apply obind_val in H as (ft & _ & H).
  apply obind_val in H as (oh & _ & H).
  apply obind_val in H as (op & _ & H).
  apply obind_val in H as (ow & _ & H).
  discriminate.
Qed.

Lemma opt_or_error_kind (err : option string) (dflt : string) :
  (forall e, err = Some e -> error_of_request e) ->
  str_truthy dflt = true -> error_kind_of dflt <> None ->
  str_truthy (opt_or err dflt) = true /\ error_kind_of (opt_or err dflt) <> None.
Proof.
  intros He Hd Hk. destruct err as [e|]; [|now split].
  destruct (He e eq_refl) as (T & K). simpl. rewrite T.
  split; [exact T|]. destruct K as [K|K]; rewrite K; discriminate.
Qed.

(** X7. What a weather fetch hands back, in every environment: a sample
    and no error; or no sample and an error text that is not empty and
    is one of [NET ...], [HTTP <code>], [Bad JSON], [No data] and
    [Bad temp]; or an exception of the decoding.  Never neither, never
    both.  So the [werr or "Weather fail"] of the caller is always
    [werr].  The call touches nothing but the HTTP client and the log. *)
Theorem weather_fetch_result_shape (api_key : string) (la lo : pyfloat) (w : world) :
  exists r w',
    get_weather_openweathermap api_key la lo w = (r, w')
    /\ off_net w w'
    /\ ((exists s, r = Val (Some s, None))
        \/ (exists e, r = Val (None, Some e) /\ weather_error e
                      /\ opt_or (Some e) "Weather fail" = e)
        \/ (exists x, r = Raise x)).
Proof.
  destruct (http_get_json_spec (weather_url api_key la lo) 10 w)
    as (data & err & w1 & evs & H & Hoff & _ & _ & He).
  unfold get_weather_openweathermap, bind. rewrite H.
  destruct (opt_truthy err || negb (truthy data)).
  - do 2 eexists. split; [reflexivity|]. split; [exact Hoff|]. right; left.
    eexists. split; [reflexivity|].
    destruct (opt_or_error_kind err "No data") as (T & K);
      [intros e Q; now apply (He e Q) | reflexivity | discriminate |].
    split; [split; [exact T | now left]|]. simpl. now rewrite T.
  - unfold lift. destruct (weather_of_data data) as [[s|e]|x|] eqn:D.
    + rewrite log_run. do 2 eexists. split; [reflexivity|].
      split; [exact Hoff|]. left. now exists s.
    + apply weather_of_data_error in D as ->.
      do 2 eexists. split; [reflexivity|]. split; [exact Hoff|]. right; left.
      eexists. split; [reflexivity|]. split; [split; [reflexivity | now right]|].
      reflexivity.
    + do 2 eexists. split; [reflexivity|]. split; [exact Hoff|]. right; right.
      now exists x.
    + exfalso. revert D. unfold weather_of_data.
      repeat (apply obind_no_fuel; [try apply py_get_no_fuel | intros ?]).
      * destruct a1 as [| | | |?|[|? ?]|]; try discriminate.
        apply obind_no_fuel; [apply py_get_no_fuel | discriminate].
      * destruct (negb (is_number a2)); [discriminate|].
        apply obind_no_fuel; [apply py_float_no_fuel | intros ?].
        assert (Hi : forall x, (if is_number x
                                then obind (py_int x) (fun z => Val (Some z))
                                else @Val (option Z) None) <> OutOfFuel).
        { intros x. destruct (is_number x); [|discriminate].
          apply obind_no_fuel; [|discriminate].
          destruct x as [| | |[]|s0| |]; simpl; try discriminate.
          destruct (int_of_string s0); discriminate. }
        apply obind_no_fuel; [apply Hi | intros ?].
        apply obind_no_fuel; [apply Hi | intros ?].
        apply obind_no_fuel; [|discriminate].
        match goal with
        | |- context [is_number ?v] => destruct (is_number v); [|discriminate]
        end.
        apply obind_no_fuel; [apply py_float_no_fuel | discriminate].
Qed.

Lemma geo_of_data_raises (data : pyval) (x : exn) :
  geo_of_data data = Raise x ->
  exn_cls x = AttributeError /\ forall d, data <> PDict d.
Proof.
  destruct data as [| | | | | |d]; simpl;
    try (intros H; injection H as <-; split; [reflexivity | discriminate]).
  unfold geo_of_data. simpl py_get. unfold obind at 1 2 3 4.
  set (la := match assoc "lat" d with Some v => v | None => PNone end).
  set (lo := match assoc "lon" d with Some v => v | None => PNone end).
  destruct (truthy match assoc "countryCode" d with Some v => v | None => PNone end);
    unfold obind at 1.
  - destruct (is_number la) eqn:Na; simpl; [|discriminate].
    destruct (is_number lo) eqn:No; simpl; [|discriminate].
    apply is_number_float in Na as (fa & ->), No as (fo & ->). discriminate.
  - destruct (is_number la) eqn:Na; simpl; [|discriminate].
    destruct (is_number lo) eqn:No; simpl; [|discriminate].
    apply is_number_float in Na as (fa & ->), No as (fo & ->). discriminate.
Qed.

Lemma geo_of_data_error (data : pyval) (e : string) :
  geo_of_data data = Val (inr e) -> e = "Missing lat/lon".
Proof.
  unfold geo_of_data. intros H.
  apply obind_val in H as (la & _ & H).
  apply obind_val in H as (lo & _ & H).
  apply obind_val in H as (ci & _ & H).
  apply obind_val in H as (cc & _ & H).
  apply obind_val in H as (co & _ & H).
  destruct (negb (is_number la) || negb (is_number lo));
    [now injection H as <-|].
  apply obind_val in H as (fa & _ & H).
  apply obind_val in H as (fo & _ & H). discriminate.
Qed.

(** X8. What a location lookup hands back, in every environment: a
    location and no error; or no location and an error text that is not
    empty and is one of [NET ...], [HTTP <code>], [Bad JSON], [No data]
    and [Missing lat/lon]; or an [AttributeError], and that only when
    the body it came to validate is not a JSON object (a list, a number,
    a string: [data.get] at line 205).  So the [err or "Geo failed"] of
    the caller is always [err]. *)
Theorem geo_lookup_result_shape (w : world) :
  exists r w',
    get_geo_by_ip w = (r, w')
    /\ off_net w w'
    /\ ((exists g, r = Val (Some g, None))
        \/ (exists e, r = Val (None, Some e) /\ geo_error e
                      /\ opt_or (Some e) "Geo failed" = e)
        \/ (exists x data w1,
              r = Raise x /\ exn_cls x = AttributeError
              /\ geo_select w = (Val (inl data), w1)
              /\ truthy data = true
              /\ forall d, data <> PDict d)).
Proof.
  destruct (geo_select_spec w)
    as (data & err & w1 & e1 & H1 & Hoff1 & _ & _ & He1 & Hok & Hfail).
  assert (Htail : forall data w2,
             geo_select w = (Val (inl data), w2) -> off_net w w2 ->
             truthy data = true ->
             exists r w',
               get_geo_by_ip w = (r, w') /\ off_net w w'
               /\ ((exists g, r = Val (Some g, None))
                   \/ (exists e, r = Val (None, Some e) /\ geo_error e
                                 /\ opt_or (Some e) "Geo failed" = e)
                   \/ (exists x data w1,
                         r = Raise x /\ exn_cls x = AttributeError
                         /\ geo_select w = (Val (inl data), w1)
                         /\ truthy data = true
                         /\ forall d, data <> PDict d))).
  { intros dt w2 Hs Ho Ht. unfold get_geo_by_ip, bind. rewrite Hs.
    unfold lift. destruct (geo_of_data dt) as [[g|e]|x|] eqn:G.
    - rewrite log_run. do 2 eexists. split; [reflexivity|].
      split; [exact Ho|]. left. now exists g.
    - apply geo_of_data_error in G as ->.
      do 2 eexists. split; [reflexivity|]. split; [exact Ho|]. right; left.
      eexists. split; [reflexivity|].
      split; [split; [reflexivity | now right] | reflexivity].
    - apply geo_of_data_raises in G as (Gc & Gd).
      do 2 eexists. split; [reflexivity|]. split; [exact Ho|]. right; right.
      exists x, dt, w2. auto.
    - exfalso. exact (geo_of_data_no_fuel dt G). }
  destruct (failed data err) eqn:F.
  - destruct (Hfail eq_refl)
      as (data2 & err2 & w2 & e2 & H2 & Hoff2 & _ & _ & He2 & Hsel).
    destruct (failed data2 err2) eqn:F2.
    + unfold get_geo_by_ip, bind. rewrite Hsel.
      do 2 eexists. split; [reflexivity|]. split; [exact Hoff2|]. right; left.
      eexists. split; [reflexivity|].
      destruct (opt_or_error_kind err "No data") as (T & K);
        [intros e Q; now apply (He1 e Q) | reflexivity | discriminate |].
      destruct (opt_or_error_kind err2 (opt_or err "No data")) as (T2 & K2);
        [intros e Q; now apply (He2 e Q) | exact T | exact K |].
      split; [split; [exact T2 | now left]|]. simpl. now rewrite T2.
    + apply (Htail data2 w2 Hsel Hoff2).
      destruct (failed_truthy_data data2 err2 He2 F2) as (_ & T). exact T.
  - apply (Htail data w1 (Hok eq_refl) Hoff1).
    destruct (failed_truthy_data data err He1 F) as (_ & T). exact T.
Qed.

(* ------------------------------------------------------------------ *)
(** * One HTTP exchange *)

(** X9. [http_get_json] call by call.  It logs the URL and issues the
    request with the timeout; a [TypeError] of the client brings the
    same request once more without the timeout, any other exception
    ends the exchange.  A response is logged with its status, decoded
    only when the status is 200, and closed: one [close] for a response
    obtained, as the last step, whatever the status and the body; none
    when the client raised.  The call itself never raises. *)
Theorem http_get_json_exchange (url : string) (t : Z) (w : world) :
  let reply := fst (reply_used (n_get w)) in
  let again := snd (reply_used (n_get w)) in
  let c := clock w in
  exists w',
    http_get_json url t w = (Val (result_of_reply reply), w')
    /\ new_events w w'
       = [log_at c (py_format "HTTP GET {}" [PStr url]); (c, EvGet url (Some t))]
         ++ (if again then [(c, EvGet url None)] else [])
         ++ match reply with
            | HttpResp st _ =>
                [log_at c (py_format "HTTP status {}" [PInt st]); (c, EvClose)]
            | HttpRaise _ => []
            end
    /\ n_get w' = ((if again then 2 else 1) + n_get w)%nat
    /\ clock w' = c.
Proof.
  unfold reply_used, http_get_json, bind, attempt, try_except_TypeError,
    urequests_get.
  rewrite log_run. simpl.
  destruct (urequests_get_at E (n_get w)) as [e1|st body] eqn:R1.
  - destruct (is_TypeError e1) eqn:TE; simpl.
    + destruct (urequests_get_at E (S (n_get w))) as [e2|st body] eqn:R2; simpl.
      * eexists. split; [reflexivity|]. split; [|split; reflexivity].
        rewrite (new_events_ext w _ [_; _; _]) by reflexivity. reflexivity.
      * unfold try_except. rewrite http_decode_run. simpl.
        eexists. split; [reflexivity|]. split; [|split; reflexivity].
        rewrite (new_events_ext w _ [_; _; _; _; _]) by reflexivity. reflexivity.
    + eexists. split; [reflexivity|]. split; [|split; reflexivity].
      rewrite (new_events_ext w _ [_; _]) by reflexivity. reflexivity.
  - unfold try_except. rewrite http_decode_run. simpl.
    eexists. split; [reflexivity|]. split; [|split; reflexivity].
    rewrite (new_events_ext w _ [_; _; _; _]) by reflexivity. reflexivity.
Qed.

(* ------------------------------------------------------------------ *)
(** * What holds of a run however it ends *)

Section Always.

Variable R : world -> world -> Prop.
Hypothesis R_refl : forall w, R w w.
Hypothesis R_trans : forall a b c, R a b -> R b c -> R a c.

Lemma always_ret {A : Type} (a : A) : always R (ret a).
Proof. intros w. apply R_refl. Qed.

Lemma always_raise {A : Type} (e : exn) : always R (@raise A e).
Proof. intros w. apply R_refl. Qed.

Lemma always_lift {A : Type} (o : outcome A) : always R (lift o).
Proof. intros w. apply R_refl. Qed.

Lemma always_out_of_fuel {A : Type} : always R (@out_of_fuel A).
Proof. intros w. apply R_refl. Qed.

Lemma always_bind {A B : Type} (m : M A) (k : A -> M B) :
  always R m -> (forall a, always R (k a)) -> always R (bind m k).
Proof.
  intros Hm Hk w. specialize (Hm w). unfold bind.
  destruct (m w) as [[a|e|] w1]; simpl in *; try exact Hm.
  eapply R_trans; [exact Hm | apply Hk].
Qed.

Lemma always_try {A : Type} (m : M A) (h : exn -> M A) :
  always R m -> (forall e, always R (h e)) -> always R (try_except m h).
Proof.
  intros Hm Hh w. specialize (Hm w). unfold try_except.
  destruct (m w) as [[a|e|] w1]; simpl in *; try exact Hm.
  eapply R_trans; [exact Hm | apply Hh].
Qed.

Lemma always_try_TypeError {A : Type} (m h : M A) :
  always R m -> always R h -> always R (try_except_TypeError m h).
Proof.
  intros Hm Hh w. specialize (Hm w). unfold try_except_TypeError.
  destruct (m w) as [[a|e|] w1]; simpl in *; try exact Hm.
  destruct (is_TypeError e); simpl; [|exact Hm].
  eapply R_trans; [exact Hm | apply Hh].
Qed.

Lemma always_attempt {A : Type} (m : M A) : always R m -> always R (attempt m).
Proof.
  intros Hm w. specialize (Hm w). unfold attempt.
  now destruct (m w) as [[a|e|] w1].
Qed.

Lemma always_for_in {A B : Type} (xs : list A) (body : A -> M (option B)) :
  (forall x, always R (body x)) -> always R (for_in xs body).
Proof.
  intros Hb. induction xs as [|x xs IH]; simpl; [apply always_ret|].
  apply always_bind; [apply Hb|]. intros [v|]; [apply always_ret | exact IH].
Qed.

Lemma always_forever (iters : nat) (body : M unit) :
  always R body -> always R (forever iters body).
Proof.
  intros Hb. induction iters as [|n IH]; simpl; [apply always_out_of_fuel|].
  apply always_bind; [exact Hb | intros _; exact IH].
Qed.

Lemma always_forever_from {S : Type} (iters : nat) (body : S -> M S) :
  (forall s, always R (body s)) -> forall s, always R (forever_from iters body s).
Proof.
  intros Hb. induction iters as [|n IH]; intros s; simpl;
    [apply always_out_of_fuel|].
  apply always_bind; [apply Hb | exact IH].
Qed.

End Always.

Lemma only_refl (P : event -> Prop) (w : world) : only P w w.
Proof. exists []. split; [reflexivity | constructor]. Qed.

Lemma only_trans (P : event -> Prop) (a b c : world) :
  only P a b -> only P b c -> only P a c.
Proof.
  intros (e1 & T1 & F1) (e2 & T2 & F2). exists (e2 ++ e1). split.
  - rewrite T2, T1. apply app_assoc.
  - apply Forall_app. now split.
Qed.

Lemma only_new_events (P : event -> Prop) (w w' : world) :
  only P w w' -> Forall (fun te => P (snd te)) (new_events w w').
Proof.
  intros (evs & T & F). rewrite (new_events_ext w w' evs T).
  now apply Forall_rev.
Qed.

Lemma only_lcd_call (Q : event -> Prop) (l : option Lcd_i2c) (ev : event) :
  (l <> None -> Q ev) -> always (only Q) (lcd_call l ev).
Proof.
  intros H w. unfold lcd_call. destruct l as [d|]; [|apply only_refl].
  destruct (lcd_at E (n_lcd w)).
  - exists []. split; [reflexivity | constructor].
  - exists [(clock w, ev)]. split; [reflexivity|].
    constructor; [apply H; discriminate | constructor].
Qed.

(** ** The events of main.py *)

Section Alphabet.

Variables (ssid password api_key : string) (lcd : option Lcd_i2c) (cols : Z).

Let P : event -> Prop := firmware_event api_key lcd cols.
Let R : world -> world -> Prop := only P.

Lemma alpha_same (w w' : world) : trace w' = trace w -> R w w'.
Proof. intros H. exists []. split; [exact H | constructor]. Qed.

Lemma alpha_emit (ev : event) (w w' : world) :
  P ev -> trace w' = (clock w, ev) :: trace w -> R w w'.
Proof.
  intros H T. exists [(clock w, ev)]. split; [exact T|].
  constructor; [exact H | constructor].
Qed.

Lemma alpha_log (msg : string) : always R (log msg).
Proof. intros w. now apply (alpha_emit (EvLog (log_line (clock w mod TICKS_PERIOD) msg))). Qed.

Lemma alpha_sleep_ms (ms : Z) : always R (sleep_ms ms).
Proof. intros w. now apply (alpha_emit (EvSleep ms)). Qed.

Lemma alpha_sleep (s : Z) : always R (sleep s).
Proof. apply alpha_sleep_ms. Qed.

Lemma alpha_ticks_ms : always R ticks_ms.
Proof. intros w. now apply alpha_same. Qed.

Lemma alpha_wlan_active : always R wlan_active.
Proof. intros w. now apply alpha_same. Qed.

Lemma alpha_wlan_isconnected : always R wlan_isconnected.
Proof. intros w. now apply alpha_same. Qed.

Lemma alpha_wlan_ifconfig : always R wlan_ifconfig.
Proof. intros w. now apply alpha_same. Qed.

Lemma alpha_localtime : always R localtime_hms.
Proof. intros w. now apply alpha_same. Qed.

Lemma alpha_wlan_set_active (b : bool) : always R (wlan_set_active b).
Proof. intros w. now apply (alpha_emit (EvWlanActive b)). Qed.

Lemma alpha_wlan_connect (s p : string) : always R (wlan_connect s p).
Proof. intros w. now apply (alpha_emit (EvWlanConnect s p)). Qed.

Lemma alpha_wlan_disconnect : always R wlan_disconnect.
Proof.
  intros w. unfold wlan_disconnect.
  destruct (disconnect_at E (n_disconnect w));
    now apply (alpha_emit EvWlanDisconnect).
Qed.

Lemma alpha_getaddrinfo (host : string) (port : Z) :
  always R (getaddrinfo_ip host port).
Proof.
  intros w. unfold getaddrinfo_ip.
  destruct (getaddrinfo_at E (n_getaddrinfo w));
    now apply (alpha_emit (EvGetaddrinfo host port)).
Qed.

Lemma alpha_urequests_get (url : string) (t : option Z) :
  known_endpoint api_key url -> t = Some 10 \/ t = None ->
  always R (urequests_get url t).
Proof.
  intros Hu Ht w. unfold urequests_get.
  destruct (urequests_get_at E (n_get w));
    now apply (alpha_emit (EvGet url t)).
Qed.

Lemma alpha_close (r : response) : always R (response_close r).
Proof. intros w. now apply (alpha_emit EvClose). Qed.

Lemma alpha_lcd_call (ev : event) :
  (lcd <> None -> P ev) -> always R (lcd_call lcd ev).
Proof. apply only_lcd_call. Qed.

Lemma alpha_lcd_clear : always R (lcd_clear lcd).
Proof. apply alpha_lcd_call. intros H. exact H. Qed.

Lemma alpha_lcd_write_lines (line0 line1 : string) :
  always R (lcd_write_lines lcd cols line0 line1).
Proof.
  unfold lcd_write_lines, lcd_set_cursor, lcd_write.
  repeat (apply (always_bind R (only_trans P)); [|intros _]);
    apply alpha_lcd_call; intros H; simpl; eauto.
Qed.

(** One step of a proof that a function stays within [R]. *)
Ltac alpha_step :=
  lazymatch goal with
  | |- always _ (ret _) => apply (always_ret R (only_refl P))
  | |- always _ (raise _) => apply (always_raise R (only_refl P))
  | |- always _ (lift _) => apply (always_lift R (only_refl P))
  | |- always _ out_of_fuel => apply (always_out_of_fuel R (only_refl P))
  | |- always _ (bind _ _) => apply (always_bind R (only_trans P)); [|intros ?]
  | |- always _ (try_except _ _) => apply (always_try R (only_trans P)); [|intros ?]
  | |- always _ (try_except_TypeError _ _) =>
      apply (always_try_TypeError R (only_trans P))
  | |- always _ (attempt _) => apply (always_attempt R)
  | |- always _ (for_in _ _) =>
      apply (always_for_in R (only_refl P) (only_trans P)); intros ?
  | |- always _ (forever _ _) =>
      apply (always_forever R (only_refl P) (only_trans P))
  | |- always _ (log _) => apply alpha_log
  | |- always _ (sleep_ms _) => apply alpha_sleep_ms
  | |- always _ (sleep _) => apply alpha_sleep
  | |- always _ ticks_ms => apply alpha_ticks_ms
  | |- always _ wlan_active => apply alpha_wlan_active
  | |- always _ wlan_isconnected => apply alpha_wlan_isconnected
  | |- always _ wlan_ifconfig => apply alpha_wlan_ifconfig
  | |- always _ localtime_hms => apply alpha_localtime
  | |- always _ (wlan_set_active _) => apply alpha_wlan_set_active
  | |- always _ (wlan_connect _ _) => apply alpha_wlan_connect
  | |- always _ wlan_disconnect => apply alpha_wlan_disconnect
  | |- always _ (getaddrinfo_ip _ _) => apply alpha_getaddrinfo
  | |- always _ (response_close _) => apply alpha_close
  | |- always _ (lcd_clear _) => apply alpha_lcd_clear
  | |- always _ (lcd_write_lines _ _ _ _) => apply alpha_lcd_write_lines
  | |- always _ (if ?b then _ else _) => destruct b
  | |- always _ (match ?x with _ => _ end) => destruct x
  | |- always _ (let _ := _ in _) => cbv zeta
  end.

Ltac alpha := repeat alpha_step.

Lemma alpha_log_netinfo : always R log_netinfo.
Proof. unfold log_netinfo. alpha. Qed.

Lemma alpha_dns_test (host : string) (port : Z) : always R (dns_test host port).
Proof. unfold dns_test. alpha. Qed.

Lemma alpha_wifi_wait (fuel : nat) (start mw : Z) :
  always R (wifi_wait fuel lcd cols start mw).
Proof.
  induction fuel as [|n IH]; simpl; [alpha|].
  alpha; exact IH.
Qed.

Lemma alpha_wifi_connect (fuel : nat) (mw : Z) :
  always R (wifi_connect fuel ssid password lcd cols mw).
Proof.
  unfold wifi_connect. alpha;
    try apply alpha_wifi_wait; try apply alpha_log_netinfo;
    try apply alpha_dns_test.
Qed.

Lemma alpha_wifi_ensure_connected (fuel : nat) :
  always R (wifi_ensure_connected fuel ssid password lcd cols).
Proof.
  unfold wifi_ensure_connected. alpha; try apply alpha_wifi_connect.
Qed.

Lemma alpha_http_get_json (url : string) :
  known_endpoint api_key url -> always R (http_get_json url 10).
Proof.
  intros Hu. unfold http_get_json, http_decode, response_json. alpha;
    try (apply alpha_urequests_get; auto).
Qed.

Lemma alpha_get_geo_by_ip : always R get_geo_by_ip.
Proof.
  unfold get_geo_by_ip, geo_select. alpha;
    try (apply alpha_http_get_json; unfold known_endpoint; auto).
Qed.

Lemma alpha_get_weather (la lo : pyfloat) :
  always R (get_weather_openweathermap api_key la lo).
Proof.
  unfold get_weather_openweathermap. alpha.
  all: try (apply alpha_http_get_json; unfold known_endpoint; eauto).
Qed.

Lemma alpha_show_coords (la lo : pyfloat) (secs : Z) :
  always R (show_coords lcd cols la lo secs).
Proof. unfold show_coords. alpha. Qed.

Lemma alpha_show_error (msg : string) (secs : Z) :
  always R (show_error lcd cols msg secs).
Proof. unfold show_error. alpha. Qed.

Lemma alpha_get_time_string : always R get_time_string.
Proof. unfold get_time_string. alpha. Qed.

Lemma alpha_show_weather_cycle (g : geo) (s : weather) :
  always R (show_weather_cycle lcd cols g s).
Proof.
  unfold show_weather_cycle, screen. alpha; try apply alpha_get_time_string.
Qed.

Lemma alpha_resolve_geo : always R (resolve_geo lcd cols).
Proof.
  unfold resolve_geo. alpha;
    try apply alpha_get_geo_by_ip; try apply alpha_show_error.
Qed.

Lemma alpha_poll_weather (g : geo) (st : loop_state) :
  always R (poll_weather api_key lcd cols g st).
Proof.
  unfold poll_weather. alpha;
    try apply alpha_get_weather; try apply alpha_show_error.
Qed.

Lemma alpha_show_round (g : geo) (st : loop_state) :
  always R (show_round lcd cols g st).
Proof. unfold show_round. alpha; try apply alpha_show_weather_cycle. Qed.

Lemma alpha_main_round (fuel : nat) (g : geo) (st : loop_state) :
  always R (main_round fuel ssid password api_key lcd cols g st).
Proof.
  unfold main_round. alpha; try apply alpha_wifi_ensure_connected;
    try apply alpha_poll_weather; try apply alpha_show_round.
Qed.

Lemma alpha_main_after_wifi (fuel iters : nat) :
  always R (main_after_wifi fuel iters ssid password api_key lcd cols).
Proof.
  unfold main_after_wifi, geo_dead_round. alpha;
    try apply alpha_resolve_geo; try apply alpha_show_error;
    try apply alpha_wifi_ensure_connected; try apply alpha_show_coords.
  apply (always_forever_from R (only_refl P) (only_trans P)).
  intros s. apply alpha_main_round.
Qed.

Lemma alpha_wifi_retry (fuel iters : nat) :
  always R (wifi_retry fuel iters ssid password lcd cols).
Proof.
  induction iters as [|n IH]; simpl; [alpha|].
  alpha; try apply alpha_wifi_ensure_connected. exact IH.
Qed.

Lemma alpha_main_from_wifi (fuel iters : nat) :
  always R (main_from_wifi fuel iters ssid password api_key lcd cols).
Proof.
  unfold main_from_wifi, wifi_gate. alpha;
    try apply alpha_wifi_ensure_connected; try apply alpha_show_error;
    try apply alpha_wifi_retry; try apply alpha_main_after_wifi.
Qed.

Lemma alpha_guarded_main (fuel iters halt : nat) :
  always R (guarded_main
              (main_from_wifi fuel iters ssid password api_key lcd cols) halt).
Proof. unfold guarded_main. alpha. apply alpha_main_from_wifi. Qed.

End Alphabet.

Lemma len_pad_right (s : pyval) (cols : Z) :
  0 <= cols -> len (pad_right s cols) = cols.
Proof.
  intros H. rewrite pad_right_shown. destruct (len (shown s) >? cols) eqn:G.
  - rewrite Z.gtb_ltb in G. apply Z.ltb_lt in G. unfold py_slice_to.
    destruct (cols <? 0) eqn:N; [apply Z.ltb_lt in N; lia|].
    unfold len in *. rewrite length_str_take. lia.
  - rewrite Z.gtb_ltb in G. apply Z.ltb_ge in G.
    unfold len in *. rewrite length_append. unfold py_str_mul.
    rewrite length_spaces. lia.
Qed.

(** X10. In every environment and however the run ends, what main sends
    over HTTP from the first connection on goes to one of three
    addresses: the two of the location lookup and the weather address
    with the configured key; each request has the timeout of 10 s, or
    none when it is the re-issued one.  This holds of runs that end in
    the fatal handler as well. *)
Theorem requests_only_to_known_endpoints (fuel iters halt : nat)
    (ssid password api_key : string) (lcd : option Lcd_i2c) (cols : Z) (w : world) :
  let w' := snd (guarded_main
                   (main_from_wifi fuel iters ssid password api_key lcd cols)
                   halt w) in
  Forall (fun te =>
            match snd te with
            | EvGet url tmo =>
                (url = PRIMARY_URL \/ url = FALLBACK_URL
                 \/ exists la lo, url = weather_url api_key la lo)
                /\ (tmo = Some 10 \/ tmo = None)
            | _ => True
            end) (new_events w w').
Proof.
  intros w'.
  pose proof (only_new_events _ _ _
                (alpha_guarded_main ssid password api_key lcd cols fuel iters halt w))
    as F.
  eapply Forall_impl; [|exact F]. intros [t ev] H. simpl in *.
  destruct ev; try exact I. exact H.
Qed.

(** X11. On a display of [cols >= 0] columns, in every environment and
    however the run ends, every text main writes has exactly [cols]
    characters and every cursor move goes to the start of the first or
    of the second row. *)
Theorem display_calls_fit_the_display (fuel iters halt : nat)
    (ssid password api_key : string) (lcd : option Lcd_i2c) (cols : Z) (w : world) :
  0 <= cols ->
  let w' := snd (guarded_main
                   (main_from_wifi fuel iters ssid password api_key lcd cols)
                   halt w) in
  Forall (fun te =>
            match snd te with
            | EvLcdWrite s => len s = cols
            | EvLcdSetCursor c r => c = 0 /\ (r = 0 \/ r = 1)
            | _ => True
            end) (new_events w w').
Proof.
  intros Hc w'.
  pose proof (only_new_events _ _ _
                (alpha_guarded_main ssid password api_key lcd cols fuel iters halt w))
    as F.
  eapply Forall_impl; [|exact F]. intros [t ev] H. simpl in *.
  destruct ev; try exact I.
  - apply H.
  - destruct H as (_ & line & ->). now apply len_pad_right.
Qed.

(** X12. Without a display ([lcd] is [None]: the driver failed at boot),
    in every environment and however the run ends, main makes no call of
    the display at all. *)
Theorem headless_run_never_draws (fuel iters halt : nat)
    (ssid password api_key : string) (cols : Z) (w : world) :
  let w' := snd (guarded_main
                   (main_from_wifi fuel iters ssid password api_key None cols)
                   halt w) in
  view is_lcd (new_events w w') = [].
Proof.
  intros w'.
  pose proof (only_new_events _ _ _
                (alpha_guarded_main ssid password api_key None cols fuel iters halt w))
    as F.
  fold w' in F. induction (new_events w w') as [|[t ev] l IH]; [reflexivity|].
  inversion F as [|x l' Hx Hl]; subst. unfold view in *. simpl.
  destruct ev; simpl in *; try (now apply IH);
    try (now contradiction Hx); now destruct Hx as (Hx & _).
Qed.

(* ------------------------------------------------------------------ *)
(** * The WiFi calls in any environment *)

Lemma first_up (n K : nat) :
  polls_down n (S K)
  \/ exists k, (k <= K)%nat /\ polls_down n k /\ isconnected_at E (k + n) = true.
Proof.
  induction K as [|K IH].
  - destruct (isconnected_at E n) eqn:X.
    + right. exists 0%nat. split; [lia|]. split; [intros i Hi; lia | exact X].
    + left. intros i Hi. replace i with 0%nat by lia. exact X.
  - destruct IH as [H|(k & Hk & Hd & Hu)].
    + destruct (isconnected_at E (S K + n)) eqn:X.
      * right. exists (S K). split; [lia|]. split; [exact H | exact X].
      * left. intros i Hi. destruct (Nat.eq_dec i (S K)) as [->|Hne];
          [exact X | apply H; lia].
    + right. exists k. split; [lia|]. split; assumption.
Qed.

Lemma give_up_polls_spec (mw : Z) :
  0 <= mw * 1000 ->
  mw * 1000 < 300 * Z.of_nat (give_up_polls mw)
  /\ 300 * (Z.of_nat (give_up_polls mw) - 1) <= mw * 1000.
Proof.
  intros H. unfold give_up_polls.
  pose proof (Z.div_mod (mw * 1000) 300 ltac:(lia)) as D.
  pose proof (Z.mod_pos_bound (mw * 1000) 300 ltac:(lia)) as B.
  assert (0 <= mw * 1000 / 300) by (apply Z.div_pos; lia).
  rewrite Z2Nat.id by lia. lia.
Qed.

(** The wait loop in any environment: it ends at the first poll that is
    answered "connected", or at the first poll past the limit. *)
Lemma wifi_wait_outcome (fuel : nat) (lcd : option Lcd_i2c) (cols mw : Z)
    (w : world) :
  0 <= mw * 1000 -> mw * 1000 + 300 < TICKS_PERIOD / 2 ->
  (give_up_polls mw < fuel)%nat ->
  exists k b w',
    (k <= give_up_polls mw)%nat
    /\ wifi_wait fuel lcd cols (clock w mod TICKS_PERIOD) mw w = (Val b, w')
    /\ waited w w' (300 * Z.of_nat k) (S k)
    /\ polls_down (n_isconnected w) k
    /\ isconnected_at E (k + n_isconnected w) = b
    /\ (b = false -> k = give_up_polls mw).
Proof.
  intros H0 Hlim Hf. destruct (give_up_polls_spec mw H0) as (G1 & G2).
  set (r := give_up_polls mw) in *.
  destruct (first_up (n_isconnected w) r) as [Hd|(k & Hk & Hd & Hu)].
  - pose proof (wifi_wait_timeout r fuel w (clock w) mw lcd cols) as T.
    cbv zeta in T. destruct T as (w' & E' & W'); try lia; [exact Hd|].
    exists r, false, w'. split; [lia|]. split; [exact E'|]. split; [exact W'|].
    split; [intros i Hi; apply Hd; lia|]. split; [apply Hd; lia | reflexivity].
  - pose proof (wifi_wait_up k fuel w (clock w) mw lcd cols) as T.
    cbv zeta in T. destruct T as (w' & E' & W'); try lia; try assumption.
    exists k, true, w'. split; [exact Hk|]. split; [exact E'|]. split; [exact W'|].
    split; [exact Hd|]. split; [exact Hu | discriminate].
Qed.

Lemma down_refl (w : world) : down_span 0 0 w w.
Proof.
  split; [lia|]. split; [lia|]. split; [intros i Hi; lia|].
  exists []. split; [reflexivity | simpl; lia].
Qed.

Lemma down_trans (d1 d2 : Z) (c1 c2 : nat) (a b c : world) :
  down_span d1 c1 a b -> down_span d2 c2 b c -> down_span (d1 + d2) (c1 + c2) a c.
Proof.
  intros (C1 & N1 & P1 & e1 & T1 & L1) (C2 & N2 & P2 & e2 & T2 & L2).
  split; [lia|]. split; [lia|]. split.
  - intros i Hi. destruct (Nat.lt_ge_cases i (n_isconnected b));
      [apply P1 | apply P2]; lia.
  - exists (e2 ++ e1). split; [rewrite T2, T1; apply app_assoc|].
    rewrite view_app, length_app. lia.
Qed.

(** A step that neither polls nor connects. *)
Lemma down_step (dt : Z) (w w' : world) (evs : list (Z * event)) :
  clock w' = clock w + dt -> n_isconnected w' = n_isconnected w ->
  trace w' = evs ++ trace w -> view is_connect evs = [] ->
  down_span dt 0 w w'.
Proof.
  intros C N T V. split; [exact C|]. split; [lia|]. split; [intros i Hi; lia|].
  exists evs. split; [exact T|]. rewrite V. simpl. lia.
Qed.

Lemma span_down (df dm : Z) (c : nat) (a b : world) :
  wifi_span false df dm c a b -> down_span df c a b.
Proof.
  intros (C & F & N & P & L & X).
  split; [now apply F|]. split; [lia|]. split; [|exact X].
  intros i Hi. destruct (Nat.eq_dec i (n_isconnected b - 1)) as [->|Hne];
    [exact L | apply P; lia].
Qed.

Lemma down_then_span (bb : bool) (d1 df dm : Z) (c1 c2 : nat) (a b c : world) :
  0 <= d1 ->
  down_span d1 c1 a b -> wifi_span bb df dm c2 b c ->
  wifi_span bb (d1 + df) (d1 + dm) (c1 + c2) a c.
Proof.
  intros H (C1 & N1 & P1 & e1 & T1 & L1) (C2 & F2 & N2 & P2 & A2 & e2 & T2 & L2).
  split; [lia|]. split; [intros X; rewrite (F2 X); lia|]. split; [lia|].
  split; [|split; [exact A2|]].
  - intros i Hi. destruct (Nat.lt_ge_cases i (n_isconnected b));
      [apply P1 | apply P2]; lia.
  - exists (e2 ++ e1). split; [rewrite T2, T1; apply app_assoc|].
    rewrite view_app, length_app. lia.
Qed.

Lemma span_weaken (df df' dm dm' : Z) (c c' : nat) (a b : world) :
  dm <= dm' -> (c <= c')%nat ->
  wifi_span true df dm c a b -> wifi_span true df' dm' c' a b.
Proof.
  intros Hd Hc (C & F & N & P & L & evs & T & X).
  split; [lia|]. split; [discriminate|]. split; [exact N|].
  split; [exact P|]. split; [exact L|].
  exists evs. split; [exact T | lia].
Qed.

Lemma view_connect_idle (evs : list (Z * event)) :
  forallb (fun te => idle (snd te)) evs = true -> view is_connect evs = [].
Proof.
  apply view_idle. intros [] H; simpl in *; try discriminate; reflexivity.
Qed.

(** Proves [down_span dt 0 w w'] for a world [w'] written out on top of
    [w] by steps that neither poll nor connect. *)
Ltac down_explicit :=
  match goal with
  | |- down_span ?dt _ ?w ?w' =>
      let l := eval simpl in (trace w') in
      let r := ext_prefix l (trace w) in
      apply (down_step dt w w' r); [simpl; lia | reflexivity | reflexivity | reflexivity]
  end.

Lemma down_announced (w : world) : down_span 1000 0 w (announced w).
Proof. unfold announced, probed. down_explicit. Qed.

Lemma connect_issued_once (ssid password : string) (w : world) :
  clock (connect_issued ssid password w) = clock w
  /\ n_isconnected (connect_issued ssid password w) = S (n_isconnected w)
  /\ exists e0, trace (connect_issued ssid password w) = e0 ++ trace w
                /\ List.length (view is_connect e0) = 1%nat.
Proof.
  unfold connect_issued, radio_on. destruct (radio w).
  - split; [reflexivity|]. split; [reflexivity|].
    eexists [_; _]. split; reflexivity.
  - split; [reflexivity|]. split; [reflexivity|].
    eexists [_; _; _]. split; reflexivity.
Qed.

(** [wifi_connect] in any environment. *)
Lemma wifi_connect_outcome (fuel : nat) (ssid password : string)
    (lcd : option Lcd_i2c) (cols mw : Z) (w : world) :
  0 <= mw * 1000 -> mw * 1000 + 300 < TICKS_PERIOD / 2 ->
  (give_up_polls mw < fuel)%nat ->
  exists b w',
    wifi_connect fuel ssid password lcd cols mw w = (Val b, w')
    /\ wifi_span b (300 * Z.of_nat (give_up_polls mw))
         (300 * Z.of_nat (give_up_polls mw) + 1000) 1 w w'.
Proof.
  intros H0 Hlim Hf. rewrite wifi_connect_run.
  pose proof (wifi_wait_outcome fuel lcd cols mw) as Wait.
  pose proof (Nat2Z.is_nonneg (give_up_polls mw)) as Hg.
  set (r := give_up_polls mw) in *.
  set (d := 300 * Z.of_nat r) in *.
  assert (Hd0 : 0 <= d) by (subst d; lia).
  assert (Hdk : forall k, (k <= r)%nat -> 300 * Z.of_nat k <= d) by (subst d; lia).
  assert (Hdr : 300 * Z.of_nat r = d) by reflexivity.
  clearbody d. clearbody r.
  destruct (isconnected_at E (n_isconnected w)) eqn:C0.
  - exists true, (bump_isconnected (radio_on w)). split; [reflexivity|].
    assert (X : clock (radio_on w) = clock w
                /\ n_isconnected (radio_on w) = n_isconnected w
                /\ exists e0, trace (radio_on w) = e0 ++ trace w
                              /\ view is_connect e0 = []).
    { unfold radio_on. destruct (radio w).
      - split; [reflexivity|]. split; [reflexivity|]. exists []. split; reflexivity.
      - split; [reflexivity|]. split; [reflexivity|].
        eexists [_]. split; reflexivity. }
    destruct X as (Xc & Xn & e0 & Xt & Xv).
    split; [cbn [clock bump_isconnected]; lia|]. split; [discriminate|].
    split; [cbn [n_isconnected bump_isconnected]; lia|].
    split; [cbn [n_isconnected bump_isconnected]; intros i Hi; lia|].
    split.
    { cbn [n_isconnected bump_isconnected]. rewrite Xn.
      replace (S (n_isconnected w) - 1)%nat with (n_isconnected w) by lia.
      exact C0. }
    exists e0. split; [exact Xt|]. rewrite Xv. apply Nat.le_0_l.
  - destruct (connect_issued_once ssid password w) as (Hc0 & Hn0 & e0 & T0 & L0).
    set (w0 := connect_issued ssid password w) in *. clearbody w0.
    destruct (Wait w0 H0 Hlim Hf)
      as (k & b & w1 & Hk & E1 & W1 & Hd & Hb & Hr).
    specialize (Hdk k Hk).
    rewrite Hc0 in E1. rewrite E1.
    destruct W1 as (Hc1 & _ & Hn1 & _ & _ & _ & _ & e1 & T1 & F1).
    pose proof (view_connect_idle e1 F1) as V1.
    assert (Hpolls : forall i, (n_isconnected w <= i < S k + n_isconnected w0 - 1)%nat ->
                               isconnected_at E i = false).
    { intros i Hi. destruct (Nat.eq_dec i (n_isconnected w)) as [->|Hne];
        [exact C0|].
      replace i with ((i - n_isconnected w0) + n_isconnected w0)%nat by lia.
      apply Hd. lia. }
    assert (Hlast : isconnected_at E (S k + n_isconnected w0 - 1) = b).
    { replace (S k + n_isconnected w0 - 1)%nat with (k + n_isconnected w0)%nat by lia.
      exact Hb. }
    assert (Hlen : (List.length (view is_connect (e1 ++ e0)) <= 1)%nat).
    { rewrite view_app, length_app, V1, L0. apply Nat.le_refl. }
    assert (Hdown : b = false -> down_span d 1 w w1).
    { intros Hbf. specialize (Hr Hbf). subst k.
      split; [lia|]. split; [lia|]. split.
      - intros i Hi. destruct (Nat.eq_dec i (n_isconnected w1 - 1)) as [->|Hne].
        + rewrite Hn1, Hlast. exact Hbf.
        + apply Hpolls. lia.
      - exists (e1 ++ e0). split; [|exact Hlen].
        rewrite T1, T0. apply app_assoc. }
    destruct b.
    + rewrite announce_connection_run. exists true, (announced w1).
      split; [reflexivity|].
      destruct (down_announced w1) as (Ca & Na & _ & ea & Ta & La).
      assert (Na' : n_isconnected (announced w1) = n_isconnected w1) by reflexivity.
      split; [lia|]. split; [discriminate|]. split; [lia|].
      split; [rewrite Na', Hn1; exact Hpolls|].
      split; [rewrite Na', Hn1; exact Hlast|].
      exists (ea ++ e1 ++ e0). split.
      * rewrite Ta, T1, T0. now rewrite <- !app_assoc.
      * rewrite view_app, length_app. lia.
    + exists false, w1. split; [reflexivity|].
      destruct (Hdown eq_refl) as (Dc & Dn & Dp & Dx).
      split; [lia|]. split; [intros _; lia|]. split; [lia|].
      split; [rewrite Hn1; exact Hpolls|].
      split; [rewrite Hn1; exact Hlast|]. exact Dx.
Qed.

Lemma down_log (msg : string) (w : world) : down_span 0 0 w (after_log msg w).
Proof.
  apply (down_step 0 w _ [(clock w, EvLog (log_line (clock w mod TICKS_PERIOD) msg))]);
    try reflexivity. simpl. lia.
Qed.

Lemma down_sleep (ms : Z) (w : world) :
  down_span ms 0 w (advance ms (emit_at (EvSleep ms) w)).
Proof. apply (down_step ms w _ [(clock w, EvSleep ms)]); reflexivity. Qed.

(** One round of the retry loop in any environment: connected within
    21.1 s, or given up after 20.6 s with all polls answered "not
    connected". *)
Lemma reconnect_attempt_outcome (fuel : nat) (ssid password : string)
    (lcd : option Lcd_i2c) (cols attempt : Z) (w : world) :
  (85 <= fuel)%nat ->
  exists o w',
    reconnect_attempt fuel ssid password lcd cols attempt w = (Val o, w')
    /\ match o with
       | Some b => b = true /\ wifi_span true 0 21100 1 w w'
       | None => down_span 20600 1 w w'
       end.
Proof.
  intros Hf. unfold reconnect_attempt, bind at 1. rewrite log_run.
  set (w0 := after_log (py_format "WiFi reconnect attempt {}" [PInt attempt]) w).
  destruct (wifi_connect_outcome fuel ssid password lcd cols 20 w0)
    as (b & w1 & E1 & S1);
    try (change (TICKS_PERIOD / 2) with 536870912); try lia;
    [change (give_up_polls 20) with 67%nat; lia|].
  change (give_up_polls 20) with 67%nat in S1.
  change (300 * Z.of_nat 67) with 20100 in S1.
  unfold bind at 1. rewrite E1. destruct b; cbv iota.
  - exists (Some true), w1. split; [reflexivity|]. split; [reflexivity|].
    apply (span_weaken (0 + 20100) 0 (0 + (20100 + 1000)) 21100 (0 + 1) 1);
      [lia | lia|].
    apply (down_then_span true 0 20100 (20100 + 1000) 0 1 w w0 w1);
      [lia | apply down_log | exact S1].
  - unfold bind, sleep_ms, ret. eexists None, _. split; [reflexivity|].
    apply (down_trans (0 + 20100) 500 (0 + 1) 0 w w1);
      [|apply down_sleep].
    apply (down_trans 0 20100 0 1 w w0 w1); [apply down_log|].
    exact (span_down _ _ _ _ _ S1).
Qed.

Lemma down_set_active (b : bool) (w : world) :
  down_span 0 0 w (set_radio b (emit_at (EvWlanActive b) w)).
Proof.
  apply (down_step 0 w _ [(clock w, EvWlanActive b)]); try reflexivity.
  simpl. lia.
Qed.

Lemma down_disconnect (w : world) :
  exists w', try_except wlan_disconnect (fun _ => ret tt) w = (Val tt, w')
             /\ down_span 0 0 w w'.
Proof.
  unfold try_except, wlan_disconnect.
  destruct (disconnect_at E (n_disconnect w)); eexists; (split; [reflexivity|]);
    (apply (down_step 0 w _ [(clock w, EvWlanDisconnect)]); try reflexivity;
     simpl; lia).
Qed.

(** The reset of main.py 146-156, whatever follows it: 600 ms, no poll,
    no connect. *)
Lemma hard_reset_then {A : Type} (k : M A) (w : world) :
  exists w6,
    (log "WiFi hard reset interface" ;;
     try_except wlan_disconnect (fun _ => ret tt) ;;
     sleep_ms 200 ;;
     wlan_set_active false ;;
     sleep_ms 200 ;;
     wlan_set_active true ;;
     sleep_ms 200 ;;
     k) w = k w6
    /\ down_span 600 0 w w6.
Proof.
  unfold bind at 1. rewrite log_run.
  pose proof (down_log "WiFi hard reset interface" w) as D.
  set (w1 := after_log "WiFi hard reset interface" w) in *. clearbody w1.
  unfold bind at 1. destruct (down_disconnect w1) as (w2 & -> & D2).
  pose proof (down_trans _ _ _ _ _ _ _ D D2) as D'. clear D D2 w1.
  unfold bind at 1, sleep_ms.
  pose proof (down_trans _ _ _ _ _ _ _ D' (down_sleep 200 w2)) as D. clear D'.
  set (w3 := advance 200 (emit_at (EvSleep 200) w2)) in *. clearbody w3. clear w2.
  unfold bind at 1, wlan_set_active.
  pose proof (down_trans _ _ _ _ _ _ _ D (down_set_active false w3)) as D'. clear D.
  set (w4 := set_radio false (emit_at (EvWlanActive false) w3)) in *.
  clearbody w4. clear w3.
  unfold bind at 1.
  pose proof (down_trans _ _ _ _ _ _ _ D' (down_sleep 200 w4)) as D. clear D'.
  set (w5 := advance 200 (emit_at (EvSleep 200) w4)) in *. clearbody w5. clear w4.
  unfold bind at 1.
  pose proof (down_trans _ _ _ _ _ _ _ D (down_set_active true w5)) as D'. clear D.
  set (w6 := set_radio true (emit_at (EvWlanActive true) w5)) in *.
  clearbody w6. clear w5.
  unfold bind at 1.
  pose proof (down_trans _ _ _ _ _ _ _ D' (down_sleep 200 w6)) as D. clear D'.
  eexists. split; [reflexivity|]. exact D.
Qed.

(** [wifi_ensure_connected] in any environment. *)
Lemma wifi_ensure_connected_outcome (fuel : nat) (ssid password : string)
    (lcd : option Lcd_i2c) (cols : Z) (w : world) :
  (85 <= fuel)%nat ->
  exists b w',
    wifi_ensure_connected fuel ssid password lcd cols w = (Val b, w')
    /\ wifi_span b 87600 88600 4 w w'.
Proof.
  intros Hf. unfold wifi_ensure_connected, bind at 1, wlan_isconnected.
  destruct (isconnected_at E (n_isconnected w)) eqn:C0.
  - exists true, (bump_isconnected w). split; [reflexivity|].
    split; [simpl; lia|]. split; [discriminate|]. split; [simpl; lia|].
    split; [simpl; intros i Hi; lia|].
    split; [simpl; rewrite Nat.sub_0_r; exact C0|].
    exists []. split; [reflexivity | simpl; lia].
  - fold (reconnect_attempt fuel ssid password lcd cols).
    set (w0 := bump_isconnected w).
    assert (D0 : down_span 0 0 w w0).
    { split; [simpl; lia|]. split; [simpl; lia|]. split.
      - simpl. intros i Hi. replace i with (n_isconnected w) by lia. exact C0.
      - exists []. split; [reflexivity | simpl; lia]. }
    clearbody w0.
    assert (Early : forall d c w1,
               0 <= d <= 61800 -> (c <= 3)%nat ->
               down_span d c w w1 ->
               forall w2, wifi_span true 0 21100 1 w1 w2 ->
                          wifi_span true 87600 88600 4 w w2).
    { intros d c w1 Hd Hc D w2 S2.
      apply (span_weaken (d + 0) 87600 (d + 21100) 88600 (c + 1) 4); [lia | lia|].
      apply (down_then_span true d 0 21100 c 1 w w1 w2); [lia | exact D | exact S2]. }
    unfold bind at 1. simpl for_in.
    destruct (reconnect_attempt_outcome fuel ssid password lcd cols 1 w0 Hf)
      as (o1 & w1 & E1 & O1).
    unfold bind at 1. rewrite E1. destruct o1 as [b1|]; cbv iota.
    { destruct O1 as (-> & S1). unfold ret. exists true, w1.
      split; [reflexivity|]. apply (Early 0 0%nat w0); try lia; assumption. }
    pose proof (down_trans _ _ _ _ _ _ _ D0 O1) as D1.
    destruct (reconnect_attempt_outcome fuel ssid password lcd cols 2 w1 Hf)
      as (o2 & w2 & E2 & O2).
    unfold bind at 1. rewrite E2. destruct o2 as [b2|]; cbv iota.
    { destruct O2 as (-> & S2). unfold ret. exists true, w2.
      split; [reflexivity|]. apply (Early (0 + 20600) (0 + 1)%nat w1 ltac:(lia) ltac:(lia) D1 w2 S2). }
    pose proof (down_trans _ _ _ _ _ _ _ D1 O2) as D2.
    destruct (reconnect_attempt_outcome fuel ssid password lcd cols 3 w2 Hf)
      as (o3 & w3 & E3 & O3).
    unfold bind at 1. rewrite E3. destruct o3 as [b3|]; cbv iota.
    { destruct O3 as (-> & S3). unfold ret. exists true, w3.
      split; [reflexivity|]. apply (Early (0 + 20600 + 20600) (0 + 1 + 1)%nat w2 ltac:(lia) ltac:(lia) D2 w3 S3). }
    pose proof (down_trans _ _ _ _ _ _ _ D2 O3) as D3.
    unfold ret at 1. cbv iota beta.
    destruct (hard_reset_then (wifi_connect fuel ssid password lcd cols 25) w3)
      as (w6 & -> & D6).
    pose proof (down_trans _ _ _ _ _ _ _ D3 D6) as D.
    destruct (wifi_connect_outcome fuel ssid password lcd cols 25 w6)
      as (b & w7 & E7 & S7);
      try (change (TICKS_PERIOD / 2) with 536870912); try lia;
      [change (give_up_polls 25) with 84%nat; lia|].
    change (give_up_polls 25) with 84%nat in S7.
    change (300 * Z.of_nat 84) with 25200 in S7.
    rewrite E7. exists b, w7. split; [reflexivity|].
    exact (down_then_span b (0 + 20600 + 20600 + 20600 + 600) 25200
             (25200 + 1000) (0 + 1 + 1 + 1 + 0) 1 w w6 w7 ltac:(lia) D S7).
Qed.

Lemma length_view_new_events (p : event -> bool) (w w' : world)
    (evs : list (Z * event)) :
  trace w' = evs ++ trace w ->
  List.length (view p (new_events w w')) = List.length (view p evs).
Proof.
  intros T. rewrite (new_events_ext w w' evs T), view_rev. apply length_rev.
Qed.

(** X13. In every environment [wifi_ensure_connected] returns, and no
    later than 88.6 s after the call; when it returns [False] it does so
    after exactly 87.6 s.  It sends at most four connects. *)
Theorem wifi_ensure_connected_deadline (fuel : nat) (ssid password : string)
    (lcd : option Lcd_i2c) (cols : Z) (w : world) :
  (85 <= fuel)%nat ->
  exists b w',
    wifi_ensure_connected fuel ssid password lcd cols w = (Val b, w')
    /\ clock w <= clock w' <= clock w + 88600
    /\ (b = false -> clock w' = clock w + 87600)
    /\ (List.length (view is_connect (new_events w w')) <= 4)%nat.
Proof.
  intros Hf.
  destruct (wifi_ensure_connected_outcome fuel ssid password lcd cols w Hf)
    as (b & w' & E1 & C & F & _ & _ & _ & evs & T & L).
  exists b, w'. split; [exact E1|]. split; [exact C|]. split; [exact F|].
  now rewrite (length_view_new_events is_connect w w' evs T).
Qed.

(** X14. What [wifi_ensure_connected] returns is what the interface
    answered to the last poll of the call, and every poll of the call
    before that one was answered "not connected": the call stops at the
    first poll that finds a connection, and it returns [False] only
    when no poll found one. *)
Theorem wifi_verdict_is_last_poll (fuel : nat) (ssid password : string)
    (lcd : option Lcd_i2c) (cols : Z) (w : world) :
  (85 <= fuel)%nat ->
  exists b w',
    wifi_ensure_connected fuel ssid password lcd cols w = (Val b, w')
    /\ (n_isconnected w < n_isconnected w')%nat
    /\ isconnected_at E (n_isconnected w' - 1) = b
    /\ (forall i, (n_isconnected w <= i < n_isconnected w' - 1)%nat ->
                  isconnected_at E i = false).
Proof.
  intros Hf.
  destruct (wifi_ensure_connected_outcome fuel ssid password lcd cols w Hf)
    as (b & w' & E1 & _ & _ & N & P & L & _).
  exists b, w'. auto.
Qed.

(* ------------------------------------------------------------------ *)
(** * Waiting for the first connection *)

Lemma show_error_polls (lcd : option Lcd_i2c) (cols : Z) (msg : string)
    (secs : Z) (w : world) :
  exists w',
    show_error lcd cols msg secs w = (Val tt, w')
    /\ clock w' = clock w + 1000 * secs
    /\ n_isconnected w' = n_isconnected w.
Proof.
  destruct (show_error_spec lcd cols msg secs w) as (w1 & E1 & Q).
  eexists. split; [exact E1|].
  destruct Q as (Qc & _ & Qn & _). simpl in *. split; [lia | exact Qn].
Qed.

Lemma wifi_retry_passes (fuel iters : nat) (ssid password : string)
    (lcd : option Lcd_i2c) (cols : Z) :
  (85 <= fuel)%nat ->
  forall w w',
    wifi_retry fuel iters ssid password lcd cols w = (Val tt, w') ->
    (n_isconnected w < n_isconnected w')%nat
    /\ isconnected_at E (n_isconnected w' - 1) = true.
Proof.
  intros Hf. induction iters as [|n IH]; intros w w'; simpl; [discriminate|].
  destruct (wifi_ensure_connected_outcome fuel ssid password lcd cols w Hf)
    as (b & w1 & E1 & _ & _ & N & _ & L & _).
  unfold bind at 1. rewrite E1. destruct b.
  - unfold ret. intros H; injection H as <-. split; [exact N | exact L].
  - unfold bind at 1, sleep, sleep_ms. intros H. apply IH in H. simpl in H.
    split; [lia | apply H].
Qed.

Lemma wifi_retry_blocked (fuel iters : nat) (ssid password : string)
    (lcd : option Lcd_i2c) (cols : Z) :
  (85 <= fuel)%nat ->
  forall w,
    never_up (n_isconnected w) ->
    exists w',
      wifi_retry fuel iters ssid password lcd cols w = (OutOfFuel, w')
      /\ clock w' = clock w + 89600 * Z.of_nat iters
      /\ offline w w'.
Proof.
  intros Hf. induction iters as [|n IH]; intros w Hd; simpl.
  - exists w. split; [reflexivity|]. split; [lia | apply offline_refl].
  - destruct (wifi_ensure_connected_outcome fuel ssid password lcd cols w Hf)
      as (b & w1 & E1 & _ & F & N & _ & L & _).
    destruct (returns_wifi_ensure_connected fuel ssid password lcd cols w Hf)
      as (b' & w1' & E1' & O1 & _).
    rewrite E1 in E1'. injection E1' as <- <-.
    assert (b = false) as -> by (rewrite <- L; apply Hd; lia).
    specialize (F eq_refl).
    unfold bind at 1. rewrite E1. unfold bind at 1, sleep, sleep_ms.
    set (w2 := advance (1000 * 2) (emit_at (EvSleep (1000 * 2)) w1)).
    assert (O2 : offline w1 w2).
    { split; [simpl; lia|]. split; [reflexivity|]. split; [simpl; lia|].
      eexists [_]. split; reflexivity. }
    assert (C2 : clock w2 = clock w1 + 2000) by reflexivity.
    assert (N2 : n_isconnected w2 = n_isconnected w1) by reflexivity.
    clearbody w2.
    destruct (IH w2) as (w' & E' & C' & O').
    { intros i Hi. apply Hd. lia. }
    exists w'. split; [exact E'|]. split; [lia|].
    eapply offline_trans; [exact O1|]. eapply offline_trans; [exact O2 | exact O'].
Qed.

(** X15. The gate before the location lookup (main.py 399-404).  An
    interface that is connected at the first poll lets main through at
    once, with no error screen.  Whenever the gate lets main through,
    the last poll before that was answered "connected".  And while the
    interface answers "not connected" the gate does not open: it shows
    "WiFi failed" and then goes round, 89.6 s a round (87.6 s of
    connecting, 2 s of pause), without a single HTTP request. *)
Theorem wifi_gate_opens_on_connection (fuel iters : nat) (ssid password : string)
    (lcd : option Lcd_i2c) (cols : Z) (w : world) :
  (85 <= fuel)%nat ->
  (isconnected_at E (n_isconnected w) = true ->
   wifi_gate fuel iters ssid password lcd cols w = (Val tt, bump_isconnected w))
  /\ (forall w',
        wifi_gate fuel iters ssid password lcd cols w = (Val tt, w') ->
        (n_isconnected w < n_isconnected w')%nat
        /\ isconnected_at E (n_isconnected w' - 1) = true)
  /\ (never_up (n_isconnected w) ->
      exists w',
        wifi_gate fuel iters ssid password lcd cols w = (OutOfFuel, w')
        /\ clock w' = clock w + 89600 * (Z.of_nat iters + 1)
        /\ view is_http (new_events w w') = []
        /\ In (log_at (clock w + 87600) (py_format "ERROR: {}" [PStr "WiFi failed"]))
             (new_events w w')).
Proof.
  intros Hf.
  destruct (wifi_ensure_connected_outcome fuel ssid password lcd cols w Hf)
    as (b & w1 & E1 & _ & F & N & _ & L & _).
  destruct (returns_wifi_ensure_connected fuel ssid password lcd cols w Hf)
    as (b' & w1' & E1' & O1 & _).
  rewrite E1 in E1'. injection E1' as <- <-.
  split; [|split].
  - intros Hup. unfold wifi_gate, bind.
    unfold wifi_ensure_connected, bind, wlan_isconnected. now rewrite Hup.
  - intros w'. unfold wifi_gate, bind at 1. rewrite E1.
    destruct b; [change (negb true) with false | change (negb false) with true];
      cbv iota.
    + unfold ret. intros H; injection H as <-. split; [exact N | exact L].
    + destruct (show_error_polls lcd cols "WiFi failed" 2 w1) as (w2 & E2 & _ & N2).
      unfold bind at 1. rewrite E2. intros H.
      apply (wifi_retry_passes fuel iters ssid password lcd cols Hf) in H.
      split; [lia | apply H].
  - intros Hd.
    assert (b = false) as -> by (rewrite <- L; apply Hd; lia).
    specialize (F eq_refl).
    unfold wifi_gate, bind at 1. rewrite E1. change (negb false) with true.
    cbv iota.
    destruct (show_error_spec lcd cols "WiFi failed" 2 w1) as (w2 & E2 & Q2).
    destruct (returns_show_error lcd cols "WiFi failed" 2 ltac:(lia) w1)
      as ([] & w3 & E3 & O3).
    rewrite E2 in E3. injection E3 as E3.
    set (w3' := advance (1000 * 2) (emit_at (EvSleep (1000 * 2)) w2)) in *.
    assert (C3 : clock w3' = clock w1 + 2000).
    { subst w3'. destruct Q2 as (Qc & _). simpl in *. lia. }
    assert (N3 : n_isconnected w3' = n_isconnected w1).
    { subst w3'. destruct Q2 as (_ & _ & Qn & _). simpl in *. exact Qn. }
    assert (T3 : exists e3, trace w3' = e3 ++ trace w1
                            /\ In (log_at (clock w1) (py_format "ERROR: {}" [PStr "WiFi failed"])) e3).
    { subst w3'. destruct Q2 as (_ & _ & _ & _ & _ & _ & _ & evs & T & _).
      simpl in T. eexists (_ :: evs ++ [_]). split.
      - simpl. rewrite T. now rewrite <- app_assoc.
      - right. apply in_or_app. right. left. reflexivity. }
    assert (O3' : offline w1 w3') by (rewrite <- E3 in O3; exact O3).
    clearbody w3'. clear E3 O3 w3.
    unfold bind at 1. rewrite E2.
    destruct (wifi_retry_blocked fuel iters ssid password lcd cols Hf w3')
      as (w' & E' & C' & O').
    { intros i Hi. apply Hd. lia. }
    exists w'. split; [exact E'|]. split; [lia|].
    pose proof (offline_trans _ _ _ O1 (offline_trans _ _ _ O3' O')) as O.
    destruct O as (_ & _ & _ & evs & T & Fh).
    rewrite (new_events_ext w w' evs T). split.
    + rewrite view_rev, (view_offline is_http evs);
        [reflexivity | intros ev Hev; exact Hev | exact Fh].
    + destruct T3 as (e3 & T3 & I3). destruct O1 as (_ & _ & _ & e1 & T1 & _).
      destruct O' as (_ & _ & _ & e' & T' & _).
      assert (evs = e' ++ e3 ++ e1).
      { apply (app_inv_tail (trace w)). rewrite <- T, T', T3, T1.
        now rewrite <- !app_assoc. }
      subst evs. rewrite <- in_rev. apply in_or_app. right.
      apply in_or_app. left. rewrite <- F. exact I3.
Qed.

(* ------------------------------------------------------------------ *)
(** * Around main *)

Lemma forever_sleep (n : nat) (w : world) :
  exists w',
    forever n (sleep 1) w = (OutOfFuel, w')
    /\ clock w' = clock w + 1000 * Z.of_nat n
    /\ trace w' = rev (naps n 1000 (clock w)) ++ trace w.
Proof.
  revert w. induction n as [|n IH]; intros w.
  - exists w. split; [reflexivity|]. split; [simpl; lia | reflexivity].
  - cbn [forever]. unfold bind at 1, sleep, sleep_ms.
    set (w1 := advance (1000 * 1) (emit_at (EvSleep (1000 * 1)) w)).
    assert (C1 : clock w1 = clock w + 1000) by reflexivity.
    assert (T1 : trace w1 = (clock w, EvSleep 1000) :: trace w) by reflexivity.
    clearbody w1. destruct (IH w1) as (w' & E' & C' & T').
    exists w'. split; [exact E'|]. split; [lia|].
    rewrite T', T1, C1. cbn [naps rev]. now rewrite <- app_assoc.
Qed.

(** X16. The handler around main (main.py 471-476).  An exception that
    leaves main is logged as "FATAL: ..." with its message, and from
    then on the firmware only sleeps, one second at a time: no request,
    no display call, no command to the interface, for as long as it is
    left running.  A main that does not raise is not touched. *)
Theorem fatal_error_halts (main : M unit) (iters : nat) (w : world) :
  (forall e w1,
     main w = (Raise e, w1) ->
     exists w',
       guarded_main main iters w = (OutOfFuel, w')
       /\ clock w' = clock w1 + 1000 * Z.of_nat iters
       /\ new_events w1 w'
          = log_at (clock w1) (py_format "FATAL: {}" [PStr (exn_msg e)])
            :: naps iters 1000 (clock w1))
  /\ (forall r, (forall e, r <> Raise e) ->
        forall w1, main w = (r, w1) -> guarded_main main iters w = (r, w1)).
Proof.
  split.
  - intros e w1 Hm. unfold guarded_main, try_except. rewrite Hm.
    unfold bind at 1. rewrite log_run.
    set (w2 := after_log (py_format "FATAL: {}" [PStr (exn_msg e)]) w1).
    destruct (forever_sleep iters w2) as (w' & E' & C' & T').
    exists w'. split; [exact E'|]. split; [exact C'|].
    rewrite (new_events_ext w1 w'
               (rev (naps iters 1000 (clock w1))
                ++ [log_at (clock w1) (py_format "FATAL: {}" [PStr (exn_msg e)])])).
    + rewrite rev_app_distr, rev_involutive. reflexivity.
    + rewrite T'. subst w2. cbn [trace after_log emit_at clock].
      now rewrite <- app_assoc.
  - intros r Hr w1 Hm. unfold guarded_main, try_except. rewrite Hm.
    destruct r as [a|e|]; try reflexivity. now contradiction (Hr e).
Qed.

(** X17. The settings main reads (main.py 345-354).  Without an [lcd]
    section the five display settings are 0, 0, 1, 16 and 2; with one,
    every key that is missing takes its default and every integer is
    taken as it is, with no check of its range.  The three credentials
    are read with [safe_get] and default to the empty string, so a
    configuration without them is accepted.  A configuration that is
    not a JSON object raises an [AttributeError] at [cfg.get]. *)
Theorem read_settings_defaults (cfg : pyval) :
  let ssid := safe_get cfg ["wifi"; "ssid"] (PStr "") in
  let password := safe_get cfg ["wifi"; "password"] (PStr "") in
  let api_key := safe_get cfg ["openweathermap"; "api_key"] (PStr "") in
  (forall d, cfg = PDict d -> assoc "lcd" d = None ->
     read_settings cfg = Val (mkSettings ssid password api_key 0 0 1 16 2))
  /\ (forall d l, cfg = PDict d -> assoc "lcd" d = Some (PDict l) ->
        forallb (int_or_missing l) ["i2c_id"; "sda_pin"; "scl_pin"; "cols"; "rows"]
        = true ->
        read_settings cfg
        = Val (mkSettings ssid password api_key
                 (int_or l "i2c_id" 0) (int_or l "sda_pin" 0) (int_or l "scl_pin" 1)
                 (int_or l "cols" 16) (int_or l "rows" 2)))
  /\ ((forall d, cfg <> PDict d) ->
      exists e, read_settings cfg = Raise e /\ exn_cls e = AttributeError)
  /\ (forall d, cfg = PDict d -> assoc "wifi" d = None ->
        ssid = PStr "" /\ password = PStr "").
Proof.
  intros ssid password api_key. split; [|split; [|split]].
  - intros d -> Hl. subst ssid password api_key.
    unfold read_settings. simpl py_get. rewrite Hl. reflexivity.
  - intros d l -> Hl Hk. subst ssid password api_key.
    unfold read_settings. simpl py_get. rewrite Hl. unfold obind at 1.
    assert (X : forall k dflt, int_or_missing l k = true ->
                  int_setting (PDict l) k dflt = Val (int_or l k dflt)).
    { intros k dflt. unfold int_or_missing, int_setting, int_or. simpl.
      destruct (assoc k l) as [[]|]; try discriminate; reflexivity. }
    simpl in Hk.
    repeat (apply andb_prop in Hk as (?H & Hk)).
    rewrite !X by assumption. reflexivity.
  - intros Hn. destruct cfg; try (eexists; split; reflexivity).
    now contradiction (Hn d).
  - intros d -> Hw. subst ssid password. unfold safe_get. simpl.
    now rewrite Hw.
Qed.

(* ------------------------------------------------------------------ *)
(** * The screens *)

Lemma trace_painted (cols : Z) (a b : string) (w : world) :
  trace (painted cols a b w) = rev (screen_events cols a b (clock w)) ++ trace w.
Proof. reflexivity. Qed.

(** X18. [lcd_write_lines] makes four calls of the driver, in one
    order: cursor to the first row, the first line padded to the width,
    cursor to the second row, the second line padded.  It stops at the
    first call the driver refuses and raises what the driver raised, so
    a failure at call [k] leaves the first [k] calls done; nothing is
    retried.  Without a display object the first call raises at once. *)
Theorem lcd_write_lines_stops_at_failure (cols : Z) (line0 line1 : string)
    (w : world) :
  (forall l, lcd_healthy (n_lcd w) 4 ->
     exists w',
       lcd_write_lines (Some l) cols line0 line1 w = (Val tt, w')
       /\ new_events w w'
          = map (fun ev => (clock w, ev)) (line_calls cols line0 line1)
       /\ n_lcd w' = (4 + n_lcd w)%nat)
  /\ (forall l k e, (k < 4)%nat -> lcd_healthy (n_lcd w) k ->
        lcd_at E (k + n_lcd w) = Some e ->
        exists w',
          lcd_write_lines (Some l) cols line0 line1 w = (Raise e, w')
          /\ new_events w w'
             = map (fun ev => (clock w, ev))
                 (firstn k (line_calls cols line0 line1))
          /\ n_lcd w' = (S k + n_lcd w)%nat)
  /\ (exists e, lcd_write_lines None cols line0 line1 w = (Raise e, w)
                /\ exn_cls e = AttributeError).
Proof.
  split; [|split].
  - intros l H.
    unfold lcd_write_lines, lcd_set_cursor, lcd_write, bind.
    rewrite lcd_call_ok by (apply (H 0%nat); lia).
    rewrite lcd_call_ok by (apply (H 1%nat); lia).
    rewrite lcd_call_ok by (apply (H 2%nat); lia).
    rewrite lcd_call_ok by (apply (H 3%nat); lia).
    eexists. split; [reflexivity|]. split; [|reflexivity].
    now rewrite (new_events_ext w _ (rev (map (fun ev => (clock w, ev))
                                            (line_calls cols line0 line1))))
      by reflexivity; rewrite rev_involutive.
  - intros l k e Hk H He.
    assert (Hfail : forall ev w1, lcd_at E (n_lcd w1) = Some e ->
                      lcd_call (Some l) ev w1 = (Raise e, bump_lcd w1)).
    { intros ev w1 X. unfold lcd_call. now rewrite X. }
    unfold lcd_write_lines, lcd_set_cursor, lcd_write, bind.
    destruct k as [|[|[|[|k]]]]; try lia.
    + rewrite Hfail by exact He.
      eexists. split; [reflexivity|]. split; [|reflexivity].
      now rewrite (new_events_ext w _ []) by reflexivity.
    + rewrite lcd_call_ok by (apply (H 0%nat); lia).
      rewrite Hfail by exact He.
      eexists. split; [reflexivity|]. split; [|reflexivity].
      now rewrite (new_events_ext w _ [_]) by reflexivity.
    + rewrite lcd_call_ok by (apply (H 0%nat); lia).
      rewrite lcd_call_ok by (apply (H 1%nat); lia).
      rewrite Hfail by exact He.
      eexists. split; [reflexivity|]. split; [|reflexivity].
      now rewrite (new_events_ext w _ [_; _]) by reflexivity.
    + rewrite lcd_call_ok by (apply (H 0%nat); lia).
      rewrite lcd_call_ok by (apply (H 1%nat); lia).
      rewrite lcd_call_ok by (apply (H 2%nat); lia).
      rewrite Hfail by exact He.
      eexists. split; [reflexivity|]. split; [|reflexivity].
      now rewrite (new_events_ext w _ [_; _; _]) by reflexivity.
  - eexists. split; reflexivity.
Qed.

(** X19. [show_error] in full.  It always returns, after exactly
    [seconds] s, and logs "ERROR: msg" first.  Without a display that
    is all.  On a display whose driver takes the calls it clears it and
    writes "ERROR" and the message, cut to the width, then waits.  When
    the driver refuses the first call, that failure is logged and the
    wait still takes place. *)
Theorem show_error_screen (lcd : option Lcd_i2c) (cols : Z) (msg : string)
    (secs : Z) (w : world) :
  let c := clock w in
  let said := log_at c (py_format "ERROR: {}" [PStr msg]) in
  let nap := (c, EvSleep (1000 * secs)) in
  exists w',
    show_error lcd cols msg secs w = (Val tt, w')
    /\ clock w' = c + 1000 * secs
    /\ (lcd = None -> new_events w w' = [said; nap])
    /\ (forall l, lcd = Some l -> lcd_healthy (n_lcd w) 5 ->
          new_events w w'
          = said :: screen_events cols "ERROR" (clamp_str (PStr msg) cols) c
                 ++ [nap])
    /\ (forall l e, lcd = Some l -> lcd_at E (n_lcd w) = Some e ->
          new_events w w'
          = [said;
             log_at c (py_format "LCD show_error failed: {}" [PStr (exn_msg e)]);
             nap]).
Proof.
  intros c said nap.
  destruct (show_error_polls lcd cols msg secs w) as (w' & E1 & C1 & _).
  exists w'. split; [exact E1|]. split; [exact C1|]. split; [|split].
  - intros ->. rewrite show_error_no_display in E1.
    apply (f_equal snd) in E1. cbn [snd] in E1. clear C1. subst w'.
    now rewrite (new_events_ext w _ [nap; said]) by reflexivity.
  - intros l -> H. rewrite (show_error_display l cols msg secs w H) in E1.
    apply (f_equal snd) in E1. cbn [snd] in E1. clear C1. subst w'.
    rewrite (new_events_ext w _
               (nap :: rev (screen_events cols "ERROR" (clamp_str (PStr msg) cols) c)
                ++ [said])).
    + cbn [rev]. rewrite rev_app_distr, rev_involutive. reflexivity.
    + reflexivity.
  - intros l e -> H. revert E1.
    unfold show_error, bind at 1. rewrite log_run. unfold bind at 1, try_except.
    change (lcd_truthy (Some l)) with true. cbv iota.
    unfold bind at 1, lcd_clear, lcd_call.
    change (n_lcd (after_log (py_format "ERROR: {}" [PStr msg]) w)) with (n_lcd w).
    rewrite H. rewrite log_run. unfold sleep, sleep_ms.
    intros E1. apply (f_equal snd) in E1. cbn [snd] in E1. clear C1. subst w'.
    rewrite (new_events_ext w _
               [nap; log_at c (py_format "LCD show_error failed: {}" [PStr (exn_msg e)]);
                said]) by reflexivity.
    reflexivity.
Qed.

(** X20. [show_coords] in full.  It always returns, after exactly
    [seconds] s.  On a display whose driver takes the calls it shows
    "Coords lat/lon" over the two coordinates rounded to four places and
    logs that it did.  Without a display (main calls it all the same)
    nothing is drawn and a failure is logged instead. *)
Theorem show_coords_screen (lcd : option Lcd_i2c) (cols : Z) (la lo : pyfloat)
    (secs : Z) (w : world) :
  let c := clock w in
  let nap := (c, EvSleep (1000 * secs)) in
  exists w',
    show_coords lcd cols la lo secs w = (Val tt, w')
    /\ clock w' = c + 1000 * secs
    /\ (lcd = None ->
        exists m, new_events w w'
                  = [log_at c (py_format "LCD show_coords failed: {}" [PStr m]); nap])
    /\ (forall l, lcd = Some l -> lcd_healthy (n_lcd w) 5 ->
          new_events w w'
          = screen_events cols "Coords lat/lon"
              (py_format "{} {}" [PFloat (py_round la 4); PFloat (py_round lo 4)]) c
            ++ [log_at c "LCD: showed coords"; nap]).
Proof.
  intros c nap. destruct lcd as [l|].
  - destruct (lcd_at E (n_lcd w)) as [e|] eqn:H0.
    + eexists. split.
      { unfold show_coords, bind at 1, try_except. unfold bind at 1, lcd_clear, lcd_call.
        rewrite H0. rewrite log_run. reflexivity. }
      split; [reflexivity|]. split; [discriminate|].
      intros l' _ Hh. pose proof (Hh 0%nat ltac:(lia)) as X. simpl in X.
      congruence.
    + assert (Hrun : exists w1, try_except
                       (lcd_clear (Some l) ;;
                        lcd_write_lines (Some l) cols "Coords lat/lon"
                          (py_format "{} {}" [PFloat (py_round la 4);
                                              PFloat (py_round lo 4)]) ;;
                        log "LCD: showed coords")
                       (fun e => log (py_format "LCD show_coords failed: {}"
                                        [PStr (exn_msg e)])) w = (Val tt, w1)
                     /\ quiet w w1
                     /\ (lcd_healthy (n_lcd w) 5 ->
                         w1 = after_log "LCD: showed coords"
                                (painted cols "Coords lat/lon"
                                   (py_format "{} {}" [PFloat (py_round la 4);
                                                       PFloat (py_round lo 4)]) w))).
      { assert (R : returns quiet
                      (try_except
                         (lcd_clear (Some l) ;;
                          lcd_write_lines (Some l) cols "Coords lat/lon"
                            (py_format "{} {}" [PFloat (py_round la 4);
                                                PFloat (py_round lo 4)]) ;;
                          log "LCD: showed coords")
                         (fun e => log (py_format "LCD show_coords failed: {}"
                                          [PStr (exn_msg e)])))).
        { apply (returns_try quiet quiet_trans).
          - apply (runs_bind quiet quiet_trans); [apply runs_lcd_clear|].
            intros _. apply (runs_bind quiet quiet_trans);
              [apply runs_lcd_write_lines|].
            intros _. apply returns_runs, returns_log.
          - intros e. apply returns_log. }
        destruct (R w) as ([] & w1 & E1 & Q1). exists w1.
        split; [exact E1|]. split; [exact Q1|]. intros Hh.
        revert E1. unfold try_except.
        pose proof (paint_ok l cols "Coords lat/lon"
                      (py_format "{} {}" [PFloat (py_round la 4);
                                          PFloat (py_round lo 4)]) w Hh) as P.
        unfold bind in P |- *.
        destruct (lcd_clear (Some l) w) as [[[]|e|] wa]; try discriminate.
        destruct (lcd_write_lines (Some l) cols "Coords lat/lon"
                    (py_format "{} {}" [PFloat (py_round la 4);
                                        PFloat (py_round lo 4)]) wa)
          as [[[]|e|] wb]; try discriminate.
        injection P as ->. rewrite log_run. intros E1. now injection E1 as <-. }
      destruct Hrun as (w1 & E1 & Q1 & Hw1).
      exists (advance (1000 * secs) (emit_at (EvSleep (1000 * secs)) w1)).
      split.
      { unfold show_coords, bind at 1. rewrite E1. reflexivity. }
      destruct Q1 as (Qc & _).
      split; [cbn [clock advance emit_at]; subst c; lia|].
      split; [discriminate|].
      intros l' _ Hh. rewrite (Hw1 Hh).
      rewrite (new_events_ext w _
                 (nap :: log_at c "LCD: showed coords"
                      :: rev (screen_events cols "Coords lat/lon"
                                (py_format "{} {}" [PFloat (py_round la 4);
                                                    PFloat (py_round lo 4)]) c))).
      * cbn [rev]. rewrite !rev_involutive. now rewrite <- !app_assoc.
      * reflexivity.
  - eexists. split; [reflexivity|]. split; [reflexivity|].
    split; [|discriminate]. intros _.
    exists "'NoneType' object has no attribute"%string.
    now rewrite (new_events_ext w _
                   [nap; log_at c (py_format "LCD show_coords failed: {}"
                                     [PStr "'NoneType' object has no attribute"])])
      by reflexivity.
Qed.

Lemma returns_get_time_string : returns quiet get_time_string.
Proof.
  intros w. unfold get_time_string, bind, localtime_hms, ret.
  destruct (localtime_at E (n_localtime w)) as [[h m] s].
  do 2 eexists. split; [reflexivity|].
  repeat split. exists []. split; reflexivity.
Qed.

(** One screen of the cycle: whatever the drawing does, the dwell of 2 s
    follows. *)
Lemma shows_screen (draw : M unit) (what : string) (w : world) :
  runs quiet draw ->
  exists w',
    screen draw what w = (Val tt, w')
    /\ forall p, display_blind p -> shows p w w' 2000 [(clock w, EvSleep 2000)].
Proof.
  intros Hd.
  assert (R : returns quiet
                (try_except draw (fun e => log (py_format what [PStr (exn_msg e)])))).
  { apply (returns_try quiet quiet_trans); [exact Hd | intros e; apply returns_log]. }
  destruct (R w) as ([] & w1 & E1 & Q1).
  exists (advance 2000 (emit_at (EvSleep 2000) w1)). split.
  - unfold screen, bind at 1. rewrite E1. reflexivity.
  - intros p Hp.
    pose proof (shows_trans p _ _ _ _ _ _ _ (shows_quiet p w w1 Hp Q1)
                  (shows_sleep p 2000 w1)) as X.
    destruct Q1 as (Qc & _). rewrite Qc in X. exact X.
Qed.

Lemma shows_view (p : event -> bool) (w w' : world) (dt : Z)
    (L : list (Z * event)) :
  shows p w w' dt L -> view p (new_events w w') = view p L.
Proof.
  intros (_ & evs & T & V). now rewrite (new_events_ext w w' evs T).
Qed.

Lemma py_or_text (x : pyval) (dflt : string) :
  text_or_falsy x = true -> exists t, py_or x (PStr dflt) = PStr t.
Proof.
  unfold py_or, text_or_falsy.
  destruct x as [|b|z|[q| |]|c|[|? ?]|[|? ?]]; simpl; intros H;
    try discriminate; try (eexists; reflexivity).
  - destruct b; [discriminate | eexists; reflexivity].
  - destruct (z =? 0); [eexists; reflexivity | discriminate].
  - destruct (Qeq_bool q 0); [eexists; reflexivity | discriminate].
  - destruct (str_truthy c); eexists; reflexivity.
Qed.

Lemma py_or_no_text (x : pyval) (dflt : string) :
  text_or_falsy x = false ->
  py_or x (PStr dflt) = x /\ forall t, x <> PStr t.
Proof.
  unfold py_or, text_or_falsy.
  destruct x as [|b|z|[q| |]|c|[|? ?]|[|? ?]]; simpl; intros H;
    try discriminate; try (split; [reflexivity | discriminate]).
  - destruct b; [split; [reflexivity | discriminate] | discriminate].
  - destruct (z =? 0); [discriminate | split; [reflexivity | discriminate]].
  - destruct (Qeq_bool q 0); [discriminate | split; [reflexivity | discriminate]].
Qed.

(** The four screens of the cycle, to a predicate that does not see the
    display. *)
Lemma show_weather_cycle_body (lcd : option Lcd_i2c) (cols : Z) (g : geo)
    (s : weather) (w : world) :
  text_or_falsy (city g) = true -> text_or_falsy (country g) = true ->
  exists w',
    show_weather_cycle lcd cols g s w = (Val tt, w')
    /\ forall p, display_blind p -> shows p w w' 8000 (naps 4 2000 (clock w)).
Proof.
  intros Hcity Hcountry.
  assert (Hc : exists cs, py_str_add (py_or (city g) (PStr "Unknown")) " " = Val cs).
  { destruct (py_or_text _ "Unknown" Hcity) as (t & ->). eexists; reflexivity. }
  destruct Hc as (cs & Hc).
  assert (Hl : exists loc,
             match py_or (country g) (PStr "") with
             | PStr c => Val (py_strip (cs ++ c))
             | _ => Raise (mkExn TypeError "unsupported types for __add__")
             end = Val loc).
  { destruct (py_or_text _ "" Hcountry) as (t & ->). eexists; reflexivity. }
  destruct Hl as (loc & Hl).
  unfold show_weather_cycle. unfold bind at 1, lift. rewrite Hc.
  unfold bind at 1. rewrite Hl.
  assert (Rq : forall a b, runs quiet (lcd_clear lcd ;; lcd_write_lines lcd cols a b)).
  { intros a b. apply (runs_bind quiet quiet_trans); [apply runs_lcd_clear|].
    intros _. apply runs_lcd_write_lines. }
  destruct (shows_screen
              (lcd_clear lcd ;;
               time_str <- get_time_string ;;
               lcd_write_lines lcd cols "Time" time_str)
              "LCD weather time screen failed: {}" w) as (w1 & E1 & S1).
  { apply (runs_bind quiet quiet_trans); [apply runs_lcd_clear|]. intros _.
    apply (runs_bind quiet quiet_trans);
      [apply returns_runs, returns_get_time_string|].
    intros t. apply runs_lcd_write_lines. }
  unfold bind at 1. rewrite E1.
  match goal with
  | |- context [bind (screen ?d ?m) _ w1] =>
      destruct (shows_screen d m w1 (Rq _ _)) as (w2 & E2 & S2)
  end.
  unfold bind at 1. rewrite E2.
  match goal with
  | |- context [bind (screen ?d ?m) _ w2] =>
      destruct (shows_screen d m w2 (Rq _ _)) as (w3 & E3 & S3)
  end.
  unfold bind at 1. rewrite E3.
  match goal with
  | |- context [screen ?d ?m w3] =>
      destruct (shows_screen d m w3 (Rq _ _)) as (w4 & E4 & S4)
  end.
  rewrite E4. exists w4. split; [reflexivity|].
  { intros p Hp.
    pose proof (shows_trans p _ _ _ _ _ _ _
                  (shows_trans p _ _ _ _ _ _ _
                     (shows_trans p _ _ _ _ _ _ _ (S1 p Hp) (S2 p Hp)) (S3 p Hp))
                  (S4 p Hp)) as X.
    destruct (S1 p Hp) as (C1 & _), (S2 p Hp) as (C2 & _), (S3 p Hp) as (C3 & _).
    rewrite C3, C2, C1 in X. exact X. }
Qed.

(** X21. With a city and a country that are texts (or are missing), a
    cycle of the weather screens always returns, after exactly 8 s: four
    screens, each held for 2 s, whatever the display driver does with
    the drawing.  It sends nothing over HTTP and nothing to the
    interface. *)
Theorem show_weather_cycle_takes_8s (lcd : option Lcd_i2c) (cols : Z) (g : geo)
    (s : weather) (w : world) :
  text_or_falsy (city g) = true -> text_or_falsy (country g) = true ->
  exists w',
    show_weather_cycle lcd cols g s w = (Val tt, w')
    /\ clock w' = clock w + 8000
    /\ view is_sleep (new_events w w') = naps 4 2000 (clock w)
    /\ view is_http (new_events w w') = []
    /\ view is_wlan_cmd (new_events w w') = [].
Proof.
  intros Hcity Hcountry.
  destruct (show_weather_cycle_body lcd cols g s w Hcity Hcountry) as (w4 & E4 & S).
  exists w4. split; [exact E4|].
  split; [apply (S is_sleep); intros [] H; simpl in *; try discriminate; reflexivity|].
  split; [|split].
  - rewrite (shows_view _ _ _ _ _ (S is_sleep ltac:(intros [] H; simpl in *; try discriminate; reflexivity))).
    reflexivity.
  - rewrite (shows_view _ _ _ _ _ (S is_http ltac:(intros [] H; simpl in *; try discriminate; reflexivity))).
    reflexivity.
  - rewrite (shows_view _ _ _ _ _ (S is_wlan_cmd ltac:(intros [] H; simpl in *; try discriminate; reflexivity))).
    reflexivity.
Qed.

(** X22. A city that is neither a text nor missing (a number in the
    response of the lookup, say) makes the cycle raise a [TypeError] at
    [city + " "], before anything is drawn and before any wait; so does
    such a country.  Nothing in main catches it. *)
Theorem show_weather_cycle_needs_texts (lcd : option Lcd_i2c) (cols : Z) (g : geo)
    (s : weather) (w : world) :
  text_or_falsy (city g) = false \/ text_or_falsy (country g) = false ->
  exists e,
    show_weather_cycle lcd cols g s w = (Raise e, w)
    /\ exn_cls e = TypeError.
Proof.
  intros H. unfold show_weather_cycle, bind at 1, lift.
  destruct (text_or_falsy (city g)) eqn:Hc.
  - destruct H as [H|H]; [discriminate|].
    assert (X : exists cs, py_str_add (py_or (city g) (PStr "Unknown")) " " = Val cs).
    { destruct (py_or_text _ "Unknown" Hc) as (t & ->). eexists; reflexivity. }
    destruct X as (cs & ->). unfold bind at 1.
    assert (Y : match py_or (country g) (PStr "") with
                | PStr c => Val (py_strip (cs ++ c))
                | _ => Raise (mkExn TypeError "unsupported types for __add__")
                end = Raise (mkExn TypeError "unsupported types for __add__")).
    { destruct (py_or_no_text _ "" H) as (-> & Hn).
      destruct (country g); try reflexivity. now contradiction (Hn s0). }
    rewrite Y. eexists. split; reflexivity.
  - assert (X : py_str_add (py_or (city g) (PStr "Unknown")) " "
                = Raise (mkExn TypeError "unsupported types for __add__")).
    { destruct (py_or_no_text _ "Unknown" Hc) as (-> & Hn).
      destruct (city g); try reflexivity. now contradiction (Hn s0). }
    rewrite X. eexists. split; reflexivity.
Qed.

(* ------------------------------------------------------------------ *)
(** * The rounds of the polling loop *)

(** A guarded drawing on a display: it returns, and a driver that takes
    the calls leaves the screen painted. *)
Lemma guarded_paint_run (l : Lcd_i2c) (cols : Z) (a b what : string) (w : world) :
  exists w1,
    try_except
      (lcd_clear (Some l) ;; lcd_write_lines (Some l) cols a b)
      (fun e => log (py_format what [PStr (exn_msg e)])) w = (Val tt, w1)
    /\ quiet w w1
    /\ (lcd_healthy (n_lcd w) 5 -> w1 = painted cols a b w).
Proof.
  destruct (returns_guarded_paint (Some l) cols a b what true w)
    as ([] & w1 & E1 & Q1).
  exists w1. split; [exact E1|]. split; [exact Q1|]. intros Hh.
  revert E1. unfold try_except. rewrite (paint_ok l cols a b w Hh).
  intros E1. now injection E1 as <-.
Qed.


(** X23. A round with nothing to show (no sample yet, or no display)
    is a heartbeat: the counter goes up by one and is logged, the state
    is otherwise kept, and the round waits 1 s.  A display whose driver
    takes the calls shows "Running..." over "HB n". *)
Theorem heartbeat_round (lcd : option Lcd_i2c) (cols : Z) (g : geo)
    (st : loop_state) (w : world) :
  last_weather st = None \/ lcd = None ->
  let hb := heartbeat st + 1 in
  let c := clock w in
  let said := log_at c (py_format "Heartbeat {}" [PInt hb]) in
  exists w',
    show_round lcd cols g st w
    = (Val (mkLoop (last_weather st) (next_fetch st) hb), w')
    /\ clock w' = c + 1000
    /\ n_isconnected w' = n_isconnected w
    /\ view is_http (new_events w w') = []
    /\ (lcd = None -> new_events w w' = [said; (c, EvSleep 1000)])
    /\ (forall l, lcd = Some l -> lcd_healthy (n_lcd w) 5 ->
          new_events w w'
          = said :: screen_events cols "Running..." (py_format "HB {}" [PInt hb]) c
                 ++ [(c, EvSleep 1000)]).
Proof.
  intros H hb c said. destruct lcd as [l|].
  - destruct H as [H|H]; [|discriminate].
    unfold show_round. rewrite H. change (lcd_truthy (Some l)) with true. cbv iota.
    unfold bind at 1. rewrite log_run. unfold bind at 1.
    destruct (guarded_paint_run l cols "Running..." (py_format "HB {}" [PInt hb])
                "LCD heartbeat failed: {}"
                (after_log (py_format "Heartbeat {}" [PInt hb]) w))
      as (w1 & E1 & Q1 & P1).
    fold hb. rewrite E1. unfold bind, sleep, sleep_ms, ret.
    eexists. split; [reflexivity|].
    destruct Q1 as (Qc & _ & Qn & _ & _ & _ & _ & evs & T & F).
    cbn [clock n_isconnected trace after_log emit_at] in Qc, Qn, T.
    split; [cbn [clock advance emit_at]; subst c; lia|].
    split; [exact Qn|]. split.
    + rewrite (new_events_ext w _ ((c, EvSleep 1000) :: evs ++ [said]));
        [|cbn [trace advance emit_at]; rewrite T, Qc;
          rewrite <- app_comm_cons, <- app_assoc; reflexivity].
      rewrite view_rev. unfold view at 1. cbn [filter snd is_http].
      fold (view is_http (evs ++ [said])). rewrite view_app.
      rewrite (view_display_only is_http evs);
        [reflexivity | intros [] X; simpl in *; try discriminate; reflexivity | exact F].
    + split; [discriminate|]. intros l' _ Hh. rewrite (P1 Hh).
      rewrite (new_events_ext w _
                 ((c, EvSleep 1000)
                  :: rev (screen_events cols "Running..." (py_format "HB {}" [PInt hb]) c)
                  ++ [said])) by reflexivity.
      cbn [rev]. rewrite rev_app_distr, rev_involutive. reflexivity.
  - assert (X : show_round None cols g st w
                = (Val (mkLoop (last_weather st) (next_fetch st) hb),
                   advance 1000 (emit_at (EvSleep 1000)
                                   (after_log (py_format "Heartbeat {}" [PInt hb]) w)))).
    { unfold show_round. destruct (last_weather st); reflexivity. }
    rewrite X. eexists. split; [reflexivity|]. split; [reflexivity|].
    split; [reflexivity|].
    rewrite (new_events_ext w _ [(c, EvSleep 1000); said]) by reflexivity.
    split; [reflexivity|]. split; [reflexivity | discriminate].
Qed.

Lemma ticks_diff_of_clocks (t t0 : Z) :
  - (TICKS_PERIOD / 2) <= t - t0 < TICKS_PERIOD / 2 ->
  ticks_diff (t mod TICKS_PERIOD) (t0 mod TICKS_PERIOD) = t - t0.
Proof.
  intros H. apply (ticks_diff_congr _ _ _ (t0 / TICKS_PERIOD - t / TICKS_PERIOD));
    [|exact H].
  assert (P : TICKS_PERIOD <> 0) by discriminate.
  rewrite (Z.mod_eq t _ P), (Z.mod_eq t0 _ P). ring.
Qed.


(** X25. A fetch that returns a sample replaces the cached one.  The
    round then shows no error and does not wait: the poll takes no time,
    so the new deadline lies exactly one interval after the moment it is
    set. *)
Theorem successful_fetch_replaces_cache (api_key : string) (lcd : option Lcd_i2c)
    (cols : Z) (g : geo) (st : loop_state) (w w2 : world) (s : weather) :
  ticks_diff (clock w mod TICKS_PERIOD) (next_fetch st) >= 0 ->
  get_weather_openweathermap api_key (lat g) (lon g)
    (after_log "Weather fetch start" w) = (Val (Some s, None), w2) ->
  exists st' w',
    poll_weather api_key lcd cols g st w = (Val st', w')
    /\ last_weather st' = Some s
    /\ heartbeat st' = heartbeat st
    /\ clock w' = clock w
    /\ ticks_diff (next_fetch st') (clock w' mod TICKS_PERIOD) = interval_ms
    /\ view is_lcd (new_events w w') = []
    /\ view is_sleep (new_events w w') = []
    /\ view is_request (new_events w w')
       = [(clock w, EvGet (weather_url api_key (lat g) (lon g)) (Some 10))].
Proof.
  intros Hdue Hfetch.
  destruct (get_weather_spec api_key (lat g) (lon g)
              (after_log "Weather fetch start" w))
    as (r & w2' & evs & Hrun & Hoff & Htr & Hv).
  rewrite Hfetch in Hrun. injection Hrun as <- <-.
  destruct Hoff as (Hclk & _). cbn [clock trace after_log emit_at] in Hclk, Htr.
  assert (Hgeb : (ticks_diff (clock w mod TICKS_PERIOD) (next_fetch st) >=? 0) = true)
    by (apply Z.geb_le; lia).
  unfold poll_weather, bind at 1, ticks_ms. rewrite Hgeb.
  unfold bind at 1. rewrite log_run.
  unfold bind at 1. rewrite Hfetch.
  change (opt_truthy None || negb (is_some (Some s))) with false. cbv iota.
  unfold bind at 1, ret at 1. unfold bind at 1. rewrite log_run. unfold ret.
  do 2 eexists. split; [reflexivity|]. split; [reflexivity|].
  split; [reflexivity|]. split; [exact Hclk|]. split.
  { cbn [next_fetch clock after_log emit_at]. rewrite Hclk.
    apply ticks_diff_add. pose proof interval_fits. lia. }
  assert (V : forall p, http_quiet p ->
                view p (new_events w (after_log "Next fetch in 10min" w2))
                = view p [(clock w, EvGet (weather_url api_key (lat g) (lon g))
                                      (Some 10))]).
  { intros p Hp.
    rewrite (new_events_ext w _
               (log_at (clock w2) "Next fetch in 10min"
                :: evs ++ [log_at (clock w) "Weather fetch start"]));
      [|cbn [trace after_log emit_at]; rewrite Htr;
        rewrite <- app_comm_cons, <- app_assoc; reflexivity].
    rewrite view_rev. unfold view at 1, log_at. cbn [filter snd].
    destruct Hp as (Hl & Hc & Hb). rewrite Hl.
    fold (view p (evs ++ [(clock w, EvLog (log_line (clock w mod TICKS_PERIOD)
                                             "Weather fetch start"))])).
    rewrite view_app, (Hv p (conj Hl (conj Hc Hb))).
    unfold view. cbn [filter snd]. rewrite Hl.
    destruct (p (EvGet _ _)); reflexivity. }
  split; [|split].
  - rewrite (V is_lcd) by (repeat split). reflexivity.
  - rewrite (V is_sleep) by (repeat split). reflexivity.
  - rewrite (V is_request) by (repeat split). reflexivity.
Qed.

(** The events of a poll whose deadline is reached. *)
Lemma poll_due_request (api_key : string) (lcd : option Lcd_i2c) (cols : Z)
    (g : geo) (st : loop_state) (w : world) :
  ticks_diff (clock w mod TICKS_PERIOD) (next_fetch st) >= 0 ->
  exists r w',
    poll_weather api_key lcd cols g st w = (r, w')
    /\ view is_request (new_events w w')
       = [(clock w, EvGet (weather_url api_key (lat g) (lon g)) (Some 10))].
Proof.
  intros Hdue.
  destruct (get_weather_spec api_key (lat g) (lon g)
              (after_log "Weather fetch start" w))
    as (r & w2 & evs & Hrun & Hoff & Htr & Hv).
  assert (Hreq : view is_request evs
                 = [(clock w, EvGet (weather_url api_key (lat g) (lon g)) (Some 10))]).
  { rewrite (Hv is_request) by (repeat split). reflexivity. }
  cbn [trace after_log emit_at] in Htr.
  assert (Hgeb : (ticks_diff (clock w mod TICKS_PERIOD) (next_fetch st) >=? 0) = true)
    by (apply Z.geb_le; lia).
  assert (Hend : forall (w4 : world) (e4 : list (Z * event)),
             trace w4 = e4 ++ trace w2 -> view is_request e4 = [] ->
             view is_request (new_events w w4)
             = [(clock w, EvGet (weather_url api_key (lat g) (lon g)) (Some 10))]).
  { intros w4 e4 T4 V4.
    rewrite (new_events_ext w w4
               (e4 ++ evs ++ [log_at (clock w) "Weather fetch start"]));
      [|rewrite T4, Htr; now rewrite <- !app_assoc].
    rewrite view_rev, !view_app, V4, Hreq. reflexivity. }
  unfold poll_weather, bind at 1, ticks_ms. rewrite Hgeb.
  unfold bind at 1. rewrite log_run.
  unfold bind at 1. rewrite Hrun. destruct r as [[ow werr]|e|].
  - unfold bind at 1.
    destruct (opt_truthy werr || negb (is_some ow)).
    + unfold bind at 1. rewrite log_run. fold (cached_notice lcd cols).
      assert (X : exists w4 e4,
                 (if is_some (last_weather st) && lcd_truthy lcd
                  then cached_notice lcd cols
                  else show_error lcd cols (opt_or werr "Weather fail") 2)
                   (after_log (py_format "Weather fetch failed: {}" [opt_val werr]) w2)
                 = (Val tt, w4)
                 /\ trace w4 = e4 ++ trace w2 /\ view is_request e4 = []).
      { destruct (is_some (last_weather st) && lcd_truthy lcd).
        - destruct (returns_cached_notice lcd cols
                      (after_log (py_format "Weather fetch failed: {}" [opt_val werr]) w2))
            as ([] & w4 & E4 & (_ & _ & _ & e4 & T4 & F4)).
          exists w4. eexists (e4 ++ [_]). split; [exact E4|].
          split; [rewrite T4; cbn [trace after_log emit_at]; now rewrite <- app_assoc|].
          rewrite view_app. rewrite (view_offline is_request e4);
            [reflexivity | intros []; simpl; try discriminate; reflexivity | exact F4].
        - destruct (returns_show_error lcd cols (opt_or werr "Weather fail") 2
                      ltac:(lia)
                      (after_log (py_format "Weather fetch failed: {}" [opt_val werr]) w2))
            as ([] & w4 & E4 & (_ & _ & _ & e4 & T4 & F4)).
          exists w4. eexists (e4 ++ [_]). split; [exact E4|].
          split; [rewrite T4; cbn [trace after_log emit_at]; now rewrite <- app_assoc|].
          rewrite view_app. rewrite (view_offline is_request e4);
            [reflexivity | intros []; simpl; try discriminate; reflexivity | exact F4]. }
      destruct X as (w4 & e4 & E4 & T4 & V4).
      unfold bind at 1. rewrite E4. unfold ret at 1. cbv iota beta.
      unfold bind. rewrite log_run. unfold ret. do 2 eexists.
      split; [reflexivity|].
      apply (Hend _ (log_at (clock w4) "Next fetch in 10min" :: e4));
        [cbn [trace after_log emit_at]; now rewrite T4|].
      unfold view, log_at. cbn [filter snd is_request]. exact V4.
    + unfold ret at 1. cbv iota beta. unfold bind. rewrite log_run. unfold ret.
      do 2 eexists. split; [reflexivity|].
      apply (Hend _ [log_at (clock w2) "Next fetch in 10min"]); reflexivity.
  - do 2 eexists. split; [reflexivity|]. apply (Hend _ []); reflexivity.
  - do 2 eexists. split; [reflexivity|]. apply (Hend _ []); reflexivity.
Qed.

(** X26. When the fetch falls due.  The deadline is a tick [t0 mod 2^30]:
    the tick of line 427 at first, later the tick of a round plus the
    interval.  A round that starts at or after [t0] (and less than 2^29
    ms after it) sends the weather request, once, whatever comes of it;
    a round that starts before [t0] (and no more than 2^29 ms before
    it) sends none and leaves the state as it is.  So the first round
    of the loop always fetches. *)
Theorem fetch_when_deadline_reached (api_key : string) (lcd : option Lcd_i2c)
    (cols : Z) (g : geo) (st : loop_state) (w : world) (t0 : Z) :
  next_fetch st = t0 mod TICKS_PERIOD ->
  (t0 <= clock w < t0 + TICKS_PERIOD / 2 ->
   exists r w',
     poll_weather api_key lcd cols g st w = (r, w')
     /\ view is_request (new_events w w')
        = [(clock w, EvGet (weather_url api_key (lat g) (lon g)) (Some 10))])
  /\ (t0 - TICKS_PERIOD / 2 <= clock w < t0 ->
      poll_weather api_key lcd cols g st w = (Val st, w))
  /\ (forall c, ticks_add (c mod TICKS_PERIOD) interval_ms
                = (c + interval_ms) mod TICKS_PERIOD).
Proof.
  intros Hn. split; [|split].
  - intros Ht. apply poll_due_request. rewrite Hn.
    rewrite ticks_diff_of_clocks by lia. lia.
  - intros Ht. apply poll_not_due. rewrite Hn.
    rewrite ticks_diff_of_clocks by lia. lia.
  - intros c. unfold ticks_add. now rewrite Z.add_mod_idemp_l by discriminate.
Qed.

(* ------------------------------------------------------------------ *)
(** * From the lookup to the polling loop *)









End Firmware.

(* ------------------------------------------------------------------ *)
(** * Runs on the example environments *)

Lemma pad_right_exact_width_witness :
  0 <= 16 /\ len (pad_right plain_str (PStr "Hum: 55%") 16) = 16.
Proof.
  split; [lia|].
  apply (pad_right_exact_width plain_str (PStr "Hum: 55%") 16). lia.
Defined.

Lemma wifi_ensure_connected_bounded_witness :
  (85 <= 100)%nat
  /\ polls_down env_down (n_isconnected w0) 294
  /\ isconnected_at env_up (n_isconnected w0) = true
  /\ (exists w', wifi_ensure_connected env_down plain_str 100 "net" "pw" lcd16 16 w0
                 = (Val false, w') /\ clock w' = 87600)
  /\ fst (wifi_ensure_connected env_up plain_str 100 "net" "pw" lcd16 16 w0)
     = Val true.
Proof.
  assert (H1 : (85 <= 100)%nat) by lia.
  assert (H2 : polls_down env_down (n_isconnected w0) 294)
    by (intros i _; reflexivity).
  assert (H3 : isconnected_at env_up (n_isconnected w0) = true) by reflexivity.
  split; [exact H1|]. split; [exact H2|]. split; [exact H3|]. split.
  - destruct (proj1 (wifi_ensure_connected_bounded env_down plain_str 100
                       "net" "pw" lcd16 16 w0) H1 H2) as (w' & E1 & Hc & _).
    exists w'. split; [exact E1 | exact Hc].
  - destruct (proj2 (wifi_ensure_connected_bounded env_up plain_str 100
                       "net" "pw" lcd16 16 w0) H3) as (E1 & _).
    now rewrite E1.
Defined.

Lemma poll_advances_deadline_witness :
  ticks_diff (clock w0 mod TICKS_PERIOD) (next_fetch due_fresh) >= 0
  /\ exists res w2,
       get_weather_openweathermap env_down plain_str "KEY" (lat prague) (lon prague)
         (after_log plain_str "Weather fetch start" w0) = (Val res, w2)
       /\ exists st' w',
            poll_weather env_down plain_str "KEY" None 16 prague due_fresh w0
            = (Val st', w')
            /\ next_fetch st' = 600000.
Proof.
  assert (H1 : ticks_diff (clock w0 mod TICKS_PERIOD) (next_fetch due_fresh) >= 0)
    by (vm_compute; discriminate).
  split; [exact H1|]. do 2 eexists. split; [reflexivity|].
  destruct (poll_advances_deadline env_down plain_str "KEY" None 16 prague
              due_fresh w0 _ _ H1 eq_refl) as (st' & w' & E1 & Hn & _).
  exists st', w'. split; [exact E1|]. rewrite Hn. reflexivity.
Defined.

(** C2, counterexample.  With no display, no cached sample and a fetch
    that fails, [show_error] holds the round for 2 s before the deadline
    is set from the tick read before the fetch: when it is set it lies
    598 s ahead, not 600 s. *)
Lemma deadline_short_of_interval :
  ticks_diff (clock w0 mod TICKS_PERIOD) (next_fetch due_fresh) >= 0
  /\ fst (poll_weather env_down plain_str "KEY" None 16 prague due_fresh w0)
     = Val (mkLoop None 600000 0)
  /\ clock (snd (poll_weather env_down plain_str "KEY" None 16 prague due_fresh w0))
     = 2000
  /\ ~ deadline_one_interval_ahead env_down plain_str "KEY" None 16 prague
         due_fresh w0.
Proof.
  split; [vm_compute; discriminate|]. split; [reflexivity|]. split; [reflexivity|].
  intros H. specialize (H _ _ eq_refl). vm_compute in H. discriminate H.
Qed.

Lemma failed_fetch_keeps_cache_witness :
  ticks_diff (clock w0 mod TICKS_PERIOD) (next_fetch due_cached) >= 0
  /\ exists werr w2,
       get_weather_openweathermap env_down plain_str "KEY" (lat prague) (lon prague)
         (after_log plain_str "Weather fetch start" w0) = (Val (None, werr), w2)
       /\ lcd_healthy env_down (n_lcd w0) 5
       /\ exists st' w',
            poll_weather env_down plain_str "KEY" lcd16 16 prague due_cached w0
            = (Val st', w')
            /\ last_weather st' = Some sample0
            /\ view is_lcd (new_events w0 w')
               = [(0, EvLcdClear); (0, EvLcdSetCursor 0 0);
                  (0, EvLcdWrite "API warn        ");
                  (0, EvLcdSetCursor 0 1);
                  (0, EvLcdWrite "using cached    ")].
Proof.
  assert (H1 : ticks_diff (clock w0 mod TICKS_PERIOD) (next_fetch due_cached) >= 0)
    by (vm_compute; discriminate).
  assert (H2 : lcd_healthy env_down (n_lcd w0) 5) by (intros i _; reflexivity).
  split; [exact H1|]. do 2 eexists. split; [reflexivity|]. split; [exact H2|].
  destruct (failed_fetch_keeps_cache env_down plain_str "KEY" lcd16 16 prague
              due_cached w0 _ _ H1 eq_refl) as (st' & w' & E1 & Hl & Hd & _).
  exists st', w'. split; [exact E1|]. split; [exact Hl|].
  destruct (Hd (mkLcd 16 2) eq_refl H2) as (_ & V). exact V.
Defined.

(** C5, counterexample.  The display failed to initialise ([lcd] is
    [None]), a sample is cached and the fetch fails: the guard
    [last_weather and lcd] sends the round to [show_error], and the
    notice is written nowhere. *)
Lemma notice_missing_without_display :
  ticks_diff (clock w0 mod TICKS_PERIOD) (next_fetch due_cached) >= 0
  /\ fst (get_weather_openweathermap env_down plain_str "KEY" (lat prague)
            (lon prague) (after_log plain_str "Weather fetch start" w0))
     = Val (None, Some "NET ECONNRESET")
  /\ fst (poll_weather env_down plain_str "KEY" None 16 prague due_cached w0)
     = Val (mkLoop (Some sample0) 600000 0)
  /\ ~ notice_shown_once env_down plain_str "KEY" None 16 prague due_cached w0.
Proof.
  split; [vm_compute; discriminate|]. split; [reflexivity|]. split; [reflexivity|].
  intros H. specialize (H _ _ eq_refl). vm_compute in H. discriminate H.
Qed.





Lemma weather_int_fields_truncate_witness :
  exists w1 s w2,
    http_get_json env_net plain_str (weather_url plain_str "KEY" (lat prague) (lon prague))
      10 w_polling = (Val (weather_body, None), w1)
    /\ get_weather_openweathermap env_net plain_str "KEY" (lat prague) (lon prague)
         w_polling = (Val (Some s, None), w2)
    /\ humidity s = Some 55
    /\ pressure s = Some 1013
    /\ temp s = Fin (237 # 10)
    /\ wind s = Some (Fin (34 # 10)).
Proof.
  do 3 eexists. split; [reflexivity|]. split; [reflexivity|].
  destruct (weather_int_fields_truncate env_net plain_str "KEY" (lat prague)
              (lon prague) w_polling _ _ weather_body None _ eq_refl eq_refl)
    as (Hh & Hp & Ht & Hw & _).
  split; [exact (Hh (557 # 10)%Q eq_refl)|].
  split; [exact (Hp (10139 # 10)%Q eq_refl)|].
  split; [exact (Ht _ eq_refl) | exact (Hw _ eq_refl)].
Defined.

(** C4, at the failing input.  The response has a numeric temperature
    and no humidity; its pressure is the string "1013.5".  [is_number]
    accepts it, since [float("1013.5")] returns, and [int("1013.5")]
    then raises: no sample is returned, and the exception leaves main.
    The same response without the pressure gives the sample with the
    temperature and everything else absent. *)
Theorem pressure_text_breaks_sample :
  is_number (PStr "1013.5") = true
  /\ py_int (PStr "1013.5") = Raise (mkExn ValueError "invalid syntax for integer")
  /\ weather_of_data pressure_text_body
     = Raise (mkExn ValueError "invalid syntax for integer")
  /\ fst (get_weather_openweathermap env_pressure_text plain_str "KEY"
            (lat prague) (lon prague) w0)
     = Raise (mkExn ValueError "invalid syntax for integer")
  /\ fst (main_after_wifi env_crash plain_str 100 5 "net" "pw" "KEY" lcd16 16 w0)
     = Raise (mkExn ValueError "invalid syntax for integer")
  /\ weather_of_data (PDict [("main", PDict [("temp", PFloat (Fin (215 # 10)))])])
     = Val (inl (mkWeather (Fin (215 # 10)) None None None (PStr ""))).
Proof. repeat split; vm_compute; reflexivity. Qed.

(* ------------------------------------------------------------------ *)
(** * The further statements on the example environments *)

Lemma clamp_str_bounded_witness :
  0 <= 16
  /\ clamp_str plain_str (PStr "Temp: 23.7C testing") 16
     = str_take 16 "Temp: 23.7C testing".
Proof.
  split; [lia|].
  apply (proj1 (clamp_str_bounded plain_str (PStr "Temp: 23.7C testing") 16
                  ltac:(lia))).
Defined.

Lemma pad_right_after_clamp_str_witness :
  0 <= 16
  /\ pad_right plain_str (PStr (clamp_str plain_str (PStr "Missing lat/lon, again") 16)) 16
     = pad_right plain_str (PStr "Missing lat/lon, again") 16.
Proof.
  split; [lia|].
  apply (pad_right_after_clamp_str plain_str (PStr "Missing lat/lon, again") 16).
  lia.
Defined.

Lemma pad_right_negative_width_witness :
  -1 < 0 /\ pad_right plain_str (PStr "abc") (-1) = "ab".
Proof.
  split; [lia|].
  rewrite (proj1 (pad_right_negative_width plain_str (PStr "abc") (-1) ltac:(lia))).
  reflexivity.
Defined.

Lemma get_time_string_format_witness :
  localtime_at env_down (n_localtime w0) = (12, 0, 5)
  /\ exists t, get_time_string env_down w0 = (Val t, bump_localtime w0)
               /\ len t = 8.
Proof.
  split; [reflexivity|].
  destruct (get_time_string_format env_down w0 12 0 5 eq_refl
              ltac:(lia) ltac:(lia) ltac:(lia))
    as (h1 & h0 & m1 & m0 & s1 & s0 & E1 & _).
  eexists. split; [exact E1 | reflexivity].
Defined.

Lemma weather_sample_of_json_numbers_witness :
  well_formed_weather weather_fields = true
  /\ assoc "main" weather_fields = Some (PDict weather_main)
  /\ exists s, weather_of_data (PDict weather_fields) = Val (inl s)
               /\ humidity s = Some 55
               /\ desc s = PStr "".
Proof.
  split; [reflexivity|]. split; [reflexivity|].
  destruct (weather_sample_of_json_numbers weather_fields weather_main
              eq_refl eq_refl) as (s & E1 & _ & Hh & _ & _ & _ & _ & _ & Hd).
  exists s. split; [exact E1|]. split; [rewrite Hh; reflexivity | exact Hd].
Defined.

Lemma display_calls_fit_the_display_witness :
  0 <= 16
  /\ Forall (fun te =>
               match snd te with
               | EvLcdWrite s => len s = 16
               | EvLcdSetCursor c r => c = 0 /\ (r = 0 \/ r = 1)
               | _ => True
               end)
       (new_events w0
          (snd (guarded_main plain_str
                  (main_from_wifi env_net plain_str 100 2 "net" "pw" "KEY" lcd16 16)
                  2 w0))).
Proof.
  split; [lia|].
  apply (display_calls_fit_the_display env_net plain_str 100 2 2 "net" "pw" "KEY"
           lcd16 16 w0).
  lia.
Defined.

Lemma wifi_ensure_connected_deadline_witness :
  (85 <= 100)%nat
  /\ exists b w',
       wifi_ensure_connected env_late plain_str 100 "net" "pw" lcd16 16 w0
       = (Val b, w')
       /\ clock w' <= 88600.
Proof.
  assert (H1 : (85 <= 100)%nat) by lia.
  split; [exact H1|].
  destruct (wifi_ensure_connected_deadline env_late plain_str 100 "net" "pw"
              lcd16 16 w0 H1) as (b & w' & E1 & Hc & _).
  exists b, w'. split; [exact E1|]. simpl in Hc. lia.
Defined.

Lemma wifi_verdict_is_last_poll_witness :
  (85 <= 100)%nat
  /\ exists b w',
       wifi_ensure_connected env_late plain_str 100 "net" "pw" lcd16 16 w0
       = (Val b, w')
       /\ isconnected_at env_late (n_isconnected w' - 1) = b.
Proof.
  assert (H1 : (85 <= 100)%nat) by lia.
  split; [exact H1|].
  destruct (wifi_verdict_is_last_poll env_late plain_str 100 "net" "pw"
              lcd16 16 w0 H1) as (b & w' & E1 & _ & Hl & _).
  exists b, w'. split; [exact E1 | exact Hl].
Defined.

Lemma wifi_gate_opens_on_connection_witness :
  (85 <= 100)%nat
  /\ isconnected_at env_up (n_isconnected w0) = true
  /\ never_up env_down (n_isconnected w0)
  /\ wifi_gate env_up plain_str 100 2 "net" "pw" lcd16 16 w0
     = (Val tt, bump_isconnected w0)
  /\ exists w', wifi_gate env_down plain_str 100 2 "net" "pw" lcd16 16 w0
                = (OutOfFuel, w')
                /\ clock w' = 268800.
Proof.
  assert (H1 : (85 <= 100)%nat) by lia.
  assert (H2 : isconnected_at env_up (n_isconnected w0) = true) by reflexivity.
  assert (H3 : never_up env_down (n_isconnected w0)) by (intros i _; reflexivity).
  split; [exact H1|]. split; [exact H2|]. split; [exact H3|]. split.
  - exact (proj1 (wifi_gate_opens_on_connection env_up plain_str 100 2 "net" "pw"
                    lcd16 16 w0 H1) H2).
  - destruct (proj2 (proj2 (wifi_gate_opens_on_connection env_down plain_str 100 2
                              "net" "pw" lcd16 16 w0 H1)) H3)
      as (w' & E1 & Hc & _).
    exists w'. split; [exact E1|]. rewrite Hc. reflexivity.
Defined.

Lemma fatal_error_halts_witness :
  exists e w1 w',
    main_from_wifi env_crash plain_str 100 2 "net" "pw" "KEY" lcd16 16 w0
    = (Raise e, w1)
    /\ guarded_main plain_str
         (main_from_wifi env_crash plain_str 100 2 "net" "pw" "KEY" lcd16 16) 3 w0
       = (OutOfFuel, w')
    /\ clock w' = clock w1 + 3000.
Proof.
  do 2 eexists.
  assert (H : main_from_wifi env_crash plain_str 100 2 "net" "pw" "KEY" lcd16 16 w0
              = (Raise (mkExn ValueError "invalid syntax for integer"),
                 snd (main_from_wifi env_crash plain_str 100 2 "net" "pw" "KEY"
                        lcd16 16 w0)))
    by (vm_compute; reflexivity).
  destruct (proj1 (fatal_error_halts plain_str
                     (main_from_wifi env_crash plain_str 100 2 "net" "pw" "KEY"
                        lcd16 16) 3 w0) _ _ H) as (w' & E1 & Hc & _).
  exists w'. split; [exact H|]. split; [exact E1 | exact Hc].
Defined.

Lemma read_settings_defaults_witness :
  read_settings config0
  = Val (mkSettings (PStr "net") (PStr "pw") (PStr "KEY") 0 0 1 20 4)
  /\ read_settings (PDict [])
     = Val (mkSettings (PStr "") (PStr "") (PStr "") 0 0 1 16 2).
Proof.
  split.
  - exact (proj1 (proj2 (read_settings_defaults config0)) _ _ eq_refl eq_refl eq_refl).
  - exact (proj1 (read_settings_defaults (PDict [])) _ eq_refl eq_refl).
Defined.

Lemma lcd_write_lines_stops_at_failure_witness :
  lcd_healthy env_lcd_third (n_lcd w0) 2
  /\ lcd_at env_lcd_third (2 + n_lcd w0) = Some (mkExn OSError "EIO")
  /\ exists w',
       lcd_write_lines env_lcd_third plain_str lcd16 16 "BOOT OK" "I2C: none" w0
       = (Raise (mkExn OSError "EIO"), w')
       /\ new_events w0 w' = [(0, EvLcdSetCursor 0 0); (0, EvLcdWrite "BOOT OK         ")].
Proof.
  assert (H1 : lcd_healthy env_lcd_third (n_lcd w0) 2).
  { intros i Hi. destruct i as [|[|i]]; [reflexivity | reflexivity | lia]. }
  split; [exact H1|]. split; [reflexivity|].
  destruct (proj1 (proj2 (lcd_write_lines_stops_at_failure env_lcd_third plain_str
                            16 "BOOT OK" "I2C: none" w0))
              (mkLcd 16 2) 2%nat _ ltac:(lia) H1 eq_refl) as (w' & E1 & Hn & _).
  exists w'. split; [exact E1 | exact Hn].
Defined.

Lemma show_weather_cycle_takes_8s_witness :
  text_or_falsy (city prague) = true
  /\ text_or_falsy (country prague) = true
  /\ exists w',
       show_weather_cycle env_down plain_str lcd16 16 prague sample0 w0 = (Val tt, w')
       /\ clock w' = 8000.
Proof.
  split; [reflexivity|]. split; [reflexivity|].
  destruct (show_weather_cycle_takes_8s env_down plain_str lcd16 16 prague sample0 w0
              eq_refl eq_refl) as (w' & E1 & Hc & _).
  exists w'. split; [exact E1 | exact Hc].
Defined.

Lemma show_weather_cycle_needs_texts_witness :
  (text_or_falsy (city numbered_city) = false
   \/ text_or_falsy (country numbered_city) = false)
  /\ exists e,
       show_weather_cycle env_down plain_str lcd16 16 numbered_city sample0 w0
       = (Raise e, w0)
       /\ exn_cls e = TypeError.
Proof.
  assert (H : text_or_falsy (city numbered_city) = false
              \/ text_or_falsy (country numbered_city) = false)
    by (left; reflexivity).
  split; [exact H|].
  exact (show_weather_cycle_needs_texts env_down plain_str lcd16 16 numbered_city
           sample0 w0 H).
Defined.

Lemma heartbeat_round_witness :
  (last_weather due_fresh = None \/ lcd16 = None)
  /\ exists w',
       show_round env_down plain_str lcd16 16 prague due_fresh w0
       = (Val (mkLoop None 0 1), w')
       /\ clock w' = 1000.
Proof.
  assert (H : last_weather due_fresh = None \/ lcd16 = None) by (left; reflexivity).
  split; [exact H|].
  destruct (heartbeat_round env_down plain_str lcd16 16 prague due_fresh w0 H)
    as (w' & E1 & Hc & _).
  exists w'. split; [exact E1 | exact Hc].
Defined.


Lemma successful_fetch_replaces_cache_witness :
  ticks_diff (clock w_polling mod TICKS_PERIOD) (next_fetch due_cached) >= 0
  /\ exists s w2,
       get_weather_openweathermap env_net plain_str "KEY" (lat prague) (lon prague)
         (after_log plain_str "Weather fetch start" w_polling)
       = (Val (Some s, None), w2)
       /\ exists st' w',
            poll_weather env_net plain_str "KEY" lcd16 16 prague due_cached w_polling
            = (Val st', w')
            /\ last_weather st' = Some s
            /\ humidity s = Some 55
            /\ clock w' = 3000.
Proof.
  assert (H1 : ticks_diff (clock w_polling mod TICKS_PERIOD) (next_fetch due_cached) >= 0)
    by (vm_compute; discriminate).
  split; [exact H1|]. do 2 eexists. split; [reflexivity|].
  destruct (successful_fetch_replaces_cache env_net plain_str "KEY" lcd16 16 prague
              due_cached w_polling _ _ H1 eq_refl)
    as (st' & w' & E1 & Hl & _ & Hc & _).
  exists st', w'. split; [exact E1|]. split; [exact Hl|].
  split; [reflexivity | exact Hc].
Defined.

Lemma fetch_when_deadline_reached_witness :
  next_fetch due_fresh = 0 mod TICKS_PERIOD
  /\ 0 <= clock w_polling < 0 + TICKS_PERIOD / 2
  /\ exists r w',
       poll_weather env_net plain_str "KEY" lcd16 16 prague due_fresh w_polling
       = (r, w')
       /\ view is_request (new_events w_polling w')
          = [(3000, EvGet (weather_url plain_str "KEY" (lat prague) (lon prague))
                      (Some 10))].
Proof.
  assert (H1 : next_fetch due_fresh = 0 mod TICKS_PERIOD) by reflexivity.
  assert (H2 : 0 <= clock w_polling < 0 + TICKS_PERIOD / 2)
    by (split; [discriminate | reflexivity]).
  split; [exact H1|]. split; [exact H2|].
  exact (proj1 (fetch_when_deadline_reached env_net plain_str "KEY" lcd16 16 prague
                  due_fresh w_polling 0 H1) H2).
Defined.
